(** * BubbleAi: the autonomous agent's stream/metadata handling and the
      per-turn pipeline of the chat hook

    Shallow embedding of
      - [runAutonomousAgent] (agents/autonomous: streaming loop, metadata
        extraction, action dispatch, credit gate), and
      - [handleSendMessage] (hooks/useChat: optimistic placeholders,
        persistence, reconciliation of the view), [handleDeleteChat], and
      - the search effect of [ChatView] (components/chat/ChatView),
    followed by the properties of the specification that concern them and
    by further properties of the code.

    Conventions.  A JavaScript string is the list of its UTF-16 code units.
    An awaited call is one atomic step: the program is single-threaded and
    every call below is awaited, so a run is a sequence of collaborator
    calls, recorded in a trace.  Collaborators that live outside the two
    source files (the model stream, the database client, [generateImage],
    [JSON.parse], [getUserFriendlyError], the clock) are oracles: fields of
    an environment record that fix what each call answers.  Calls whose
    promise is not awaited ([saveMemory], [extractAndSaveMemory]) are
    recorded when they are made; what becomes of them is not modelled.
    Line numbers refer to the two source files. *)

From Stdlib Require Import String Ascii DecimalString.
From Stdlib Require Import List ZArith NArith Bool Lia Sorted.
Import ListNotations.

Set Implicit Arguments.
Set Warnings "-register-all".

(* ===================================================================== *)
(** ** JavaScript built-ins used by the code *)
(* ===================================================================== *)

Module JS.

Definition codeunit := N.
Definition jsstring := list codeunit.

(** String literal of the source, as code units. *)
Definition js (s : string) : jsstring :=
  map N_of_ascii (list_ascii_of_string s).

(** [s.startsWith(pat)] *)
Fixpoint starts_with (pat s : jsstring) : bool :=
  match pat, s with
  | [], _ => true
  | _ :: _, [] => false
  | p :: pat', c :: s' => N.eqb p c && starts_with pat' s'
  end.

(** [s.indexOf(pat)]; [None] stands for the result [-1]. *)
Fixpoint indexOf (s pat : jsstring) : option nat :=
  match s with
  | [] => if starts_with pat [] then Some 0 else None
  | _ :: s' =>
      if starts_with pat s then Some 0
      else option_map S (indexOf s' pat)
  end.

(** [s.substring(a, b)]: the arguments are swapped when [a > b] and
    clamped to the length. *)
Definition substring (s : jsstring) (a b : nat) : jsstring :=
  firstn (Nat.max a b - Nat.min a b) (skipn (Nat.min a b) s).

(** [s.substring(a)] *)
Definition substring_from (s : jsstring) (a : nat) : jsstring :=
  skipn a s.

(** WhiteSpace and LineTerminator code units, the ones [trim] strips. *)
Definition is_whitespace (c : codeunit) : bool :=
  ((9 <=? c) && (c <=? 13) || (c =? 32) || (c =? 160) || (c =? 5760)
   || (8192 <=? c) && (c <=? 8202) || (c =? 8232) || (c =? 8233)
   || (c =? 8239) || (c =? 8287) || (c =? 12288) || (c =? 65279))%N.

Fixpoint trimStart (s : jsstring) : jsstring :=
  match s with
  | c :: s' => if is_whitespace c then trimStart s' else s
  | [] => []
  end.

Definition trimEnd (s : jsstring) : jsstring := rev (trimStart (rev s)).

(** [s.trim()] *)
Definition trim (s : jsstring) : jsstring := trimEnd (trimStart s).

(** Truthiness of a string: non-empty. *)
Definition truthy_string (s : jsstring) : bool :=
  match s with [] => false | _ :: _ => true end.

(** [`${n}`] for an integral number. *)
Definition number_to_string (n : Z) : jsstring :=
  js (NilZero.string_of_int (Z.to_int n)).

(** Values produced by [JSON.parse].  Numbers are kept integral: the code
    only ever tests a parsed number for truthiness. *)
Inductive json : Type :=
| JNull
| JBool (b : bool)
| JNum (n : Z)
| JStr (s : jsstring)
| JArr (items : list json)
| JObj (fields : list (jsstring * json)).

Definition jsstring_eqb (a b : jsstring) : bool :=
  if list_eq_dec N.eq_dec a b then true else false.

Fixpoint assoc (k : jsstring) (fields : list (jsstring * json)) : option json :=
  match fields with
  | [] => None
  | (k', v) :: rest => if jsstring_eqb k k' then Some v else assoc k rest
  end.

(** Truthiness of a parsed value. *)
Definition truthy (v : json) : bool :=
  match v with
  | JNull => false
  | JBool b => b
  | JNum n => negb (n =? 0)%Z
  | JStr s => truthy_string s
  | JArr _ | JObj _ => true
  end.

(** Thrown values: instances of [Error] carry a message; anything else
    that can be thrown (for instance the error object of a database
    reply) is an arbitrary value. *)
Inductive exn : Type :=
| ErrorObj (message : jsstring)
| Thrown (v : json).

End JS.
Import JS.

Notation "a +++ b" := (@app codeunit a b) (at level 60, right associativity).

(* ===================================================================== *)
(** ** Shared types (types.ts, agents/types.ts) *)
(* ===================================================================== *)

Inductive Sender : Type := user_sender | ai_sender.      (* 'user' | 'ai' *)
Inductive ImageStatus : Type := generating | complete.   (* 'generating' | 'complete' *)

(** A message of the conversation.  A draft handed to [addMessage] is the
    same object without [id] and [created_at]. *)
Record Message : Type := mkMessage {
  id : option jsstring;
  created_at : option jsstring;
  project_id : jsstring;
  chat_id : jsstring;
  user_id : option jsstring;
  text : jsstring;
  sender : Sender;
  image_base64 : option jsstring;
  imageStatus : option ImageStatus;
  code : option jsstring;
  language : option json;
  raw_ai_response : option jsstring;
  plan : option json
}.

(** [{ project_id, chat_id, sender: 'ai', text }] *)
Definition ai_text_message (pid cid txt : jsstring) : Message :=
  mkMessage None None pid cid None txt ai_sender None None None None None None.

Definition with_id (m : Message) (v : jsstring) : Message :=
  mkMessage (Some v) (created_at m) (project_id m) (chat_id m) (user_id m)
    (text m) (sender m) (image_base64 m) (imageStatus m) (code m)
    (language m) (raw_ai_response m) (plan m).
Definition with_created_at (m : Message) (v : jsstring) : Message :=
  mkMessage (id m) (Some v) (project_id m) (chat_id m) (user_id m)
    (text m) (sender m) (image_base64 m) (imageStatus m) (code m)
    (language m) (raw_ai_response m) (plan m).
Definition with_project_id (m : Message) (v : jsstring) : Message :=
  mkMessage (id m) (created_at m) v (chat_id m) (user_id m)
    (text m) (sender m) (image_base64 m) (imageStatus m) (code m)
    (language m) (raw_ai_response m) (plan m).
Definition with_text (m : Message) (v : jsstring) : Message :=
  mkMessage (id m) (created_at m) (project_id m) (chat_id m) (user_id m)
    v (sender m) (image_base64 m) (imageStatus m) (code m)
    (language m) (raw_ai_response m) (plan m).
Definition with_image_base64 (m : Message) (v : jsstring) : Message :=
  mkMessage (id m) (created_at m) (project_id m) (chat_id m) (user_id m)
    (text m) (sender m) (Some v) (imageStatus m) (code m)
    (language m) (raw_ai_response m) (plan m).
Definition with_imageStatus (m : Message) (v : ImageStatus) : Message :=
  mkMessage (id m) (created_at m) (project_id m) (chat_id m) (user_id m)
    (text m) (sender m) (image_base64 m) (Some v) (code m)
    (language m) (raw_ai_response m) (plan m).
Definition with_code (m : Message) (c : jsstring) (lang : json) : Message :=
  mkMessage (id m) (created_at m) (project_id m) (chat_id m) (user_id m)
    (text m) (sender m) (image_base64 m) (imageStatus m) (Some c)
    (Some lang) (raw_ai_response m) (plan m).
Definition with_raw_ai_response (m : Message) (v : jsstring) : Message :=
  mkMessage (id m) (created_at m) (project_id m) (chat_id m) (user_id m)
    (text m) (sender m) (image_base64 m) (imageStatus m) (code m)
    (language m) (Some v) (plan m).
Definition with_plan (m : Message) (v : json) : Message :=
  mkMessage (id m) (created_at m) (project_id m) (chat_id m) (user_id m)
    (text m) (sender m) (image_base64 m) (imageStatus m) (code m)
    (language m) (raw_ai_response m) (Some v).

Record Project : Type := mkProject {
  proj_id : jsstring;
  proj_user_id : jsstring;
  proj_name : jsstring;
  default_model : jsstring
}.

(** [ChatWithProjectData] *)
Record Chat : Type := mkChat {
  chat_ident : jsstring;
  chat_project_id : jsstring;
  chat_name : jsstring;
  projects : option Project
}.

Record User : Type := mkUser { user_ident : jsstring }.

(** A row of [profiles]; [credits] is an integer column. *)
Record Profile : Type := mkProfile {
  role : jsstring;
  membership : jsstring;
  credits : Z;
  preferred_image_model : option jsstring
}.

(** A row of [app_settings], read by column name; [None] is a column that
    is absent or null. *)
Definition Settings : Type := jsstring -> option Z.

(** A browser [File]: its MIME type and what a [FileReader] yields for it:
    the base64 part of the data URL, or the error of a failed read. *)
Record File : Type := mkFile {
  file_type : jsstring;
  file_read : exn + jsstring
}.

(** [{ data, error }] of a database call. *)
Record Reply (A : Type) : Type := mkReply {
  data : option A;
  error : option exn
}.

(** The database client, with the services of databaseService.ts that go
    through it.  A field fixes what the call answers. *)
Record SupabaseClient : Type := mkSupabase {
  (* from('profiles').select('*').eq('id', uid).single() *)
  select_profile : jsstring -> Reply Profile;
  (* from('app_settings').select('*').single() *)
  select_app_settings : Reply Settings;
  (* addMessage(supabase, draft): the persisted message, or the call rejects *)
  insert_message : Message -> exn + Message;
  (* updateMessagePlan(supabase, id, plan): [Some e] when the call rejects *)
  update_message_plan : jsstring -> json -> option exn
}.

(** Request and reply of [ai.models.generateContentStream]. *)
Inductive Part : Type :=
| TextPart (t : jsstring)
| InlineData (data mimeType : jsstring).

Record Content : Type := mkContent { content_role : jsstring; parts : list Part }.

Record StreamRequest : Type := mkStreamRequest {
  req_model : jsstring;
  contents : list Content;
  systemInstruction : jsstring
}.

Record Chunk : Type := mkChunk { chunk_text : option jsstring }.

(** The fragments a stream yields, and the error that ends the iteration
    when it fails part-way. *)
Record ModelStream : Type := mkModelStream {
  chunks : list Chunk;
  failure : option exn
}.

(** Everything else the two files rely on: built-ins, the clock, the
    services of other modules.  The instruction text is a long constant;
    only its place in the system instruction matters here. *)
Record Env : Type := mkEnv {
  JSON_parse : jsstring -> exn + json;          (* throws on invalid text *)
  JSON_stringify_start_event : jsstring -> jsstring;
     (* JSON.stringify({ type: 'image_generation_start', text }) *)
  JSON_stringify_strings : list jsstring -> jsstring;
     (* JSON.stringify of an array of strings *)
  getUserFriendlyError : exn -> jsstring;       (* agents/errorUtils *)
  autonomousInstruction : jsstring;             (* agents/autonomous/instructions *)
  now_iso : jsstring;                           (* new Date().toISOString() *)
  now_ms_1 : Z;                                 (* Date.now(), first read *)
  now_ms_2 : Z;                                 (* Date.now(), second read *)
  generateContentStream : StreamRequest -> exn + ModelStream;
  generateImage : jsstring -> jsstring -> jsstring -> exn + (jsstring * bool)
     (* services/geminiService: (imageBase64, fallbackOccurred), or it rejects *)
}.

(** Calls that leave the two files, in the order they are made. *)
Inductive event : Type :=
| CallGenerateContentStream (req : StreamRequest)
| CallOnStreamChunk (chunk : jsstring)
| CallFetchProfile (uid : jsstring)
| CallFetchSettings
| CallDeductCredits (uid : jsstring) (amount : Z)
| CallGenerateImage (prompt apiKey model : jsstring)
| CallSaveMemory (uid : jsstring) (layer key value : option json)
| CallAddMessage (draft : Message)
| CallExtractAndSaveMemory (uid userText aiText pid : jsstring)
| CallUpdateMessagePlan (messageId : jsstring) (p : json)
| ConsoleWarn (label : jsstring) (e : exn)
| ConsoleError (label : jsstring) (e : exn)
| Toast (message kind : jsstring).

(* ===================================================================== *)
(** ** Effects: a state, a trace of calls, and exceptions *)
(* ===================================================================== *)

(** [St] is the state a caller's callback may touch (for the chat hook, the
    view).  A thrown exception keeps the state and the trace reached so
    far, as in JavaScript.  [Pending] is an awaited promise that never
    settles: nothing after it runs, no [catch] and no [finally]. *)
Record world (St : Type) : Type := mkWorld {
  st : St;
  trace : list event
}.

Inductive outcome (A : Type) : Type :=
| Returned (a : A)
| Threw (e : exn)
| Pending.
Arguments Threw {A} e.
Arguments Pending {A}.

Definition M (St A : Type) : Type := world St -> outcome A * world St.

Definition ret {St A} (a : A) : M St A := fun w => (Returned a, w).

Definition throw {St A} (e : exn) : M St A := fun w => (Threw e, w).

Definition never {St A} : M St A := fun w => (Pending, w).

Definition bind {St A B} (c : M St A) (k : A -> M St B) : M St B :=
  fun w =>
    match c w with
    | (Returned a, w') => k a w'
    | (Threw e, w') => (Threw e, w')
    | (Pending, w') => (Pending, w')
    end.

(** [try { c } catch (e) { h e }] *)
Definition try_catch {St A} (c : M St A) (h : exn -> M St A) : M St A :=
  fun w =>
    match c w with
    | (Returned a, w') => (Returned a, w')
    | (Threw e, w') => h e w'
    | (Pending, w') => (Pending, w')
    end.

(** [try { c } finally { f }], for an [f] that only updates the state. *)
Definition try_finally {St A} (c : M St A) (f : St -> St) : M St A :=
  fun w =>
    match c w with
    | (Pending, w') => (Pending, w')
    | (r, w') => (r, mkWorld (f (st w')) (trace w'))
    end.

(** A call that leaves the file. *)
Definition emit {St} (ev : event) : M St unit :=
  fun w => (Returned tt, mkWorld (st w) (trace w ++ [ev])).

(** An awaited call whose promise resolves ([inr]) or rejects ([inl]). *)
Definition await {St A} (ev : event) (answer : exn + A) : M St A :=
  fun w =>
    let w' := mkWorld (st w) (trace w ++ [ev]) in
    match answer with
    | inr a => (Returned a, w')
    | inl e => (Threw e, w')
    end.

(** A state update ([setMessages(prev => ...)], [setIsLoading(...)]). *)
Definition update {St} (f : St -> St) : M St unit :=
  fun w => (Returned tt, mkWorld (f (st w)) (trace w)).

Declare Scope eff_scope.
Delimit Scope eff_scope with eff.
Notation "x <- c ;; k" := (bind c (fun x => k))
  (at level 61, c at next level, right associativity) : eff_scope.
Notation "c ;; k" := (bind c (fun _ => k))
  (at level 61, right associativity) : eff_scope.
Local Open Scope eff_scope.

(** A caller's [onStreamChunk]: it may update the caller's state and may
    throw, it makes no call of its own. *)
Definition Callback (St : Type) : Type := jsstring -> St -> option exn * St.

(** [onStreamChunk?.(chunk)] *)
Definition call_onStreamChunk {St} (cb : option (Callback St)) (chunk : jsstring)
  : M St unit :=
  match cb with
  | None => ret tt
  | Some f =>
      fun w =>
        let (r, s') := f chunk (st w) in
        let w' := mkWorld s' (trace w ++ [CallOnStreamChunk chunk]) in
        match r with
        | None => (Returned tt, w')
        | Some e => (Threw e, w')
        end
  end.

(* ===================================================================== *)
(** ** agents/autonomous: [runAutonomousAgent] *)
(* ===================================================================== *)

Record AgentInput (St : Type) : Type := mkAgentInput {
  prompt : jsstring;
  files : option (list File);
  apiKey : jsstring;
  model : jsstring;
  project : Project;
  chat : Chat;
  history : list Message;
  supabase : SupabaseClient;
  user : User;
  profile : option Profile;
  onStreamChunk : option (Callback St);
  memoryContext : option jsstring;
  workspaceMode : jsstring
}.

Record AgentExecutionResult : Type := mkResult {
  messages : list Message;
  updatedPlan : option (jsstring * json)      (* { messageId, plan } *)
}.

Definition nl : jsstring := [10%N].

Definition sentinel : jsstring := js "[--METADATA--]".

(** *** Request construction (lines 29-44) *)

Definition content_first_text (c : Content) : jsstring :=
  match parts c with
  | TextPart t :: _ => t
  | _ => []
  end.

Definition geminiHistory (history : list Message) : list Content :=
  filter (fun c => truthy_string (trim (content_first_text c)))
    (map (fun msg =>
            mkContent
              (match sender msg with user_sender => js "user" | ai_sender => js "model" end)
              [TextPart (text msg)])
         history).

Definition make_systemInstruction (env : Env) (memoryContext : option jsstring)
  : jsstring :=
  js "Current Timestamp: " +++ now_iso env +++ nl +++ nl
  +++ autonomousInstruction env +++ nl +++ nl
  +++ js "--- MEMORY CONTEXT ---" +++ nl
  +++ (match memoryContext with
       | Some ((_ :: _) as m) => m
       | _ => js "No memory context available."
       end).

(** [fileToGenerativePart] (lines 9-21): the promise is resolved from
    [onloadend] and there is no [reject]; after a failed read the handler
    fails on the null result and the promise stays pending. *)
Definition fileToGenerativePart {St} (f : File) : M St Part :=
  match file_read f with
  | inr d => ret (InlineData d (file_type f))
  | inl _ => never
  end.

(** [for (const file of files) { ...; userMessageParts.unshift(filePart) }] *)
Fixpoint add_file_parts {St} (fs : list File) (userMessageParts : list Part)
  : M St (list Part) :=
  match fs with
  | [] => ret userMessageParts
  | file :: rest =>
      filePart <- fileToGenerativePart file ;;
      add_file_parts rest (filePart :: userMessageParts)
  end.

Definition make_request {St} (env : Env) (input : AgentInput St) : M St StreamRequest :=
  userMessageParts <-
    match files input with
    | Some fs => add_file_parts fs [TextPart (prompt input)]
    | None => ret [TextPart (prompt input)]
    end ;;
  ret (mkStreamRequest (js "gemini-2.5-flash")
         (geminiHistory (history input) ++ [mkContent (js "user") userMessageParts])
         (make_systemInstruction env (memoryContext input))).

(** *** The streaming loop (lines 56-79) *)

Record StreamState : Type := mkStreamState {
  fullText : jsstring;
  streamingBuffer : jsstring     (* what has been sent to the user UI *)
}.

(** One iteration of the loop body: the new state, and the text handed to
    [onStreamChunk] in this iteration, if any. *)
Definition feed (s : StreamState) (chunkText : option jsstring)
  : StreamState * option jsstring :=
  match chunkText with
  | Some ((_ :: _) as chunkText) =>
      let fullText' := fullText s +++ chunkText in
      match indexOf fullText' sentinel with
      | Some metaStartIndex =>
          let visibleText := substring fullText' 0 metaStartIndex in
          if length (streamingBuffer s) <? length visibleText then
            let newChunkToSend :=
              substring_from visibleText (length (streamingBuffer s)) in
            (mkStreamState fullText' visibleText, Some newChunkToSend)
          else (mkStreamState fullText' (streamingBuffer s), None)
      | None =>
          (mkStreamState fullText' (streamingBuffer s +++ chunkText), Some chunkText)
      end
  | _ => (s, None)
  end.

Fixpoint stream_loop {St} (cb : option (Callback St)) (cs : list Chunk)
  (s : StreamState) : M St StreamState :=
  match cs with
  | [] => ret s
  | chunk :: rest =>
      let (s', delta) := feed s (chunk_text chunk) in
      match delta with
      | Some d => call_onStreamChunk cb d ;; stream_loop cb rest s'
      | None => stream_loop cb rest s'
      end
  end.

(** [for await (const chunk of responseStream) { ... }] *)
Definition consume_stream {St} (cb : option (Callback St)) (rs : ModelStream)
  : M St StreamState :=
  s <- stream_loop cb (chunks rs) (mkStreamState [] []) ;;
  match failure rs with
  | Some e => throw e
  | None => ret s
  end.

(** The deltas of a whole stream, without the effects: what the loop hands
    to [onStreamChunk], in order. *)
Fixpoint deltas (cs : list (option jsstring)) (s : StreamState) : list jsstring :=
  match cs with
  | [] => []
  | c :: rest =>
      let (s', delta) := feed s c in
      match delta with
      | Some d => d :: deltas rest s'
      | None => deltas rest s'
      end
  end.

Fixpoint final_state (cs : list (option jsstring)) (s : StreamState) : StreamState :=
  match cs with
  | [] => s
  | c :: rest => final_state rest (fst (feed s c))
  end.

(** *** Metadata extraction (lines 83-103) *)

(** Result of [fullText.match(/\[--METADATA--\]([\s\S]*?)\[--METADATA--\]/)].
    The match starts at the first occurrence of the token (two occurrences
    of the token cannot overlap, so a later start cannot match when the
    first one does not) and the lazy group stops at the next occurrence. *)
Record RegexMatch : Type := mkMatch {
  match_index : nat;        (* where the match starts *)
  group1 : jsstring;        (* metadataMatch[1] *)
  match_end : nat           (* where the match ends *)
}.

Definition metadataMatch (fullText : jsstring) : option RegexMatch :=
  match indexOf fullText sentinel with
  | None => None
  | Some i =>
      let after := skipn (i + length sentinel) fullText in
      match indexOf after sentinel with
      | None => None
      | Some j =>
          Some (mkMatch i (firstn j after)
                  (i + length sentinel + j + length sentinel))
      end
  end.

(** [fullText.replace(metadataRegex, '')] *)
Definition replace_metadata (fullText : jsstring) : jsstring :=
  match metadataMatch fullText with
  | Some m => firstn (match_index m) fullText +++ skipn (match_end m) fullText
  | None => fullText
  end.

Definition userVisibleText (fullText : jsstring) : jsstring :=
  trim (match metadataMatch fullText with
        | Some _ => replace_metadata fullText
        | None => fullText
        end).

Record ParsedMetadata : Type := mkParsed {
  imagePrompt : json;
  code_field : json;
  language_field : json;
  memoryToCreate : json
}.

Definition no_metadata : ParsedMetadata := mkParsed JNull JNull JNull JNull.

(** [{ ...parsedMetadata, ...parsed }]: only an object brings properties
    with these names. *)
Definition spread_over (dflt : ParsedMetadata) (parsed : json) : ParsedMetadata :=
  let pick name d :=
    match parsed with
    | JObj fields => match assoc (js name) fields with Some v => v | None => d end
    | _ => d
    end in
  mkParsed (pick "imagePrompt"%string (imagePrompt dflt))
           (pick "code"%string (code_field dflt))
           (pick "language"%string (language_field dflt))
           (pick "memoryToCreate"%string (memoryToCreate dflt)).

Definition parse_metadata {St} (env : Env) (m : option RegexMatch)
  : M St ParsedMetadata :=
  match m with
  | Some mm =>
      if truthy_string (group1 mm) then
        match JSON_parse env (trim (group1 mm)) with
        | inr parsed => ret (spread_over no_metadata parsed)
        | inl e =>
            emit (ConsoleWarn (js "Failed to parse metadata JSON from autonomous agent:") e) ;;
            ret no_metadata
        end
      else ret no_metadata
  | None => ret no_metadata
  end.

(** *** Background memory creation (lines 106-110) *)

(** [mem.name]: reading a property of [null] throws, any other value
    answers (possibly [undefined], here [None]). *)
Definition property (mem : json) (name : string) : option json :=
  match mem with
  | JObj fields => assoc (js name) fields
  | _ => None
  end.

(** The calls [saveMemory(supabase, user.id, mem.layer, mem.key, mem.value)]
    made by [memoryToCreate.map]; their promises are not awaited. *)
Fixpoint save_memories {St} (uid : jsstring) (mems : list json) : M St unit :=
  match mems with
  | [] => ret tt
  | JNull :: _ =>
      throw (ErrorObj (js "Cannot read properties of null (reading 'layer')"))
  | mem :: rest =>
      emit (CallSaveMemory uid (property mem "layer") (property mem "key")
              (property mem "value")) ;;
      save_memories uid rest
  end.

Definition handle_memory {St} (uid : jsstring) (memoryToCreate : json) : M St unit :=
  match memoryToCreate with
  | JArr ((_ :: _) as mems) => save_memories uid mems
  | _ => ret tt
  end.

(** *** Construction of the final response (lines 114-172) *)

(** [v && typeof v === 'string' && v.trim()] *)
Definition nonblank_string (v : json) : option jsstring :=
  match v with
  | JStr s => if truthy_string s && truthy_string (trim s) then Some s else None
  | _ => None
  end.

(** [if (input.profile?.role === 'admin') messagePayload.raw_ai_response = fullText] *)
Definition attach_raw {St} (input : AgentInput St) (fullText : jsstring)
  (m : Message) : Message :=
  match profile input with
  | Some p => if jsstring_eqb (role p) (js "admin")
              then with_raw_ai_response m fullText else m
  | None => m
  end.

Definition single (m : Message) : AgentExecutionResult := mkResult [m] None.

Definition shortfall_notice (cost balance : Z) : jsstring :=
  js "Oops! You need " +++ number_to_string cost
  +++ js " credits to generate an image, but you only have "
  +++ number_to_string balance +++ js ".".

Definition fallback_note : jsstring :=
  nl +++ nl +++
  js "*(Note: The premium image model failed, so I used a faster fallback to generate this image.)*".

(** [settings[`cost_image_${modelToUse}`] || 1] *)
Definition image_cost (settings : Settings) (modelToUse : jsstring) : Z :=
  match settings (js "cost_image_" +++ modelToUse) with
  | Some c => if (c =? 0)%Z then 1%Z else c
  | None => 1%Z
  end.

(** Case 2 (lines 126-160). *)
Definition image_case {St} (env : Env) (input : AgentInput St)
  (fullText visible imagePrompt : jsstring) : M St AgentExecutionResult :=
  let pid := proj_id (project input) in
  let cid := chat_ident (chat input) in
  let uid := user_ident (user input) in
  call_onStreamChunk (onStreamChunk input) (JSON_stringify_start_event env visible) ;;
  emit (CallFetchProfile uid) ;;
  let reply := select_profile (supabase input) uid in
  latestProfile <-
    match error reply, data reply with
    | Some profileError, _ => throw profileError
    | None, None =>
        throw (ErrorObj (js "Could not re-fetch user profile for image generation."))
    | None, Some p => ret p
    end ;;
  let isAdmin := jsstring_eqb (membership latestProfile) (js "admin") in
  let modelToUse :=
    match preferred_image_model latestProfile with
    | Some ((_ :: _) as m) => m
    | _ => js "nano_banana"
    end in
  let generate : M St AgentExecutionResult :=
    r <- await (CallGenerateImage imagePrompt (apiKey input) modelToUse)
           (generateImage env imagePrompt (apiKey input) modelToUse) ;;
    let (imageBase64, fallbackOccurred) := (r : jsstring * bool) in
    let finalText := if fallbackOccurred then visible +++ fallback_note else visible in
    let messagePayload :=
      with_imageStatus (with_image_base64 (ai_text_message pid cid finalText) imageBase64)
        complete in
    ret (single (attach_raw input fullText messagePayload)) in
  if isAdmin then generate
  else
    emit (CallFetchSettings) ;;
    let sreply := select_app_settings (supabase input) in
    settings <-
      match error sreply, data sreply with
      | Some settingsError, _ => throw settingsError
      | None, None => throw (ErrorObj (js "Could not load credit cost settings."))
      | None, Some s => ret s
      end ;;
    let cost := image_cost settings modelToUse in
    if (credits latestProfile <? cost)%Z then
      ret (single (ai_text_message pid cid
                     (shortfall_notice cost (credits latestProfile))))
    else
      (* the reply of the rpc is not looked at *)
      emit (CallDeductCredits uid cost) ;;
      generate.

(** Lines 27-79: the request, the model call and the streaming loop. *)
Definition receive {St} (env : Env) (input : AgentInput St) : M St StreamState :=
  req <- make_request env input ;;
  responseStream <- await (CallGenerateContentStream req) (generateContentStream env req) ;;
  consume_stream (onStreamChunk input) responseStream.

(** Lines 83-103: the visible text and the action payload of a response. *)
Definition finalize {St} (env : Env) (fullText : jsstring)
  : M St (jsstring * ParsedMetadata) :=
  let visible := userVisibleText fullText in
  parsedMetadata <- parse_metadata env (metadataMatch fullText) ;;
  ret (visible, parsedMetadata).

(** Lines 105-172: the memory calls, then the response by case. *)
Definition dispatch {St} (env : Env) (input : AgentInput St)
  (fullText visible : jsstring) (parsedMetadata : ParsedMetadata)
  : M St AgentExecutionResult :=
  let pid := proj_id (project input) in
  let cid := chat_ident (chat input) in
  handle_memory (user_ident (user input)) (memoryToCreate parsedMetadata) ;;
  match nonblank_string (code_field parsedMetadata) with
  | Some code =>
      (* Case 1: code was generated *)
      let language :=
        if truthy (language_field parsedMetadata)
        then language_field parsedMetadata else JStr (js "plaintext") in
      ret (single (attach_raw input fullText
                     (with_code (ai_text_message pid cid visible) (trim code) language)))
  | None =>
      match nonblank_string (imagePrompt parsedMetadata) with
      | Some imagePrompt =>
          (* Case 2: image was requested *)
          image_case env input fullText visible imagePrompt
      | None =>
          (* Case 3: plain text response *)
          if truthy_string visible then
            ret (single (attach_raw input fullText (ai_text_message pid cid visible)))
          else throw (ErrorObj (js "The AI returned an empty response."))
      end
  end.

(** Everything inside [try { ... }] (lines 27-172). *)
Definition agent_body {St} (env : Env) (input : AgentInput St)
  : M St AgentExecutionResult :=
  s <- receive env input ;;
  r <- finalize env (fullText s) ;;
  dispatch env input (fullText s) (fst r) (snd r).

Definition error_prefix : jsstring := js "An error occurred: ".

(** The [catch] block (lines 174-184). *)
Definition agent_catch {St} (env : Env) (input : AgentInput St) (err : exn)
  : M St AgentExecutionResult :=
  emit (ConsoleError (js "Error in runAutonomousAgent:") err) ;;
  let errorMessage := getUserFriendlyError env err in
  let fallbackMessage :=
    ai_text_message (proj_id (project input)) (chat_ident (chat input))
      (error_prefix +++ errorMessage) in
  ret (single fallbackMessage).

Definition runAutonomousAgent {St} (env : Env) (input : AgentInput St)
  : M St AgentExecutionResult :=
  try_catch (agent_body env input) (agent_catch env input).

(* ===================================================================== *)
(** ** hooks/useChat: [handleSendMessage] *)
(* ===================================================================== *)

(** The state of the hook that a turn touches. *)
Record View : Type := mkView {
  view_messages : list Message;       (* messages / setMessages *)
  isLoading : bool                    (* isLoading / setIsLoading *)
}.

(** What the callback closes over when a render creates it. *)
Record HookContext : Type := mkHook {
  hk_supabase : option SupabaseClient;
  hk_user : option User;
  hk_geminiApiKey : option jsstring;
  hk_profile : option Profile;
  hk_workspaceMode : jsstring;
  hk_activeChat : option Chat;
  hk_messages : list Message          (* [messages] of that render *)
}.

Definition DUMMY_AUTONOMOUS_PROJECT : Project :=
  mkProject (js "autonomous-project") (js "unknown") (js "Autonomous Chat")
    (js "gemini-2.5-flash").

Definition no_messages : AgentExecutionResult := mkResult [] None.

(** [m.id === i] *)
Definition has_id (i : jsstring) (m : Message) : bool :=
  match id m with
  | Some x => jsstring_eqb x i
  | None => false
  end.

Definition set_messages (f : list Message -> list Message) : M View unit :=
  update (fun v => mkView (f (view_messages v)) (isLoading v)).

Definition setIsLoading (b : bool) : View -> View :=
  fun v => mkView (view_messages v) b.

(** [Promise.all(files.map(fileToBase64))]: the first failed read rejects. *)
Fixpoint read_files (fs : list File) : exn + list jsstring :=
  match fs with
  | [] => inr []
  | f :: rest =>
      match file_read f with
      | inl e => inl e
      | inr d =>
          match read_files rest with
          | inl e => inl e
          | inr ds => inr (d :: ds)
          end
      end
  end.

(** The [onStreamChunk] of the hook (lines 190-203).  A chunk that parses to
    an object whose [type] is ['image_generation_start'] is an event; an
    event text that is not a string is shown as the empty text. *)
Definition hook_onStreamChunk (env : Env) (tempAiMessageId : jsstring)
  : Callback View :=
  fun chunk v =>
    let event_text :=
      match JSON_parse env chunk with
      | inr (JObj fields) =>
          match assoc (js "type") fields with
          | Some (JStr t) =>
              if jsstring_eqb t (js "image_generation_start")
              then Some (match assoc (js "text") fields with
                         | Some (JStr x) => x
                         | _ => []
                         end)
              else None
          | _ => None
          end
      | _ => None
      end in
    let on_ai (f : Message -> Message) :=
      mkView (map (fun m => if has_id tempAiMessageId m then f m else m)
                (view_messages v))
        (isLoading v) in
    (None,
     match event_text with
     | Some t => on_ai (fun m => with_imageStatus (with_text m t) generating)
     | None => on_ai (fun m => with_text m (text m +++ chunk))
     end).

(** [for (const messageContent of agentMessages) { ... addMessage ... }] *)
Fixpoint save_ai_messages (supabase : SupabaseClient) (pid : jsstring)
  (agentMessages : list Message) : M View (list Message) :=
  match agentMessages with
  | [] => ret []
  | messageContent :: rest =>
      let draft := with_project_id messageContent pid in
      savedAiMessage <- await (CallAddMessage draft) (insert_message supabase draft) ;;
      others <- save_ai_messages supabase pid rest ;;
      ret (savedAiMessage :: others)
  end.

(** The [try] block of a turn (lines 182-239). *)
Definition turn_body (env : Env) (hk : HookContext)
  (runAgent : AgentInput View -> M View AgentExecutionResult)
  (supabase : SupabaseClient) (user : User) (chatToUse : Chat)
  (geminiApiKey : jsstring) (text' : jsstring) (files : option (list File))
  (userMessageData : Message) (tempUserMessageId tempAiMessageId : jsstring)
  : M View AgentExecutionResult :=
  savedUserMessage <-
    await (CallAddMessage userMessageData) (insert_message supabase userMessageData) ;;
  set_messages (map (fun m => if has_id tempUserMessageId m then savedUserMessage else m)) ;;
  let historyForAgent :=
    filter (fun m => negb (has_id tempUserMessageId m) && negb (has_id tempAiMessageId m))
      (hk_messages hk) ++ [savedUserMessage] in
  let projectForAgent :=
    match projects chatToUse with
    | Some p => p
    | None =>
        mkProject (proj_id DUMMY_AUTONOMOUS_PROJECT) (user_ident user)
          (proj_name DUMMY_AUTONOMOUS_PROJECT) (default_model DUMMY_AUTONOMOUS_PROJECT)
    end in
  agentResult <-
    runAgent (mkAgentInput text' files geminiApiKey (default_model projectForAgent)
                projectForAgent chatToUse historyForAgent supabase user
                (hk_profile hk) (Some (hook_onStreamChunk env tempAiMessageId))
                None (hk_workspaceMode hk)) ;;
  savedAiMessages <-
    save_ai_messages supabase (chat_project_id chatToUse) (messages agentResult) ;;
  match savedAiMessages with
  | first :: _ =>
      emit (CallExtractAndSaveMemory (user_ident user) (text savedUserMessage)
              (text first) (chat_project_id chatToUse))
  | [] => ret tt
  end ;;
  set_messages (fun prev =>
    let finalMessages :=
      filter (fun m => negb (has_id tempAiMessageId m)) prev ++ savedAiMessages in
    match updatedPlan agentResult with
    | Some (messageId, p) =>
        map (fun m => if has_id messageId m then with_plan m p else m) finalMessages
    | None => finalMessages
    end) ;;
  match updatedPlan agentResult with
  | Some (messageId, p) =>
      await (CallUpdateMessagePlan messageId p)
        (match update_message_plan supabase messageId p with
         | Some e => inl e
         | None => inr tt
         end)
  | None => ret tt
  end ;;
  ret agentResult.

(** The [catch] block of a turn (lines 241-247). *)
Definition turn_catch (tempUserMessageId tempAiMessageId : jsstring) (e : exn)
  : M View AgentExecutionResult :=
  let errorMessage :=
    match e with
    | ErrorObj message => message
    | Thrown _ => js "An unknown error occurred."
    end in
  emit (Toast errorMessage (js "error")) ;;
  emit (ConsoleError (js "Error in handleSendMessage:") e) ;;
  set_messages (filter (fun m => negb (has_id tempUserMessageId m)
                                 && negb (has_id tempAiMessageId m))) ;;
  ret no_messages.

(** [!files || files.length === 0] *)
Definition no_files (files : option (list File)) : bool :=
  match files with
  | Some (_ :: _) => false
  | _ => true
  end.

(** Lines 149-250, once the guard of line 147 has let the call through. *)
Definition send_turn (env : Env) (hk : HookContext)
  (runAgent : AgentInput View -> M View AgentExecutionResult)
  (supabase : SupabaseClient) (user : User) (chatToUse : Chat)
  (geminiApiKey : jsstring) (text' : jsstring) (files : option (list File))
  : M View AgentExecutionResult :=
  let tempUserMessageId := js "temp-user-" +++ number_to_string (now_ms_1 env) in
  let tempAiMessageId := js "temp-ai-" +++ number_to_string (now_ms_2 env) in
  let userMessageData :=
    mkMessage None None (chat_project_id chatToUse) (chat_ident chatToUse)
      (Some (user_ident user)) text' user_sender None None None None None None in
  let tempUserMessage :=
    with_created_at (with_id userMessageData tempUserMessageId) (now_iso env) in
  let tempAiMessage :=
    with_id (ai_text_message (chat_project_id chatToUse) (chat_ident chatToUse) [])
      tempAiMessageId in
  let continue (userMessageData tempUserMessage : Message) :=
    update (setIsLoading true) ;;
    set_messages (fun prev => prev ++ [tempUserMessage; tempAiMessage]) ;;
    try_finally
      (try_catch
         (turn_body env hk runAgent supabase user chatToUse geminiApiKey text' files
            userMessageData tempUserMessageId tempAiMessageId)
         (turn_catch tempUserMessageId tempAiMessageId))
      (setIsLoading false) in
  if no_files files then continue userMessageData tempUserMessage
  else
    match read_files (match files with Some fs => fs | None => [] end) with
    | inr base64Strings =>
        let image :=
          match base64Strings with
          | [one] => one
          | _ => JSON_stringify_strings env base64Strings
          end in
        continue (with_image_base64 userMessageData image)
                 (with_image_base64 tempUserMessage image)
    | inl e =>
        emit (Toast (js "Failed to read the attached file(s).") (js "error")) ;;
        emit (ConsoleError (js "File read error:") e) ;;
        ret no_messages
    end.

(** [handleSendMessage(text, files = null, chatToUse = activeChat)]; an
    omitted third argument is [None].  The argument [text] is [text'] here,
    [text] being the field of a message. *)
Definition handleSendMessage (env : Env) (hk : HookContext)
  (runAgent : AgentInput View -> M View AgentExecutionResult)
  (text' : jsstring) (files : option (list File)) (chatArg : option (option Chat))
  : M View AgentExecutionResult :=
  let chatToUse := match chatArg with Some c => c | None => hk_activeChat hk end in
  if negb (truthy_string (trim text')) && no_files files then ret no_messages
  else
    match hk_supabase hk, hk_user hk, chatToUse, hk_geminiApiKey hk with
    | Some supabase, Some user, Some chatToUse, Some ((_ :: _) as geminiApiKey) =>
        send_turn env hk runAgent supabase user chatToUse geminiApiKey text' files
    | _, _, _, _ => ret no_messages
    end.

(* ===================================================================== *)
(** ** Vocabulary of the properties *)
(* ===================================================================== *)

Definition initial_stream : StreamState := mkStreamState [] [].

(** The text the user interface has received from a list of fragments. *)
Definition streamed (fragments : list (option jsstring)) : jsstring :=
  concat (deltas fragments initial_stream).

(** The text of a fragment ([chunk.text], empty when absent). *)
Definition delta_text (d : option jsstring) : jsstring :=
  match d with Some t => t | None => [] end.

(** [streamingBuffer] is a prefix of the cumulative buffer, and all of it
    as long as the token has not been found. *)
Definition tracks (s : StreamState) : Prop :=
  (exists rest, fullText s = streamingBuffer s ++ rest)
  /\ (indexOf (fullText s) sentinel = None -> streamingBuffer s = fullText s).

(** From [w] to [w'] the trace has grown by calls that all satisfy [P]. *)
Definition grows {St} (P : event -> bool) (w w' : world St) : Prop :=
  exists added, trace w' = trace w ++ added /\ forallb P added = true.

Definition is_chunk_call (ev : event) : bool :=
  match ev with CallOnStreamChunk _ => true | _ => false end.
Definition is_stream_call (ev : event) : bool :=
  match ev with
  | CallGenerateContentStream _ | CallOnStreamChunk _ => true
  | _ => false
  end.
Definition is_image_call (ev : event) : bool :=
  match ev with CallGenerateImage _ _ _ => true | _ => false end.
Definition is_deduct_call (ev : event) : bool :=
  match ev with CallDeductCredits _ _ => true | _ => false end.
Definition is_save_memory (ev : event) : bool :=
  match ev with CallSaveMemory _ _ _ _ => true | _ => false end.
Definition is_add_message (ev : event) : bool :=
  match ev with CallAddMessage _ => true | _ => false end.
Definition is_toast (ev : event) : bool :=
  match ev with Toast _ _ => true | _ => false end.

(** Neither the image backend nor the credit deduction. *)
Definition free_of_charge (ev : event) : bool :=
  negb (is_image_call ev) && negb (is_deduct_call ev).

(** A memory list the [map] of line 107 goes through without reading a
    property of [null]. *)
Definition memory_ok (memoryToCreate : json) : bool :=
  match memoryToCreate with
  | JArr items =>
      forallb (fun mem => match mem with JNull => false | _ => true end) items
  | _ => true
  end.

(** The [saveMemory] calls of such a list. *)
Definition memory_calls (uid : jsstring) (memoryToCreate : json) : list event :=
  match memoryToCreate with
  | JArr items =>
      map (fun mem => CallSaveMemory uid (property mem "layer") (property mem "key")
                        (property mem "value")) items
  | _ => []
  end.

(** An [onStreamChunk] that does not throw. *)
Definition quiet {St} (cb : option (Callback St)) : Prop :=
  forall f, cb = Some f -> forall c s, fst (f c s) = None.

(** The image model of a profile (line 136). *)
Definition model_of (p : Profile) : jsstring :=
  match preferred_image_model p with
  | Some ((_ :: _) as m) => m
  | _ => js "nano_banana"
  end.

(** The drafts of the three cases and of the [catch] block. *)
Definition code_draft {St} (input : AgentInput St) (fullText visible code : jsstring)
  (language : json) : Message :=
  attach_raw input fullText
    (with_code (ai_text_message (proj_id (project input)) (chat_ident (chat input)) visible)
       (trim code)
       (if truthy language then language else JStr (js "plaintext"))).

Definition image_draft {St} (input : AgentInput St) (fullText visible : jsstring)
  (generated : jsstring * bool) : Message :=
  attach_raw input fullText
    (with_imageStatus
       (with_image_base64
          (ai_text_message (proj_id (project input)) (chat_ident (chat input))
             (if snd generated then visible +++ fallback_note else visible))
          (fst generated))
       complete).

Definition text_draft {St} (input : AgentInput St) (fullText visible : jsstring)
  : Message :=
  attach_raw input fullText
    (ai_text_message (proj_id (project input)) (chat_ident (chat input)) visible).

Definition shortfall_draft {St} (input : AgentInput St) (cost balance : Z) : Message :=
  ai_text_message (proj_id (project input)) (chat_ident (chat input))
    (shortfall_notice cost balance).

Definition error_draft {St} (env : Env) (input : AgentInput St) (e : exn) : Message :=
  ai_text_message (proj_id (project input)) (chat_ident (chat input))
    (error_prefix +++ getUserFriendlyError env e).

Definition empty_response : exn := ErrorObj (js "The AI returned an empty response.").

Definition agent_error_log (e : exn) : event :=
  ConsoleError (js "Error in runAutonomousAgent:") e.

(** Every attached file can be read. *)
Definition readable (files : option (list File)) : bool :=
  match files with
  | Some fs => forallb (fun f => match file_read f with inr _ => true | inl _ => false end) fs
  | None => true
  end.

(** [user.id] of an agent input. *)
Definition agent_uid {St} (input : AgentInput St) : jsstring :=
  user_ident (user input).

(** The world after the memory step of a payload. *)
Definition after_memory {St} (uid : jsstring) (payload : ParsedMetadata)
  (w : world St) : world St :=
  mkWorld (st w) (trace w ++ memory_calls uid (memoryToCreate payload)).

(** One draft, or a throw. *)
Definition one_draft_or_throw (r : outcome AgentExecutionResult) : Prop :=
  match r with
  | Returned a => exists m, a = single m
  | Threw _ => True
  | Pending => False
  end.

(** A call that performs an action of a payload: memory, image, credits. *)
Definition is_action_call (ev : event) : bool :=
  is_save_memory ev || is_image_call ev || is_deduct_call ev.

Definition is_warning (ev : event) : bool :=
  match ev with ConsoleWarn _ _ => true | _ => false end.

(** A plain-text draft: no code, no image. *)
Definition plain_text (m : Message) : Prop :=
  code m = None /\ language m = None /\ image_base64 m = None /\ imageStatus m = None.

(** The names of a turn of the hook (lines 149-211). *)
Definition tempUserMessageId (env : Env) : jsstring :=
  js "temp-user-" +++ number_to_string (now_ms_1 env).

Definition tempAiMessageId (env : Env) : jsstring :=
  js "temp-ai-" +++ number_to_string (now_ms_2 env).

(** [userMessageData] of a turn without files. *)
Definition user_draft (chatToUse : Chat) (user : User) (text' : jsstring) : Message :=
  mkMessage None None (chat_project_id chatToUse) (chat_ident chatToUse)
    (Some (user_ident user)) text' user_sender None None None None None None.

(** The two placeholders of a turn without files. *)
Definition placeholders (env : Env) (chatToUse : Chat) (user : User)
  (text' : jsstring) : list Message :=
  [with_created_at (with_id (user_draft chatToUse user text') (tempUserMessageId env))
     (now_iso env);
   with_id (ai_text_message (chat_project_id chatToUse) (chat_ident chatToUse) [])
     (tempAiMessageId env)].

(** The input handed to [runAgent] (lines 205-211). *)
Definition turn_input (env : Env) (hk : HookContext) (supabase : SupabaseClient)
  (user : User) (chatToUse : Chat) (geminiApiKey text' : jsstring)
  (files : option (list File)) (savedUserMessage : Message) : AgentInput View :=
  let projectForAgent :=
    match projects chatToUse with
    | Some p => p
    | None =>
        mkProject (proj_id DUMMY_AUTONOMOUS_PROJECT) (user_ident user)
          (proj_name DUMMY_AUTONOMOUS_PROJECT) (default_model DUMMY_AUTONOMOUS_PROJECT)
    end in
  mkAgentInput text' files geminiApiKey (default_model projectForAgent)
    projectForAgent chatToUse
    (filter (fun m => negb (has_id (tempUserMessageId env) m)
                      && negb (has_id (tempAiMessageId env) m))
       (hk_messages hk) ++ [savedUserMessage])
    supabase user (hk_profile hk)
    (Some (hook_onStreamChunk env (tempAiMessageId env))) None (hk_workspaceMode hk).

(** The world in which [runAgent] is called: the placeholders are in the
    view, the user message is persisted and has taken its placeholder's
    place, the loading flag is set. *)
Definition world_at_agent_call (env : Env) (chatToUse : Chat) (user : User)
  (text' : jsstring) (savedUserMessage : Message) (w : world View) : world View :=
  mkWorld
    (mkView
       (map (fun m => if has_id (tempUserMessageId env) m then savedUserMessage else m)
          (view_messages (st w) ++ placeholders env chatToUse user text'))
       true)
    (trace w ++ [CallAddMessage (user_draft chatToUse user text')]).

(* ===================================================================== *)
(** ** Scenarios: concrete environments for the examples *)
(* ===================================================================== *)

Module Scenario.

Definition dq : jsstring := [34%N].     (* the double quote *)

(** The text [{"imagePrompt":"a cat"}]. *)
Definition image_request : jsstring :=
  js "{" +++ dq +++ js "imagePrompt" +++ dq +++ js ":" +++ dq +++ js "a cat"
  +++ dq +++ js "}".

(** What [JSON.parse] answers on the texts of the scenarios. *)
Definition parse (t : jsstring) : exn + json :=
  if jsstring_eqb t (js "{}") then inr (JObj [])
  else if jsstring_eqb t image_request
       then inr (JObj [(js "imagePrompt", JStr (js "a cat"))])
       else inl (ErrorObj (js "Unexpected token in JSON")).

Definition stringify_start (t : jsstring) : jsstring :=
  js "{" +++ dq +++ js "type" +++ dq +++ js ":" +++ dq
  +++ js "image_generation_start" +++ dq +++ js "," +++ dq +++ js "text" +++ dq
  +++ js ":" +++ dq +++ t +++ dq +++ js "}".

Definition friendly (e : exn) : jsstring :=
  match e with
  | ErrorObj m => m
  | Thrown _ => js "An unexpected error occurred."
  end.

Definition env_of (stream : exn + ModelStream) (image : exn + (jsstring * bool))
  : Env :=
  mkEnv parse stringify_start (fun l => concat l) friendly
    (js "(instructions)") (js "2025-01-01T00:00:00.000Z") 1735689600000 1735689600000
    (fun _ => stream) (fun _ _ _ => image).

Definition fragments (l : list string) : exn + ModelStream :=
  inr (mkModelStream (map (fun t => mkChunk (Some (js t))) l) None).

Definition cost_table (column : jsstring) : option Z :=
  if jsstring_eqb column (js "cost_image_nano_banana") then Some 1%Z else None.

Definition saved (draft : Message) : Message :=
  with_created_at (with_id draft (js "db-" +++ text draft)) (js "2025-01-01T00:00:01.000Z").

(** A database with one non-privileged profile of the given balance. *)
Definition client (balance : Z) : SupabaseClient :=
  mkSupabase
    (fun _ => mkReply (Some (mkProfile (js "user") (js "free") balance None)) None)
    (mkReply (Some cost_table) None)
    (fun draft => inr (saved draft))
    (fun _ _ => None).

Definition the_chat : Chat := mkChat (js "chat-1") (js "project-1") (js "draw a cat") None.
Definition the_user : User := mkUser (js "user-1").
Definition the_project : Project :=
  mkProject (js "project-1") (js "user-1") (js "Cats") (js "gemini-2.5-flash").

(** A recording [onStreamChunk]: the state is the list of what it got. *)
Definition recorder : Callback (list jsstring) :=
  fun chunk got => (None, got ++ [chunk]).

Definition input (balance : Z) : AgentInput (list jsstring) :=
  mkAgentInput (js "draw a cat") None (js "key") (js "gemini-2.5-flash")
    the_project the_chat [] (client balance) the_user None (Some recorder) None
    (js "autonomous").

Definition start : world (list jsstring) := mkWorld [] [].

Definition hook (balance : Z) : HookContext :=
  mkHook (Some (client balance)) (Some the_user) (Some (js "key")) None
    (js "autonomous") (Some the_chat) [].

Definition idle : world View := mkWorld (mkView [] false) [].

(** A reply that asks for an image. *)
Definition cat_reply : exn + ModelStream :=
  inr (mkModelStream
         [mkChunk (Some (js "On it!"));
          mkChunk (Some (sentinel +++ image_request +++ sentinel))] None).

(** The turn "draw a cat" with that reply. *)
Definition cat_env (image : exn + (jsstring * bool)) : Env := env_of cat_reply image.

Definition cat_state : StreamState :=
  mkStreamState (js "On it!" +++ sentinel +++ image_request +++ sentinel)
    (js "On it!").

Definition cat_payload : ParsedMetadata :=
  mkParsed (JStr (js "a cat")) JNull JNull JNull.

Definition profile_with (balance : Z) : Profile :=
  mkProfile (js "user") (js "free") balance None.

(** A reply whose metadata block is not valid JSON. *)
Definition malformed_text : jsstring :=
  js "Here you go! [--METADATA--]{oops[--METADATA--]".

Definition malformed_env : Env :=
  env_of (inr (mkModelStream [mkChunk (Some malformed_text)] None))
    (inr (js "IMG", false)).

(** A reply that is only such a block. *)
Definition only_block_text : jsstring := js "[--METADATA--]{oops[--METADATA--]".

Definition only_block_env : Env :=
  env_of (inr (mkModelStream [mkChunk (Some only_block_text)] None))
    (inr (js "IMG", false)).

(** A reply whose token is cut by a fragment boundary. *)
Definition split_env : Env :=
  env_of (fragments ["Hi there"; "! [--META"; "DATA--]{}[--METADATA--]"]%string)
    (inr (js "IMG", false)).

(** A model call that fails. *)
Definition offline_env : Env :=
  env_of (inl (ErrorObj (js "Failed to fetch"))) (inr (js "IMG", false)).

(** A reply with no text at all. *)
Definition silent_env : Env :=
  env_of (inr (mkModelStream [] None)) (inr (js "IMG", false)).

(** The turn "hello" of the hook against that reply. *)
Definition hello_saved : Message := saved (user_draft the_chat the_user (js "hello")).

Definition hello_input : AgentInput View :=
  turn_input silent_env (hook 0) (client 0) the_user the_chat (js "key") (js "hello")
    None hello_saved.

Definition hello_notice : Message :=
  ai_text_message (js "autonomous-project") (js "chat-1")
    (js "An error occurred: The AI returned an empty response.").

End Scenario.

(* ===================================================================== *)
(** ** hooks/useChat: the chat list *)
(* ===================================================================== *)

(** The state of the hook that the chat list functions touch. *)
Record ChatList : Type := mkChatList {
  allChats : list Chat;               (* allChats / setAllChats *)
  activeChat : option Chat            (* activeChat / setActiveChat *)
}.

(** [handleDeleteChat] (part_000 lines 132-144).  [deleteChat] is the
    service of databaseService.ts: [Some e] when its promise rejects; the
    call itself is not recorded in the trace.  [renderedActiveChat] is the
    [activeChat] the function closes over. *)
Definition handleDeleteChat (supabase : option SupabaseClient)
  (deleteChat : jsstring -> option exn) (renderedActiveChat : option Chat)
  (chatId : jsstring) : M ChatList unit :=
  match supabase with
  | None => ret tt
  | Some _ =>
      try_catch
        (match deleteChat chatId with
         | Some e => throw e
         | None => ret tt
         end ;;
         update (fun s =>
           mkChatList
             (filter (fun c => negb (jsstring_eqb (chat_ident c) chatId)) (allChats s))
             (activeChat s)) ;;
         (if match renderedActiveChat with
             | Some c => jsstring_eqb (chat_ident c) chatId
             | None => false
             end
          then update (fun s => mkChatList (allChats s) None)
          else ret tt) ;;
         emit (Toast (js "Chat deleted.") (js "info")))
        (fun _ => emit (Toast (js "Failed to delete chat.") (js "error")))
  end.

(* ===================================================================== *)
(** ** components/chat/ChatView: search over the messages *)
(* ===================================================================== *)

(** [s.includes(pat)] *)
Definition includes (s pat : jsstring) : bool :=
  match indexOf s pat with
  | Some _ => true
  | None => false
  end.

(** [l.map((x, index) => f x index)], the index counted from [start]. *)
Fixpoint map_index {A B : Type} (f : A -> Z -> B) (l : list A) (start : Z) : list B :=
  match l with
  | [] => []
  | x :: rest => f x start :: map_index f rest (start + 1)%Z
  end.

(** Whether a message matches the query (ChatView.tsx lines 158, 252);
    [toLowerCase] is the built-in. *)
Definition matches_query (toLowerCase : jsstring -> jsstring)
  (searchQuery : jsstring) (msg : Message) : bool :=
  includes (toLowerCase (text msg)) (toLowerCase searchQuery).

(** The argument of [onSearchResultsChange] in the search effect
    (ChatView.tsx lines 152-161). *)
Definition search_results (toLowerCase : jsstring -> jsstring)
  (searchQuery : jsstring) (messages : list Message) : list Z :=
  if jsstring_eqb (trim searchQuery) [] then []
  else
    filter (fun index => negb (index =? -1)%Z)
      (map_index (fun msg index =>
                    if matches_query toLowerCase searchQuery msg then index else (-1)%Z)
         messages 0%Z).

(** [isDimmed] of a rendered message (ChatView.tsx line 252). *)
Definition isDimmed (toLowerCase : jsstring -> jsstring)
  (searchQuery : jsstring) (msg : Message) : bool :=
  negb (jsstring_eqb (trim searchQuery) [])
  && negb (matches_query toLowerCase searchQuery msg).

(* ===================================================================== *)
(** ** Further vocabulary *)
(* ===================================================================== *)

(** The calls that cost something: the credit deduction and the image
    backend. *)
Definition is_charge (ev : event) : bool := is_deduct_call ev || is_image_call ev.

Definition charges (tr : list event) : list event := filter is_charge tr.

Definition is_settings_call (ev : event) : bool :=
  match ev with CallFetchSettings => true | _ => false end.

(** [input.profile?.role === 'admin'] *)
Definition has_admin_role {St} (input : AgentInput St) : bool :=
  match profile input with
  | Some p => jsstring_eqb (role p) (js "admin")
  | None => false
  end.

(** The part [fileToGenerativePart] resolves to for a readable file. *)
Definition file_part (f : File) : Part :=
  InlineData (match file_read f with inr d => d | inl _ => [] end) (file_type f).

(** The history entry of a message (line 29-32). *)
Definition to_content (msg : Message) : Content :=
  mkContent (match sender msg with user_sender => js "user" | ai_sender => js "model" end)
    [TextPart (text msg)].

(** A message carries neither placeholder id of the turn. *)
Definition not_placeholder (env : Env) (m : Message) : bool :=
  negb (has_id (tempUserMessageId env) m) && negb (has_id (tempAiMessageId env) m).

(** The text a chunk carries when the hook takes it for the control event
    ['image_generation_start'] (lines 192-198); [None] for ordinary text. *)
Definition start_event_text (env : Env) (chunk : jsstring) : option jsstring :=
  match JSON_parse env chunk with
  | inr (JObj fields) =>
      match assoc (js "type") fields with
      | Some (JStr t) =>
          if jsstring_eqb t (js "image_generation_start")
          then Some (match assoc (js "text") fields with
                     | Some (JStr x) => x
                     | _ => []
                     end)
          else None
      | _ => None
      end
  | _ => None
  end.

(** [prev.map(m => m.id === t ? f(m) : m)] *)
Definition on_placeholder (t : jsstring) (f : Message -> Message) (l : list Message)
  : list Message :=
  map (fun m => if has_id t m then f m else m) l.

(** An input without its [onStreamChunk]. *)
Definition without_callback {St} (input : AgentInput St) : AgentInput St :=
  mkAgentInput (prompt input) (files input) (apiKey input) (model input)
    (project input) (chat input) (history input) (supabase input) (user input)
    (profile input) None (memoryContext input) (workspaceMode input).

(** The calls the agent may make: everything but the persistence of
    messages, the memory extraction, the plan update and the toasts, which
    are the hook's. *)
Definition is_agent_call (ev : event) : bool :=
  match ev with
  | CallAddMessage _ | CallExtractAndSaveMemory _ _ _ _
  | CallUpdateMessagePlan _ _ | Toast _ _ => false
  | _ => true
  end.

(** What [JSON.parse] gives back for the start event of a text. *)
Definition start_event (visible : jsstring) : json :=
  JObj [(js "type", JStr (js "image_generation_start")); (js "text", JStr visible)].

(** The view once the placeholders are in and the loading flag is set
    (lines 178-179), for a turn without files. *)
Definition world_with_placeholders (env : Env) (chatToUse : Chat) (user : User)
  (text' : jsstring) (w : world View) : world View :=
  mkWorld
    (mkView (view_messages (st w) ++ placeholders env chatToUse user text') true)
    (trace w).

(** [e instanceof Error ? e.message : "An unknown error occurred."] *)
Definition toast_message (e : exn) : jsstring :=
  match e with
  | ErrorObj message => message
  | Thrown _ => js "An unknown error occurred."
  end.

(** The two calls of the [catch] block of a turn. *)
Definition turn_error_log (e : exn) : list event :=
  [Toast (toast_message e) (js "error");
   ConsoleError (js "Error in handleSendMessage:") e].

(** The error thrown when the memory list holds [null]. *)
Definition null_memory_error : exn :=
  ErrorObj (js "Cannot read properties of null (reading 'layer')").

(** The calls Case 2 makes. *)
Definition is_image_step (ev : event) : bool :=
  match ev with
  | CallOnStreamChunk _ | CallFetchProfile _ | CallFetchSettings
  | CallDeductCredits _ _ | CallGenerateImage _ _ _ => true
  | _ => false
  end.

(** What a turn may charge: nothing; or, for a privileged profile, one
    image generation; or, for a non-privileged profile whose balance covers
    the looked-up cost, one deduction of that cost followed by one image
    generation. *)
Definition charge_spec {St} (input : AgentInput St) (env : Env) (cs : list event)
  : Prop :=
  cs = []
  \/ exists p prompt,
       data (select_profile (supabase input) (agent_uid input)) = Some p
       /\ ((jsstring_eqb (membership p) (js "admin") = true
            /\ cs = [CallGenerateImage prompt (apiKey input) (model_of p)])
           \/ exists settings,
                data (select_app_settings (supabase input)) = Some settings
                /\ jsstring_eqb (membership p) (js "admin") = false
                /\ (image_cost settings (model_of p) <= credits p)%Z
                /\ cs = [CallDeductCredits (agent_uid input)
                           (image_cost settings (model_of p));
                         CallGenerateImage prompt (apiKey input) (model_of p)]).

(** A draft as the agent writes them: an AI message without identity, for
    the project and the chat of the input, with the raw response only for
    the role ['admin']. *)
Definition agent_draft {St} (input : AgentInput St) (m : Message) : Prop :=
  id m = None /\ created_at m = None /\ user_id m = None /\ plan m = None
  /\ sender m = ai_sender
  /\ project_id m = proj_id (project input)
  /\ chat_id m = chat_ident (chat input)
  /\ (has_admin_role input = false -> raw_ai_response m = None).

Definition drafts_ok {St} (input : AgentInput St)
  (r : outcome AgentExecutionResult) : Prop :=
  match r with
  | Returned a => exists m, a = single m /\ agent_draft input m
  | _ => True
  end.

(** What a phase of the agent does between a world and its result: the
    caller's state moves along [R], a returned result is one well-formed
    draft, the added calls are [allowed] and charge as [charge_spec]
    says. *)
Definition phase_summary {St} (R : St -> St -> Prop) (allowed : event -> bool)
  (env : Env) (input : AgentInput St) (w : world St)
  (rw : outcome AgentExecutionResult * world St) : Prop :=
  R (st w) (st (snd rw))
  /\ drafts_ok input (fst rw)
  /\ exists added,
       trace (snd rw) = trace w ++ added
       /\ forallb allowed added = true
       /\ charge_spec input env (charges added).

(* ===================================================================== *)
(** ** Further examples *)
(* ===================================================================== *)

Module Examples.

(** ASCII lower-casing, enough for the examples. *)
Definition lower (s : jsstring) : jsstring :=
  map (fun c => if ((65 <=? c) && (c <=? 90))%N then (c + 32)%N else c) s.

Definition said (i t : string) : Message :=
  with_id (ai_text_message (js "project-1") (js "chat-1") (js t)) (js i).

Definition talk : list Message :=
  [said "m1" "Hello Cat"; said "m2" "a dog"; said "m3" "CATS everywhere"].

Definition chat_named (i : string) : Chat :=
  mkChat (js i) (js "project-1") (js i) None.

Definition chats : ChatList :=
  mkChatList [chat_named "a"; chat_named "b"; chat_named "c"] (Some (chat_named "b")).

(** A privileged profile. *)
Definition admin_client : SupabaseClient :=
  mkSupabase
    (fun _ => mkReply (Some (mkProfile (js "admin") (js "admin") 0 None)) None)
    (mkReply (Some Scenario.cost_table) None)
    (fun draft => inr (Scenario.saved draft))
    (fun _ _ => None).

Definition admin_input : AgentInput (list jsstring) :=
  mkAgentInput (js "draw a cat") None (js "key") (js "gemini-2.5-flash")
    Scenario.the_project Scenario.the_chat [] admin_client Scenario.the_user
    (Some (mkProfile (js "admin") (js "admin") 0 None)) (Some Scenario.recorder) None
    (js "autonomous").

(** A database that refuses every insert. *)
Definition failing_client : SupabaseClient :=
  mkSupabase
    (fun _ => mkReply (Some (Scenario.profile_with 0)) None)
    (mkReply (Some Scenario.cost_table) None)
    (fun _ => inl (ErrorObj (js "insert failed")))
    (fun _ _ => None).

Definition failing_hook : HookContext :=
  mkHook (Some failing_client) (Some Scenario.the_user) (Some (js "key")) None
    (js "autonomous") (Some Scenario.the_chat) [].

(** A database that stores the messages of the user and refuses those of
    the AI. *)
Definition picky_client : SupabaseClient :=
  mkSupabase
    (fun _ => mkReply (Some (Scenario.profile_with 0)) None)
    (mkReply (Some Scenario.cost_table) None)
    (fun draft =>
       match sender draft with
       | user_sender => inr (Scenario.saved draft)
       | ai_sender => inl (ErrorObj (js "insert failed"))
       end)
    (fun _ _ => None).

Definition picky_hook : HookContext :=
  mkHook (Some picky_client) (Some Scenario.the_user) (Some (js "key")) None
    (js "autonomous") (Some Scenario.the_chat) [].

(** A [JSON.parse] that also reads the start event of the cat turn. *)
Definition parse_event (t : jsstring) : exn + json :=
  if jsstring_eqb t (Scenario.stringify_start (js "On it!"))
  then inr (start_event (js "On it!"))
  else Scenario.parse t.

Definition event_env : Env :=
  mkEnv parse_event Scenario.stringify_start (fun l => concat l) Scenario.friendly
    (js "(instructions)") (js "2025-01-01T00:00:00.000Z") 1735689600000 1735689600000
    (fun _ => Scenario.cat_reply) (fun _ _ _ => inr (js "IMG", false)).

Definition event_input : AgentInput View :=
  turn_input event_env (Scenario.hook 3) (Scenario.client 3) Scenario.the_user
    Scenario.the_chat (js "key") (js "draw a cat") None Scenario.hello_saved.

(** A stream that fails after two fragments. *)
Definition broken_env : Env :=
  Scenario.env_of
    (inr (mkModelStream [mkChunk (Some (js "Hi ")); mkChunk (Some (js "there"))]
            (Some (ErrorObj (js "connection lost")))))
    (inr (js "IMG", false)).

(** A reply that greets in plain text. *)
Definition greeting_env : Env :=
  Scenario.env_of (Scenario.fragments ["Hi "; "there!"]%string) (inr (js "IMG", false)).

Definition unreadable : File :=
  mkFile (js "image/png") (inl (Thrown JNull)).

Definition picture : File :=
  mkFile (js "image/png") (inr (js "AAAA")).

Definition icon : File :=
  mkFile (js "image/gif") (inr (js "BBBB")).

(** Memory entries, and replies that carry them. *)
Definition note (k v : string) : json :=
  JObj [(js "layer", JStr (js "personal")); (js "key", JStr (js k));
        (js "value", JStr (js v))].

Definition parse_memory (t : jsstring) : exn + json :=
  if jsstring_eqb t (js "{code+memory}")
  then inr (JObj [(js "code", JStr (js "print(1)"));
                  (js "memoryToCreate",
                   JArr [note "name" "Ada"; JNull; note "pet" "cat"])])
  else inl (ErrorObj (js "Unexpected token in JSON")).

Definition memory_env : Env :=
  mkEnv parse_memory Scenario.stringify_start (fun l => concat l) Scenario.friendly
    (js "(instructions)") (js "2025-01-01T00:00:00.000Z") 1735689600000 1735689600000
    (fun _ => inr (mkModelStream
                     [mkChunk (Some (js "Noted." +++ sentinel +++ js "{code+memory}"
                                     +++ sentinel))] None))
    (fun _ _ _ => inr (js "IMG", false)).

Definition memory_payload : ParsedMetadata :=
  mkParsed (JStr (js "a cat")) JNull JNull (JArr [note "name" "Ada"; note "pet" "cat"]).

End Examples.

(* ===================================================================== *)
(** ** Properties *)
(* ===================================================================== *)

Unset Implicit Arguments.

(** *** Strings *)

Section Strings.
Implicit Types (s t pat : jsstring).

Lemma starts_with_length pat : forall s,
  starts_with pat s = true -> length pat <= length s.
Proof.
  induction pat as [| p pat IH]; intros [| c s]; simpl; try lia; try discriminate.
  intros H. apply andb_true_iff in H as [_ H]. apply IH in H. lia.
Qed.

Lemma starts_with_app pat : forall s t,
  starts_with pat s = true -> starts_with pat (s ++ t) = true.
Proof.
  induction pat as [| p pat IH]; intros [| c s] t; simpl; auto; try discriminate.
  intros H. apply andb_true_iff in H as [H1 H2].
  rewrite H1. simpl. now apply IH.
Qed.

(** Only the first [length pat] code units matter. *)
Lemma starts_with_cut pat : forall s t,
  length pat <= length s -> starts_with pat (s ++ t) = starts_with pat s.
Proof.
  induction pat as [| p pat IH]; intros [| c s] t; simpl; auto; try lia.
  intros H. f_equal. apply IH. lia.
Qed.

Lemma indexOf_bound pat : forall s i,
  indexOf s pat = Some i -> i + length pat <= length s.
Proof.
  induction s as [| c s IH]; intros i; simpl.
  - destruct (starts_with pat []) eqn:E; [| discriminate].
    intros [= <-]. now apply starts_with_length in E.
  - destruct (starts_with pat (c :: s)) eqn:E.
    + intros [= <-]. now apply starts_with_length in E.
    + destruct (indexOf s pat) as [j |] eqn:Ej; simpl; [| discriminate].
      intros [= <-]. specialize (IH j eq_refl). lia.
Qed.

(** An occurrence that is found stays the first one when text arrives. *)
Lemma indexOf_app pat : forall s t i,
  indexOf s pat = Some i -> indexOf (s ++ t) pat = Some i.
Proof.
  induction s as [| c s IH]; intros t i; simpl.
  - destruct (starts_with pat []) eqn:E; [| discriminate].
    intros [= <-]. destruct pat; [| discriminate].
    destruct t; reflexivity.
  - destruct (starts_with pat (c :: s)) eqn:E.
    + intros [= <-]. change (c :: s ++ t) with ((c :: s) ++ t).
      now rewrite starts_with_app.
    + destruct (indexOf s pat) as [j |] eqn:Ej; simpl; [| discriminate].
      intros [= <-].
      change (c :: s ++ t) with ((c :: s) ++ t).
      rewrite starts_with_cut, E.
      * now rewrite (IH t j eq_refl).
      * apply indexOf_bound in Ej. simpl. lia.
Qed.

Lemma indexOf_app_none pat s t :
  indexOf (s ++ t) pat = None -> indexOf s pat = None.
Proof.
  intros H. destruct (indexOf s pat) as [i |] eqn:E; [| reflexivity].
  apply (indexOf_app pat s t i) in E. congruence.
Qed.

Lemma substring_0 s i : substring s 0 i = firstn i s.
Proof. unfold substring. simpl. now rewrite Nat.sub_0_r. Qed.
End Strings.

(** *** The streaming loop *)

Section StreamParser.
Implicit Types (s : StreamState) (c : option jsstring) (cs : list (option jsstring)).

(** The cumulative buffer is the concatenation of the fragments. *)
Lemma feed_fullText s c :
  fullText (fst (feed s c)) = fullText s ++ delta_text c.
Proof.
  unfold feed. destruct c as [[| u t] |]; simpl; try now rewrite app_nil_r.
  destruct (indexOf _ sentinel); [| reflexivity].
  now destruct (_ <? _).
Qed.

Lemma final_state_fullText cs : forall s,
  fullText (final_state cs s) = fullText s ++ concat (map delta_text cs).
Proof.
  induction cs as [| c cs IH]; intros s; simpl.
  - now rewrite app_nil_r.
  - now rewrite IH, feed_fullText, app_assoc.
Qed.

(** The emitted prefix never gets shorter. *)
Lemma feed_buffer_length s c :
  length (streamingBuffer s) <= length (streamingBuffer (fst (feed s c))).
Proof.
  unfold feed. destruct c as [[| u t] |]; simpl; try lia.
  destruct (indexOf _ sentinel); simpl.
  - destruct (Nat.ltb_spec (length (streamingBuffer s))
                (length (substring (fullText s ++ u :: t) 0 n))); simpl; lia.
  - rewrite length_app. lia.
Qed.

Lemma final_state_buffer_length cs : forall s,
  length (streamingBuffer s) <= length (streamingBuffer (final_state cs s)).
Proof.
  induction cs as [| c cs IH]; intros s; simpl; [lia |].
  etransitivity; [apply (feed_buffer_length s c) | apply IH].
Qed.

Lemma tracks_initial : tracks initial_stream.
Proof. split; [now exists [] | reflexivity]. Qed.

Lemma feed_tracks s c :
  tracks s ->
  tracks (fst (feed s c))
  /\ streamingBuffer (fst (feed s c))
     = streamingBuffer s ++ delta_text (snd (feed s c)).
Proof.
  intros [[rest Hp] Hn]. unfold feed.
  destruct c as [[| u t] |]; simpl;
    try (split; [split; [now exists rest | assumption] | now rewrite app_nil_r]).
  remember (fullText s ++ u :: t) as full eqn:Ef.
  destruct (indexOf full sentinel) as [i |] eqn:Ei; simpl.
  - rewrite substring_0.
    destruct (Nat.ltb_spec (length (streamingBuffer s)) (length (firstn i full)))
      as [Hlt | Hge]; simpl.
    + assert (Hb : firstn (length (streamingBuffer s)) (firstn i full)
                   = streamingBuffer s).
      { rewrite length_firstn in Hlt.
        rewrite firstn_firstn, Nat.min_l by lia.
        rewrite Ef, Hp, <- app_assoc.
        rewrite firstn_app, Nat.sub_diag, firstn_all. simpl. now rewrite app_nil_r. }
      split; [split |]; simpl.
      * exists (skipn i full). now rewrite firstn_skipn.
      * congruence.
      * unfold substring_from.
        rewrite <- (firstn_skipn (length (streamingBuffer s)) (firstn i full)) at 1.
        now rewrite Hb.
    + split; [split |]; simpl.
      * exists (rest ++ u :: t). now rewrite Ef, Hp, <- app_assoc.
      * congruence.
      * now rewrite app_nil_r.
  - assert (Hfull : streamingBuffer s = fullText s).
    { apply Hn. rewrite Ef in Ei. now apply indexOf_app_none in Ei. }
    split; [split |]; simpl.
    + exists []. now rewrite app_nil_r, Ef, Hfull.
    + intros _. now rewrite Ef, Hfull.
    + reflexivity.
Qed.

(** What has been handed to [onStreamChunk] is [streamingBuffer]. *)
Lemma deltas_buffer cs : forall s,
  tracks s ->
  streamingBuffer (final_state cs s) = streamingBuffer s ++ concat (deltas cs s).
Proof.
  induction cs as [| c cs IH]; intros s Hs; simpl.
  - now rewrite app_nil_r.
  - destruct (feed_tracks s c Hs) as [Ht Hb].
    destruct (feed s c) as [s' [d |]] eqn:E; simpl in *.
    + rewrite (IH s' Ht), Hb. now rewrite app_assoc.
    + rewrite (IH s' Ht), Hb. now rewrite app_nil_r.
Qed.

Lemma streamed_buffer cs :
  streamed cs = streamingBuffer (final_state cs initial_stream).
Proof.
  unfold streamed. now rewrite (deltas_buffer cs initial_stream tracks_initial).
Qed.


Lemma final_state_app cs1 : forall cs2 s,
  final_state (cs1 ++ cs2) s = final_state cs2 (final_state cs1 s).
Proof.
  induction cs1 as [| c cs1 IH]; intros cs2 s; simpl; [reflexivity | apply IH].
Qed.

Lemma final_state_tracks cs : forall s, tracks s -> tracks (final_state cs s).
Proof.
  induction cs as [| c cs IH]; intros s Hs; simpl; [assumption |].
  apply IH. now apply feed_tracks.
Qed.

(** Before the token is complete, all that has arrived has been shown. *)
Lemma final_state_before_token cs :
  indexOf (concat (map delta_text cs)) sentinel = None ->
  final_state cs initial_stream
  = mkStreamState (concat (map delta_text cs)) (concat (map delta_text cs)).
Proof.
  intros H.
  pose proof (final_state_fullText cs initial_stream) as Hf. simpl in Hf.
  destruct (final_state_tracks cs initial_stream tracks_initial) as [_ Hn].
  rewrite Hf in Hn. specialize (Hn H).
  destruct (final_state cs initial_stream) as [full buf]. simpl in *. congruence.
Qed.

(** The fragment that completes the token: the emitted prefix moves up to
    the token when the token starts in this fragment, and stays where it
    is when the token started in text that was already shown. *)
Lemma feed_completing (shown c : jsstring) i :
  indexOf shown sentinel = None ->
  indexOf (shown ++ c) sentinel = Some i ->
  fst (feed (mkStreamState shown shown) (Some c))
  = mkStreamState (shown ++ c) (firstn (Nat.max i (length shown)) (shown ++ c)).
Proof.
  intros Hn Hi. destruct c as [| u t].
  - rewrite app_nil_r in Hi. congruence.
  - unfold feed. cbn [fullText streamingBuffer]. rewrite Hi, substring_0.
    pose proof (indexOf_bound sentinel _ _ Hi) as Hb.
    rewrite length_firstn.
    destruct (Nat.ltb_spec (length shown) (Nat.min i (length (shown ++ u :: t))))
      as [Hlt | Hge]; cbn [fst].
    + now rewrite Nat.max_l by lia.
    + rewrite Nat.max_r by lia. f_equal.
      rewrite firstn_app, Nat.sub_diag, firstn_all. simpl. now rewrite app_nil_r.
Qed.

(** Once the token is found and the emitted prefix reaches it, nothing more
    is emitted. *)
Lemma feed_after_token s c i :
  indexOf (fullText s) sentinel = Some i ->
  i <= length (streamingBuffer s) ->
  indexOf (fullText (fst (feed s c))) sentinel = Some i
  /\ streamingBuffer (fst (feed s c)) = streamingBuffer s.
Proof.
  intros Hi Hle. unfold feed. destruct c as [[| u t] |]; cbn [fst]; auto.
  rewrite (indexOf_app sentinel (fullText s) (u :: t) i Hi), substring_0.
  destruct (Nat.ltb_spec (length (streamingBuffer s))
              (length (firstn i (fullText s ++ u :: t)))) as [Hlt | Hge]; cbn [fst].
  - rewrite length_firstn in Hlt. lia.
  - split; [| reflexivity]. cbn [fullText].
    now apply indexOf_app.
Qed.

Lemma final_state_after_token cs : forall s i,
  indexOf (fullText s) sentinel = Some i ->
  i <= length (streamingBuffer s) ->
  streamingBuffer (final_state cs s) = streamingBuffer s.
Proof.
  induction cs as [| c cs IH]; intros s i Hi Hle; simpl; [reflexivity |].
  destruct (feed_after_token s c i Hi Hle) as [Hi' Hb].
  rewrite (IH _ i Hi') by (rewrite Hb; assumption). exact Hb.
Qed.

(** What the loop shows, for every way of cutting a response that holds
    the token: [before] are the fragments received while the token is
    incomplete, [c] is the fragment that completes it at index [i].  The
    user interface receives the response up to [i], or up to the end of
    [before] when that lies further. *)
Lemma streamed_with_sentinel (before : list (option jsstring)) (c : jsstring)
  (after : list (option jsstring)) (i : nat) :
  let shown := concat (map delta_text before) in
  indexOf shown sentinel = None ->
  indexOf (shown ++ c) sentinel = Some i ->
  streamed (before ++ Some c :: after)
  = firstn (Nat.max i (length shown)) (shown ++ c).
Proof.
  intros shown Hn Hi. rewrite streamed_buffer, final_state_app.
  rewrite (final_state_before_token before Hn). fold shown.
  cbn [final_state].
  rewrite (feed_completing shown c i Hn Hi).
  pose proof (indexOf_bound sentinel _ _ Hi) as Hb.
  rewrite (final_state_after_token after _ i); cbn [fullText streamingBuffer]; auto.
  rewrite length_firstn. rewrite length_app in *. lia.
Qed.

(** Fed as a single fragment, a response is shown up to the token. *)
Lemma streamed_whole (whole : jsstring) i :
  indexOf whole sentinel = Some i ->
  streamed [Some whole] = firstn i whole.
Proof.
  intros Hi.
  pose proof (streamed_with_sentinel [] whole [] i eq_refl Hi) as H.
  cbn [map concat length app] in H. now rewrite Nat.max_l in H by lia.
Qed.

(** Fragmentation makes no difference as long as no cut falls inside the
    token: the token starts at or after the end of [before]. *)
Lemma streamed_unsplit (before : list (option jsstring)) (c : jsstring)
  (after : list (option jsstring)) (i : nat) :
  let shown := concat (map delta_text before) in
  indexOf shown sentinel = None ->
  indexOf (shown ++ c) sentinel = Some i ->
  length shown <= i ->
  streamed (before ++ Some c :: after)
  = streamed [Some (shown ++ c ++ concat (map delta_text after))].
Proof.
  intros shown Hn Hi Hle.
  rewrite (streamed_with_sentinel before c after i Hn Hi). fold shown.
  rewrite Nat.max_l by assumption.
  pose proof (indexOf_bound sentinel _ _ Hi) as Hb.
  rewrite (streamed_whole _ i).
  - rewrite app_assoc. rewrite (firstn_app i (shown ++ c)).
    replace (i - length (shown ++ c)) with 0 by lia.
    cbn [firstn]. now rewrite app_nil_r.
  - rewrite app_assoc. now apply indexOf_app.
Qed.

(** A cut inside the token: everything received before the cut has been
    shown, which is more than the text before the token. *)
Lemma streamed_split (before : list (option jsstring)) (c : jsstring)
  (after : list (option jsstring)) (i : nat) :
  let shown := concat (map delta_text before) in
  indexOf shown sentinel = None ->
  indexOf (shown ++ c) sentinel = Some i ->
  i < length shown ->
  streamed (before ++ Some c :: after) = shown
  /\ length (streamed [Some (shown ++ c ++ concat (map delta_text after))])
     < length (streamed (before ++ Some c :: after)).
Proof.
  intros shown Hn Hi Hlt.
  rewrite (streamed_with_sentinel before c after i Hn Hi). fold shown.
  rewrite Nat.max_r by lia.
  assert (Hs : firstn (length shown) (shown ++ c) = shown).
  { rewrite firstn_app, Nat.sub_diag, firstn_all. simpl. now rewrite app_nil_r. }
  rewrite Hs. split; [reflexivity |].
  rewrite (streamed_whole _ i).
  - rewrite length_firstn. lia.
  - rewrite app_assoc. now apply indexOf_app.
Qed.

(** Every fragment list whose text holds the token has a fragment that
    completes it. *)
Lemma first_completing_fragment cs : forall (acc : jsstring) (i : nat),
  indexOf acc sentinel = None ->
  indexOf (acc ++ concat (map delta_text cs)) sentinel = Some i ->
  exists (before : list (option jsstring)) (c : jsstring)
         (after : list (option jsstring)),
    cs = before ++ Some c :: after
    /\ indexOf (acc ++ concat (map delta_text before)) sentinel = None
    /\ indexOf (acc ++ concat (map delta_text before) ++ c) sentinel = Some i.
Proof.
  induction cs as [| x cs IH]; intros acc i Hn Hi.
  - simpl in Hi. rewrite app_nil_r in Hi. congruence.
  - cbn [map concat] in Hi.
    destruct (indexOf (acc ++ delta_text x) sentinel) as [j |] eqn:Ej.
    + pose proof (indexOf_app sentinel _ (concat (map delta_text cs)) j Ej) as Hj.
      rewrite <- app_assoc in Hj. rewrite Hj in Hi. injection Hi as ->.
      destruct x as [t |].
      * exists [], t, cs. cbn [map concat app]. rewrite app_nil_r. auto.
      * simpl in Ej. rewrite app_nil_r in Ej. congruence.
    + rewrite app_assoc in Hi.
      destruct (IH (acc ++ delta_text x) i Ej Hi) as (before & c & after & -> & H1 & H2).
      exists (x :: before), c, after. cbn [map concat app].
      repeat rewrite <- app_assoc in *. auto.
Qed.

(** The loop, for every fragment list whose text holds the token at index
    [i]: the user interface receives the text up to [i] or up to the last
    cut before the token is complete, whichever lies further; and this is
    what a single fragment shows exactly when that cut is not inside the
    token. *)
Lemma streamed_any (cs : list (option jsstring)) (i : nat) :
  let whole := concat (map delta_text cs) in
  indexOf whole sentinel = Some i ->
  exists (before : list (option jsstring)) (c : jsstring)
         (after : list (option jsstring)),
    cs = before ++ Some c :: after
    /\ let shown := concat (map delta_text before) in
       streamed cs = firstn (Nat.max i (length shown)) whole
       /\ (streamed cs = streamed [Some whole] <-> length shown <= i).
Proof.
  intros whole Hi.
  destruct (first_completing_fragment cs [] i eq_refl Hi)
    as (before & c & after & Hcs & Hn & Hc).
  cbn [app] in Hn, Hc.
  exists before, c, after. split; [assumption |]. intros shown.
  pose proof (streamed_with_sentinel before c after i Hn Hc) as Hstream.
  cbv zeta in Hstream. subst shown.
  remember (concat (map delta_text before)) as shown eqn:Es.
  pose proof (indexOf_bound sentinel _ _ Hc) as Hb.
  pose proof (indexOf_bound sentinel _ _ Hi) as Hw.
  assert (Hwhole : whole = (shown ++ c) ++ concat (map delta_text after)).
  { unfold whole. rewrite Hcs, map_app, concat_app. cbn [map concat delta_text].
    now rewrite <- app_assoc, Es. }
  assert (Hs : streamed cs = firstn (Nat.max i (length shown)) whole).
  { rewrite Hcs, Hstream, Hwhole.
    rewrite (firstn_app _ (shown ++ c) (concat (map delta_text after))).
    replace (Nat.max i (length shown) - length (shown ++ c)) with 0
      by (rewrite length_app in *; lia).
    cbn [firstn]. now rewrite app_nil_r. }
  split; [assumption |].
  assert (Hone : streamed [Some whole] = firstn i whole)
    by exact (streamed_whole whole i Hi).
  rewrite Hs, Hone. split.
  - intros Heq. apply (f_equal (@length codeunit)) in Heq.
    rewrite !length_firstn in Heq.
    assert (Hlen : length shown <= length whole)
      by (rewrite Hwhole, !length_app; lia).
    lia.
  - intros Hle. now rewrite Nat.max_l by assumption.
Qed.
End StreamParser.

(** *** Traces *)

Section Traces.
Context {St : Type}.
Implicit Types (w : world St) (P Q : event -> bool).

Lemma grows_refl P w : grows P w w.
Proof. exists []. now rewrite app_nil_r. Qed.

Lemma grows_trans P w1 w2 w3 :
  grows P w1 w2 -> grows P w2 w3 -> grows P w1 w3.
Proof.
  intros (a & Ha & Pa) (b & Hb & Pb). exists (a ++ b). split.
  - now rewrite Hb, Ha, app_assoc.
  - rewrite forallb_app. now rewrite Pa, Pb.
Qed.

Lemma grows_weaken P Q w1 w2 :
  (forall ev, P ev = true -> Q ev = true) -> grows P w1 w2 -> grows Q w1 w2.
Proof.
  intros HPQ (a & Ha & Pa). exists a. split; [assumption |].
  rewrite forallb_forall in *. auto.
Qed.

Lemma grows_by P w s' evs :
  forallb P evs = true -> grows P w (mkWorld s' (trace w ++ evs)).
Proof. intros H. now exists evs. Qed.

Lemma emit_run (ev : event) w :
  emit ev w = (Returned tt, mkWorld (st w) (trace w ++ [ev])).
Proof. reflexivity. Qed.
End Traces.

(** *** The agent, phase by phase *)

Section AgentPhases.
Context {St : Type}.
Variable env : Env.
Implicit Types (w : world St) (input : AgentInput St) (cb : option (Callback St)).

Lemma call_onStreamChunk_grows cb chunk w :
  exists r w', call_onStreamChunk cb chunk w = (r, w')
    /\ r <> Pending /\ grows is_chunk_call w w'.
Proof.
  destruct cb as [f |]; simpl.
  - destruct (f chunk (st w)) as [[e |] s'] eqn:E; eexists; eexists;
      (split; [reflexivity | split; [discriminate | now apply grows_by]]).
  - exists (Returned tt), w. split; [reflexivity |].
    split; [discriminate | apply grows_refl].
Qed.

Lemma call_onStreamChunk_quiet cb chunk w :
  quiet cb ->
  exists w', call_onStreamChunk cb chunk w = (Returned tt, w')
    /\ grows is_chunk_call w w'.
Proof.
  intros Hq. destruct cb as [f |]; simpl.
  - specialize (Hq f eq_refl chunk (st w)).
    destruct (f chunk (st w)) as [r s']. simpl in Hq. subst r.
    eexists. split; [reflexivity | now apply grows_by].
  - exists w. split; [reflexivity | apply grows_refl].
Qed.

Lemma stream_loop_grows cb cs : forall s w,
  exists r w', stream_loop cb cs s w = (r, w')
    /\ r <> Pending /\ grows is_chunk_call w w'.
Proof.
  induction cs as [| c cs IH]; intros s w; simpl.
  - exists (Returned s), w. split; [reflexivity |].
    split; [discriminate | apply grows_refl].
  - destruct (feed s (chunk_text c)) as [s' [d |]].
    + destruct (call_onStreamChunk_grows cb d w) as (r & w1 & E & Hr & G).
      destruct r as [[] | e |].
      * destruct (IH s' w1) as (r2 & w2 & E2 & Hr2 & G2).
        exists r2, w2. split; [| split; [assumption | eapply grows_trans; eauto]].
        unfold bind at 1. now rewrite E.
      * exists (Threw e), w1. split; [| split; [discriminate | assumption]].
        unfold bind at 1. now rewrite E.
      * contradiction.
    + apply IH.
Qed.

(** With a callback that does not throw, the loop hands over exactly the
    deltas and ends in the state the fragments determine. *)
Lemma stream_loop_quiet (f : Callback St) cs : forall s w,
  quiet (Some f) ->
  exists s', stream_loop (Some f) cs s w
    = (Returned (final_state (map chunk_text cs) s),
       mkWorld s' (trace w ++ map CallOnStreamChunk (deltas (map chunk_text cs) s))).
Proof.
  intros s w Hq. revert s w.
  induction cs as [| c cs IH]; intros s w; simpl.
  - exists (st w). rewrite app_nil_r. now destruct w.
  - destruct (feed s (chunk_text c)) as [s' [d |]]; simpl.
    + unfold bind. simpl.
      pose proof (Hq f eq_refl d (st w)) as Hf.
      destruct (f d (st w)) as [r s1]. simpl in Hf. subst r.
      destruct (IH s' (mkWorld s1 (trace w ++ [CallOnStreamChunk d]))) as [s2 E].
      exists s2. rewrite E. simpl. now rewrite <- app_assoc.
    + apply IH.
Qed.

Lemma add_file_parts_world fs : forall acc w r w',
  add_file_parts fs acc w = (r, w') -> w' = w.
Proof.
  induction fs as [| f fs IH]; intros acc w r w'; simpl.
  - now intros [= _ <-].
  - unfold bind, fileToGenerativePart.
    destruct (file_read f) as [e | d]; simpl.
    + now intros [= _ <-].
    + apply IH.
Qed.

Lemma make_request_world input w r w' :
  make_request env input w = (r, w') -> w' = w.
Proof.
  unfold make_request, bind.
  destruct (files input) as [fs |]; simpl.
  - destruct (add_file_parts fs [TextPart (prompt input)] w) as [[a | e |] w1] eqn:E;
      apply add_file_parts_world in E; subst w1; now intros [= _ <-].
  - now intros [= _ <-].
Qed.

(** The first phase only calls the model and [onStreamChunk]. *)
Lemma receive_grows input w r w' :
  receive env input w = (r, w') -> grows is_stream_call w w'.
Proof.
  unfold receive. unfold bind at 1.
  destruct (make_request env input w) as [[req | e |] w0] eqn:E0;
    apply make_request_world in E0; subst w0;
    try (intros [= _ <-]; apply grows_refl).
  unfold bind, await.
  destruct (generateContentStream env req) as [e | rs]; simpl.
  - intros [= _ <-]. now apply grows_by.
  - unfold consume_stream, bind.
    set (w1 := mkWorld (st w) (trace w ++ [CallGenerateContentStream req])).
    destruct (stream_loop_grows (onStreamChunk input) (chunks rs) initial_stream w1)
      as (r1 & w2 & E & _ & G).
    fold initial_stream. rewrite E.
    assert (G1 : grows is_stream_call w w2).
    { eapply grows_trans; [apply (grows_by _ w (st w) [CallGenerateContentStream req]);
                           reflexivity |].
      eapply grows_weaken; [| exact G]. now intros []. }
    destruct r1 as [s | e |].
    + destruct (failure rs); intros [= _ <-]; assumption.
    + intros [= _ <-]; assumption.
    + intros [= _ <-]; assumption.
Qed.

(** Finalization never throws: it returns the visible text and a payload,
    and logs at most a warning. *)
Lemma finalize_returns fullText w :
  exists payload w',
    finalize (St := St) env fullText w = (Returned (userVisibleText fullText, payload), w')
    /\ st w' = st w
    /\ grows is_warning w w'.
Proof.
  unfold finalize, parse_metadata.
  destruct (metadataMatch fullText) as [mm |]; simpl.
  - destruct (truthy_string (group1 mm)).
    + destruct (JSON_parse env (trim (group1 mm))) as [e | parsed].
      * eexists; eexists. split; [reflexivity |]. split; [reflexivity |].
        now apply grows_by.
      * eexists; exists w. split; [reflexivity |]. split; [reflexivity |].
        apply grows_refl.
    + eexists; exists w. split; [reflexivity |]. split; [reflexivity |].
      apply grows_refl.
  - eexists; exists w. split; [reflexivity |]. split; [reflexivity |].
    apply grows_refl.
Qed.

Lemma save_memories_ok uid mems : forall w,
  forallb (fun mem => match mem with JNull => false | _ => true end) mems = true ->
  save_memories uid mems w
  = (Returned tt, mkWorld (st w) (trace w ++ memory_calls uid (JArr mems))).
Proof.
  induction mems as [| mem mems IH]; intros w H; simpl in *.
  - rewrite app_nil_r. now destruct w.
  - apply andb_true_iff in H as [H1 H2].
    destruct mem; try discriminate;
      (unfold bind; simpl; rewrite (IH _ H2); simpl; now rewrite <- app_assoc).
Qed.

Lemma handle_memory_ok uid memoryToCreate w :
  memory_ok memoryToCreate = true ->
  handle_memory uid memoryToCreate w
  = (Returned tt, mkWorld (st w) (trace w ++ memory_calls uid memoryToCreate)).
Proof.
  intros H.
  destruct memoryToCreate as [| b | n | t | [| mem mems] | fs]; simpl;
    try (rewrite app_nil_r; now destruct w).
  now apply (save_memories_ok uid (mem :: mems)).
Qed.

Lemma memory_calls_are_saves uid v :
  forallb is_save_memory (memory_calls uid v) = true.
Proof.
  destruct v; try reflexivity. simpl.
  induction items; simpl; auto.
Qed.

(** Whatever the list, the memory step only calls [saveMemory]. *)
Lemma handle_memory_grows uid memoryToCreate w :
  exists r w', handle_memory (St := St) uid memoryToCreate w = (r, w')
    /\ r <> Pending /\ grows is_save_memory w w'.
Proof.
  assert (H : forall mems w0, exists r w',
             save_memories (St := St) uid mems w0 = (r, w')
             /\ r <> Pending /\ grows is_save_memory w0 w').
  { induction mems as [| mem mems IH]; intros w0; simpl.
    - exists (Returned tt), w0. split; [reflexivity |].
      split; [discriminate | apply grows_refl].
    - destruct mem;
        try (unfold bind; simpl;
             match goal with
             | |- context [save_memories uid mems ?w1] =>
                 destruct (IH w1) as (r & w2 & E & Hr & G); rewrite E;
                 exists r, w2; split; [now destruct r |];
                 split; [assumption |];
                 eapply grows_trans; [| exact G]; now apply grows_by
             end).
      exists (Threw (ErrorObj (js "Cannot read properties of null (reading 'layer')"))), w0.
      split; [reflexivity |]. split; [discriminate | apply grows_refl]. }
  destruct memoryToCreate as [| b | n | t | [| mem mems] | fs];
    try (exists (Returned tt), w; split; [reflexivity |];
         split; [discriminate | apply grows_refl]).
  apply (H (mem :: mems) w).
Qed.
End AgentPhases.

(** *** Case 2, path by path *)

Section ImageCase.
Context {St : Type}.
Variables (env : Env) (input : AgentInput St).
Variables (fullText visible prompt : jsstring) (p : Profile).

Let uid := user_ident (user input).

Hypothesis callback_quiet : quiet (onStreamChunk input).
Hypothesis profile_fetched :
  select_profile (supabase input) uid = mkReply (Some p) None.

(** A privileged user: no settings, no deduction. *)
Lemma image_case_admin (w : world St) :
  jsstring_eqb (membership p) (js "admin") = true ->
  exists w1, grows is_chunk_call w w1 /\
    image_case env input fullText visible prompt w
    = (match generateImage env prompt (apiKey input) (model_of p) with
       | inr g => Returned (single (image_draft input fullText visible g))
       | inl e => Threw e
       end,
       mkWorld (st w1)
         (trace w1 ++ [CallFetchProfile uid;
                       CallGenerateImage prompt (apiKey input) (model_of p)])).
Proof.
  intros Hadmin.
  destruct (call_onStreamChunk_quiet (onStreamChunk input)
              (JSON_stringify_start_event env visible) w callback_quiet)
    as (w1 & E & G).
  exists w1. split; [assumption |].
  unfold image_case. unfold bind at 1. rewrite E.
  unfold bind at 1. rewrite emit_run.
  fold uid. rewrite profile_fetched. simpl.
  unfold bind at 1. unfold ret at 1. rewrite Hadmin.
  fold (model_of p).
  unfold bind, await. simpl.
  destruct (generateImage env prompt (apiKey input) (model_of p)) as [e | [img fb]];
    simpl; rewrite <- app_assoc; reflexivity.
Qed.

Variable settings : Settings.
Hypothesis not_admin : jsstring_eqb (membership p) (js "admin") = false.
Hypothesis settings_fetched :
  select_app_settings (supabase input) = mkReply (Some settings) None.

Let cost := image_cost settings (model_of p).

(** Balance below the cost: the notice, and nothing after the two fetches. *)
Lemma image_case_shortfall (w : world St) :
  (credits p < cost)%Z ->
  exists w1, grows is_chunk_call w w1 /\
    image_case env input fullText visible prompt w
    = (Returned (single (shortfall_draft input cost (credits p))),
       mkWorld (st w1) (trace w1 ++ [CallFetchProfile uid; CallFetchSettings])).
Proof.
  intros Hlt.
  destruct (call_onStreamChunk_quiet (onStreamChunk input)
              (JSON_stringify_start_event env visible) w callback_quiet)
    as (w1 & E & G).
  exists w1. split; [assumption |].
  unfold image_case. unfold bind at 1. rewrite E.
  unfold bind at 1. rewrite emit_run.
  fold uid. rewrite profile_fetched. simpl.
  unfold bind at 1. unfold ret at 1. rewrite not_admin.
  fold (model_of p).
  unfold bind at 1. rewrite emit_run.
  rewrite settings_fetched. simpl.
  unfold bind at 1. unfold ret at 1. fold cost.
  apply Z.ltb_lt in Hlt. rewrite Hlt.
  unfold ret. simpl. rewrite <- app_assoc. reflexivity.
Qed.

(** Balance that covers the cost: deduction, then generation. *)
Lemma image_case_authorized (w : world St) :
  (cost <= credits p)%Z ->
  exists w1, grows is_chunk_call w w1 /\
    image_case env input fullText visible prompt w
    = (match generateImage env prompt (apiKey input) (model_of p) with
       | inr g => Returned (single (image_draft input fullText visible g))
       | inl e => Threw e
       end,
       mkWorld (st w1)
         (trace w1 ++ [CallFetchProfile uid; CallFetchSettings;
                       CallDeductCredits uid cost;
                       CallGenerateImage prompt (apiKey input) (model_of p)])).
Proof.
  intros Hle.
  destruct (call_onStreamChunk_quiet (onStreamChunk input)
              (JSON_stringify_start_event env visible) w callback_quiet)
    as (w1 & E & G).
  exists w1. split; [assumption |].
  unfold image_case. unfold bind at 1. rewrite E.
  unfold bind at 1. rewrite emit_run.
  fold uid. rewrite profile_fetched. simpl.
  unfold bind at 1. unfold ret at 1. rewrite not_admin.
  fold (model_of p).
  unfold bind at 1. rewrite emit_run.
  rewrite settings_fetched. simpl.
  unfold bind at 1. unfold ret at 1. fold cost.
  apply Z.ltb_ge in Hle. rewrite Hle.
  unfold bind at 1. rewrite emit_run.
  unfold bind, await. simpl.
  destruct (generateImage env prompt (apiKey input) (model_of p)) as [e | [img fb]];
    simpl; repeat rewrite <- app_assoc; reflexivity.
Qed.
End ImageCase.

(** *** Dispatch, case by case *)

Section Dispatch.
Context {St : Type}.
Variables (env : Env) (input : AgentInput St).
Variables (fullText visible : jsstring) (payload : ParsedMetadata).

Let uid := user_ident (user input).

Hypothesis memory_fine : memory_ok (memoryToCreate payload) = true.

Lemma dispatch_code (w : world St) code :
  nonblank_string (code_field payload) = Some code ->
  dispatch env input fullText visible payload w
  = (Returned (single (code_draft input fullText visible code (language_field payload))),
     after_memory uid payload w).
Proof.
  intros Hc. unfold dispatch. unfold bind.
  rewrite (handle_memory_ok _ _ _ memory_fine). now rewrite Hc.
Qed.

Lemma dispatch_image (w : world St) prompt :
  nonblank_string (code_field payload) = None ->
  nonblank_string (imagePrompt payload) = Some prompt ->
  dispatch env input fullText visible payload w
  = image_case env input fullText visible prompt (after_memory uid payload w).
Proof.
  intros Hc Hp. unfold dispatch. unfold bind at 1.
  rewrite (handle_memory_ok _ _ _ memory_fine). now rewrite Hc, Hp.
Qed.

Lemma dispatch_text (w : world St) :
  nonblank_string (code_field payload) = None ->
  nonblank_string (imagePrompt payload) = None ->
  dispatch env input fullText visible payload w
  = (if truthy_string visible
     then Returned (single (text_draft input fullText visible))
     else Threw empty_response,
     after_memory uid payload w).
Proof.
  intros Hc Hp. unfold dispatch. unfold bind.
  rewrite (handle_memory_ok _ _ _ memory_fine). rewrite Hc, Hp.
  now destruct (truthy_string visible).
Qed.
End Dispatch.

(** *** The whole agent *)

Section Agent.
Context {St : Type}.
Variables (env : Env) (input : AgentInput St).
Implicit Types (w : world St).

Lemma agent_body_phases w s w1 visible payload w2 :
  receive env input w = (Returned s, w1) ->
  finalize env (fullText s) w1 = (Returned (visible, payload), w2) ->
  agent_body env input w = dispatch env input (fullText s) visible payload w2.
Proof.
  intros Hr Hf. unfold agent_body. unfold bind at 1. rewrite Hr.
  unfold bind at 1. now rewrite Hf.
Qed.

(** The [catch] block turns a throw of the body into the error draft. *)
Lemma run_of_body w :
  runAutonomousAgent env input w
  = match agent_body env input w with
    | (Returned a, w') => (Returned a, w')
    | (Threw e, w') =>
        (Returned (single (error_draft env input e)),
         mkWorld (st w') (trace w' ++ [agent_error_log e]))
    | (Pending, w') => (Pending, w')
    end.
Proof.
  unfold runAutonomousAgent, try_catch.
  destruct (agent_body env input w) as [[a | e |] w']; reflexivity.
Qed.

Lemma image_case_outcome fullText visible prompt w :
  one_draft_or_throw (fst (image_case env input fullText visible prompt w)).
Proof.
  unfold image_case. unfold bind at 1.
  destruct (call_onStreamChunk_grows (onStreamChunk input)
              (JSON_stringify_start_event env visible) w) as (r & w1 & E & Hr & _).
  rewrite E. destruct r as [[] | e |]; simpl; auto.
  unfold bind at 1. rewrite emit_run. unfold bind at 1.
  destruct (select_profile (supabase input) (user_ident (user input)))
    as [[p |] [e |]]; simpl; auto.
  assert (Hgen : forall w0 modelToUse,
    one_draft_or_throw
      (fst (bind (await (CallGenerateImage prompt (apiKey input) modelToUse)
                    (generateImage env prompt (apiKey input) modelToUse))
              (fun r : jsstring * bool =>
                 let (imageBase64, fallbackOccurred) := r in
                 ret (single (attach_raw input fullText
                        (with_imageStatus
                           (with_image_base64
                              (ai_text_message (proj_id (project input))
                                 (chat_ident (chat input))
                                 (if fallbackOccurred
                                  then visible +++ fallback_note else visible))
                              imageBase64) complete)))) w0))).
  { intros w0 modelToUse. unfold bind, await.
    destruct (generateImage env prompt (apiKey input) modelToUse) as [e | [img fb]];
      simpl; eauto. }
  destruct (jsstring_eqb (membership p) (js "admin")); [apply Hgen |].
  unfold bind at 1. rewrite emit_run. unfold bind at 1.
  destruct (select_app_settings (supabase input)) as [[settings |] [e |]];
    simpl; auto.
  destruct (_ <? _)%Z; simpl; eauto.
  unfold bind at 1. rewrite emit_run. apply Hgen.
Qed.

Lemma dispatch_outcome fullText visible payload w :
  one_draft_or_throw (fst (dispatch env input fullText visible payload w)).
Proof.
  unfold dispatch. unfold bind at 1.
  destruct (handle_memory_grows (user_ident (user input)) (memoryToCreate payload) w)
    as (r & w1 & E & Hr & _).
  rewrite E. destruct r as [[] | e |]; simpl; auto.
  destruct (nonblank_string (code_field payload)); simpl; eauto.
  destruct (nonblank_string (imagePrompt payload)).
  - apply image_case_outcome.
  - destruct (truthy_string visible); simpl; eauto.
Qed.

Lemma receive_not_pending w :
  readable (files input) = true -> fst (receive env input w) <> Pending.
Proof.
  intros Hread. unfold receive. unfold bind at 1.
  assert (Hreq : exists req, make_request env input w = (Returned req, w)).
  { revert Hread. unfold make_request, readable. unfold bind.
    destruct (files input) as [fs |]; simpl; [| intros _; now eexists].
    intros Hread.
    assert (H : forall acc, exists l, add_file_parts fs acc w = (Returned l, w)).
    { induction fs as [| f fs IH]; intros acc; simpl; [now exists acc |].
      simpl in Hread. apply andb_true_iff in Hread as [H1 H2].
      unfold bind, fileToGenerativePart.
      destruct (file_read f); [discriminate |]. simpl. now apply IH. }
    destruct (H [TextPart (prompt input)]) as [l ->]. now eexists. }
  destruct Hreq as [req ->].
  unfold bind, await. destruct (generateContentStream env req) as [e | rs]; simpl;
    [discriminate |].
  unfold consume_stream, bind.
  match goal with
  | |- context [stream_loop ?cb ?cs ?s0 ?w0] =>
      destruct (stream_loop_grows cb cs s0 w0) as (r & w1 & E & Hr & _); rewrite E
  end.
  destruct r as [s | e |]; simpl; try discriminate; try contradiction.
  destruct (failure rs); discriminate.
Qed.

(** One draft, a throw, or (only with an unreadable file) no end. *)
Lemma agent_body_outcome w :
  match fst (agent_body env input w) with
  | Returned a => exists m, a = single m
  | Threw _ => True
  | Pending => readable (files input) = false
  end.
Proof.
  unfold agent_body. unfold bind at 1.
  pose proof (receive_not_pending w) as Hnp.
  destruct (receive env input w) as [[s | e |] w1]; simpl in *; auto.
  - unfold bind at 1.
    destruct (finalize_returns env (fullText s) w1) as (payload & w2 & E & _).
    rewrite E.
    pose proof (dispatch_outcome (fullText s) (userVisibleText (fullText s)) payload w2)
      as Hd.
    simpl. destruct (dispatch _ _ _ _ _ _) as [[a | e |] w3]; simpl in *; auto.
    contradiction.
  - destruct (readable (files input)); [| reflexivity].
    now destruct Hnp.
Qed.
End Agent.

(* ===================================================================== *)
(** ** The claims about the agent *)
(* ===================================================================== *)

Section FinalizeClaims.
Context {St : Type}.
Variable env : Env.

Lemma finalize_malformed fullText mm e (w : world St) :
  metadataMatch fullText = Some mm ->
  JSON_parse env (trim (group1 mm)) = inl e ->
  exists w',
    finalize env fullText w
    = (Returned (trim (replace_metadata fullText), no_metadata), w')
    /\ st w' = st w /\ grows is_warning w w'.
Proof.
  intros Hm Hp. unfold finalize, userVisibleText, parse_metadata. rewrite Hm.
  destruct (truthy_string (group1 mm)).
  - rewrite Hp. eexists. split; [reflexivity |]. split; [reflexivity |].
    now apply grows_by.
  - exists w. split; [reflexivity |]. split; [reflexivity | apply grows_refl].
Qed.

(** C7 (amended): for a full response with no occurrence of the token,
    finalization yields the entire text with leading and trailing
    whitespace trimmed as the visible text, and the payload whose
    [imagePrompt], [code], [language] and [memoryToCreate] are all null;
    it makes no call. *)
Theorem C7_finalize_without_sentinel fullText (w : world St) :
  indexOf fullText sentinel = None ->
  finalize env fullText w = (Returned (trim fullText, no_metadata), w).
Proof.
  intros H. unfold finalize, userVisibleText, metadataMatch. now rewrite H.
Qed.
End FinalizeClaims.

Lemma C7_finalize_without_sentinel_witness :
  indexOf (js "Hey there! What's on your mind? :D") sentinel = None
  /\ finalize (Scenario.env_of (Scenario.fragments []) (inl (Thrown JNull)))
       (js "Hey there! What's on your mind? :D") Scenario.start
     = (Returned (trim (js "Hey there! What's on your mind? :D"), no_metadata),
        Scenario.start).
Proof.
  split; [reflexivity |].
  apply (C7_finalize_without_sentinel
           (Scenario.env_of (Scenario.fragments []) (inl (Thrown JNull)))
           (js "Hey there! What's on your mind? :D") Scenario.start).
  reflexivity.
Defined.

(** C7 as stated fails: the response ["Hi "] has no token, and its visible
    text is ["Hi"], not the entire text. *)
Lemma C7_counterexample_trailing_space :
  indexOf (js "Hi ") sentinel = None
  /\ forall (env : Env) (w : world unit),
       finalize env (js "Hi ") w = (Returned (js "Hi", no_metadata), w)
       /\ js "Hi" <> js "Hi ".
Proof.
  split; [reflexivity |]. intros env w. split; [reflexivity | discriminate].
Qed.

Section TurnClaims.
Context {St : Type}.
Variables (env : Env) (input : AgentInput St).
Variables (w w1 : world St) (s : StreamState).

Let uid := user_ident (user input).

(** The stream has ended normally, with cumulative buffer [fullText s]. *)
Hypothesis received : receive env input w = (Returned s, w1).

Lemma not_action_of_stream ev : is_stream_call ev = true -> negb (is_action_call ev) = true.
Proof. now destruct ev. Qed.

Lemma not_action_of_warning ev : is_warning ev = true -> negb (is_action_call ev) = true.
Proof. now destruct ev. Qed.

(** C6 (amended): when the text between the first and the second token
    does not parse, finalization does not throw: it returns the text
    with the metadata block removed, trimmed, as visible text and the
    payload with every field null.  No memory, image or credit call is
    made.  The turn returns one plain-text draft: the visible text when
    it is non-empty, and otherwise the error notice of the
    empty-response case. *)
Theorem C6_malformed_metadata_degrades mm e :
  metadataMatch (fullText s) = Some mm ->
  JSON_parse env (trim (group1 mm)) = inl e ->
  let visible := trim (replace_metadata (fullText s)) in
  exists w2 w',
    finalize env (fullText s) w1 = (Returned (visible, no_metadata), w2)
    /\ runAutonomousAgent env input w
       = (Returned (single (if truthy_string visible
                            then text_draft input (fullText s) visible
                            else error_draft env input empty_response)), w')
    /\ grows (fun ev => negb (is_action_call ev)) w w'.
Proof.
  intros Hm Hp visible.
  destruct (finalize_malformed env (fullText s) mm e w1 Hm Hp) as (w2 & Hf & _ & Gw).
  assert (G2 : grows (fun ev => negb (is_action_call ev)) w w2).
  { eapply grows_trans.
    - eapply grows_weaken; [apply not_action_of_stream | exact (receive_grows _ _ _ _ _ received)].
    - eapply grows_weaken; [apply not_action_of_warning | exact Gw]. }
  exists w2. rewrite run_of_body, (agent_body_phases _ _ _ _ _ _ _ _ received Hf).
  rewrite dispatch_text by reflexivity.
  fold visible. unfold after_memory. simpl. rewrite app_nil_r.
  destruct (truthy_string visible).
  - exists (mkWorld (st w2) (trace w2)). split; [assumption |]. split; [reflexivity |].
    destruct G2 as (a & Ha & Pa). now exists a.
  - eexists. split; [assumption |]. split; [reflexivity |].
    eapply grows_trans; [exact G2 |]. now apply grows_by.
Qed.

Variables (visible : jsstring) (payload : ParsedMetadata) (w2 : world St).

(** Finalization has resolved the visible text and the payload. *)
Hypothesis finalized :
  finalize env (fullText s) w1 = (Returned (visible, payload), w2).
Hypothesis memory_fine : memory_ok (memoryToCreate payload) = true.

Lemma free_until_dispatch :
  grows free_of_charge w (after_memory uid payload w2).
Proof.
  eapply grows_trans.
  - eapply grows_weaken; [| exact (receive_grows _ _ _ _ _ received)]. now intros [].
  - destruct (finalize_returns env (fullText s) w1) as (pl & w2' & Hf & _ & Gw).
    rewrite finalized in Hf. injection Hf as _ _ <-.
    eapply grows_trans.
    + eapply grows_weaken; [| exact Gw]. now intros [].
    + eapply grows_weaken;
        [| apply grows_by, (memory_calls_are_saves uid (memoryToCreate payload))].
      now intros [].
Qed.

Lemma free_of_chunk_calls (wa wb : world St) :
  grows is_chunk_call wa wb -> grows free_of_charge wa wb.
Proof. apply grows_weaken. now intros []. Qed.

Variables (prompt : jsstring) (p : Profile) (settings : Settings).

(** The payload asks for an image, and nothing comes before it. *)
Hypothesis no_code : nonblank_string (code_field payload) = None.
Hypothesis image_requested : nonblank_string (imagePrompt payload) = Some prompt.
Hypothesis callback_quiet : quiet (onStreamChunk input).
(** The re-fetched profile is of a non-privileged user, and the cost
    settings are there. *)
Hypothesis profile_fetched :
  select_profile (supabase input) uid = mkReply (Some p) None.
Hypothesis not_admin : jsstring_eqb (membership p) (js "admin") = false.
Hypothesis settings_fetched :
  select_app_settings (supabase input) = mkReply (Some settings) None.

Let cost := image_cost settings (model_of p).

(** C3: for a non-privileged user whose re-fetched balance is below the
    looked-up cost of the chosen image model, a turn whose payload
    requests an image calls neither [generateImage] nor the credit
    deduction, and its result is exactly one AI message whose text is
    the shortfall notice. *)
Theorem C3_shortfall_blocks_generation :
  (credits p < cost)%Z ->
  exists w',
    runAutonomousAgent env input w
    = (Returned (single (ai_text_message (proj_id (project input))
                           (chat_ident (chat input))
                           (shortfall_notice cost (credits p)))), w')
    /\ grows free_of_charge w w'.
Proof.
  intros Hlt.
  rewrite run_of_body, (agent_body_phases _ _ _ _ _ _ _ _ received finalized).
  rewrite (dispatch_image _ _ _ _ _ memory_fine _ _ no_code image_requested).
  destruct (image_case_shortfall env input (fullText s) visible prompt p
              callback_quiet profile_fetched settings not_admin settings_fetched
              (after_memory (user_ident (user input)) payload w2) Hlt)
    as (wc & Gc & ->).
  eexists. split; [reflexivity |].
  eapply grows_trans; [apply free_until_dispatch |].
  eapply grows_trans; [apply free_of_chunk_calls; exact Gc |].
  now apply grows_by.
Qed.

(** C8: in an authorized image turn (non-privileged user, balance that
    covers the cost) the credit deduction is called, and has completed,
    right before [generateImage] is called; no call before it reaches
    the image backend or the credits, and when generation fails the only
    call that follows is the error log: nothing gives the credits
    back. *)
Theorem C8_deduction_precedes_generation :
  (cost <= credits p)%Z ->
  exists before after w',
    runAutonomousAgent env input w
    = (Returned
         (single (match generateImage env prompt (apiKey input) (model_of p) with
                  | inr g => image_draft input (fullText s) visible g
                  | inl e => error_draft env input e
                  end)), w')
    /\ trace w'
       = trace w ++ before
         ++ [CallDeductCredits uid cost;
             CallGenerateImage prompt (apiKey input) (model_of p)]
         ++ after
    /\ forallb free_of_charge before = true
    /\ after = match generateImage env prompt (apiKey input) (model_of p) with
               | inr _ => []
               | inl e => [agent_error_log e]
               end.
Proof.
  intros Hle.
  rewrite run_of_body, (agent_body_phases _ _ _ _ _ _ _ _ received finalized).
  rewrite (dispatch_image _ _ _ _ _ memory_fine _ _ no_code image_requested).
  destruct (image_case_authorized env input (fullText s) visible prompt p
              callback_quiet profile_fetched settings not_admin settings_fetched
              (after_memory (user_ident (user input)) payload w2) Hle)
    as (wc & Gc & ->).
  assert (G : grows free_of_charge w wc).
  { eapply grows_trans; [apply free_until_dispatch |].
    apply free_of_chunk_calls; exact Gc. }
  destruct G as (pre & Hpre & Ppre).
  exists (pre ++ [CallFetchProfile uid; CallFetchSettings]).
  fold uid. fold cost.
  destruct (generateImage env prompt (apiKey input) (model_of p)) as [e | g].
  - exists [agent_error_log e]. eexists. split; [reflexivity |].
    split; [| split; [| reflexivity]].
    + simpl. rewrite Hpre. repeat rewrite <- app_assoc. reflexivity.
    + rewrite forallb_app, Ppre. reflexivity.
  - exists []. eexists. split; [reflexivity |].
    split; [| split; [| reflexivity]].
    + simpl. rewrite Hpre. repeat rewrite <- app_assoc. reflexivity.
    + rewrite forallb_app, Ppre. reflexivity.
Qed.
End TurnClaims.

Lemma C3_shortfall_blocks_generation_witness :
  exists w',
    runAutonomousAgent (Scenario.cat_env (inr (js "IMG", false)))
      (Scenario.input 0) Scenario.start
    = (Returned (single (ai_text_message (js "project-1") (js "chat-1")
         (js "Oops! You need 1 credits to generate an image, but you only have 0."))),
       w')
    /\ grows free_of_charge Scenario.start w'.
Proof.
  pose (env := Scenario.cat_env (inr (js "IMG", false))).
  pose (w1 := snd (receive env (Scenario.input 0) Scenario.start)).
  apply (C3_shortfall_blocks_generation env (Scenario.input 0) Scenario.start
           w1 Scenario.cat_state)
    with (visible := js "On it!") (payload := Scenario.cat_payload) (w2 := w1)
         (prompt := js "a cat") (p := Scenario.profile_with 0)
         (settings := Scenario.cost_table).
  - vm_compute. reflexivity.
  - vm_compute. reflexivity.
  - reflexivity.
  - reflexivity.
  - reflexivity.
  - intros f [= <-] c s. reflexivity.
  - reflexivity.
  - reflexivity.
  - reflexivity.
  - reflexivity.
Defined.

Lemma C8_deduction_precedes_generation_witness :
  exists before after w',
    runAutonomousAgent (Scenario.cat_env (inl (ErrorObj (js "Both models failed"))))
      (Scenario.input 3) Scenario.start
    = (Returned (single (ai_text_message (js "project-1") (js "chat-1")
                           (js "An error occurred: Both models failed"))), w')
    /\ trace w'
       = trace Scenario.start ++ before
         ++ [CallDeductCredits (js "user-1") 1;
             CallGenerateImage (js "a cat") (js "key") (js "nano_banana")]
         ++ after
    /\ forallb free_of_charge before = true
    /\ after = [agent_error_log (ErrorObj (js "Both models failed"))].
Proof.
  pose (env := Scenario.cat_env (inl (ErrorObj (js "Both models failed")))).
  pose (w1 := snd (receive env (Scenario.input 3) Scenario.start)).
  apply (C8_deduction_precedes_generation env (Scenario.input 3) Scenario.start
           w1 Scenario.cat_state)
    with (visible := js "On it!") (payload := Scenario.cat_payload) (w2 := w1)
         (prompt := js "a cat") (p := Scenario.profile_with 3)
         (settings := Scenario.cost_table).
  - vm_compute. reflexivity.
  - vm_compute. reflexivity.
  - reflexivity.
  - reflexivity.
  - reflexivity.
  - intros f [= <-] c s. reflexivity.
  - reflexivity.
  - reflexivity.
  - reflexivity.
  - vm_compute. discriminate.
Defined.

Lemma C6_malformed_metadata_degrades_witness :
  exists w2 w',
    finalize Scenario.malformed_env Scenario.malformed_text
      (snd (receive Scenario.malformed_env (Scenario.input 0) Scenario.start))
    = (Returned (js "Here you go!", no_metadata), w2)
    /\ runAutonomousAgent Scenario.malformed_env (Scenario.input 0) Scenario.start
       = (Returned (single (text_draft (Scenario.input 0) Scenario.malformed_text
                              (js "Here you go!"))), w')
    /\ grows (fun ev => negb (is_action_call ev)) Scenario.start w'.
Proof.
  apply (C6_malformed_metadata_degrades Scenario.malformed_env (Scenario.input 0)
           Scenario.start
           (snd (receive Scenario.malformed_env (Scenario.input 0) Scenario.start))
           (mkStreamState Scenario.malformed_text (js "Here you go! ")))
    with (mm := mkMatch 13 (js "{oops") 46)
         (e := ErrorObj (js "Unexpected token in JSON")).
  - vm_compute. reflexivity.
  - vm_compute. reflexivity.
  - vm_compute. reflexivity.
Defined.

(** C6 as stated fails: for the response [[--METADATA--]{oops[--METADATA--]]
    the block does not parse and the payload is absent, but the turn does
    not end with a plain-text outcome of the visible text: the body throws
    the empty-response error and the single draft is the error notice. *)
Lemma C6_counterexample_only_a_malformed_block :
  let env := Scenario.only_block_env in
  metadataMatch Scenario.only_block_text = Some (mkMatch 0 (js "{oops") 33)
  /\ JSON_parse env (trim (js "{oops")) = inl (ErrorObj (js "Unexpected token in JSON"))
  /\ fst (receive env (Scenario.input 0) Scenario.start)
     = Returned (mkStreamState Scenario.only_block_text [])
  /\ fst (agent_body env (Scenario.input 0) Scenario.start) = Threw empty_response
  /\ fst (runAutonomousAgent env (Scenario.input 0) Scenario.start)
     = Returned (single (ai_text_message (js "project-1") (js "chat-1")
                  (js "An error occurred: The AI returned an empty response."))).
Proof.
  repeat split; vm_compute; reflexivity.
Qed.

Section AgentClaims.
Context {St : Type}.
Variables (env : Env) (input : AgentInput St).

Lemma starts_with_prefix (a b : jsstring) : starts_with a (a ++ b) = true.
Proof.
  induction a as [| c a IH]; simpl; [reflexivity |].
  now rewrite N.eqb_refl, IH.
Qed.

(** C9: [runAutonomousAgent] never rejects.  Whatever is thrown inside
    it (a failed model call or stream, a failed profile or settings
    fetch, a failed image generation, the empty response) ends in a
    normal return of exactly one AI message draft whose text starts with
    ["An error occurred: "]; and whenever its files can be read it
    returns exactly one draft. *)
Theorem C9_agent_never_rejects (w : world St) :
  (forall e, fst (runAutonomousAgent env input w) <> Threw e)
  /\ (readable (files input) = true ->
      exists m, fst (runAutonomousAgent env input w) = Returned (single m))
  /\ (forall e w1,
        agent_body env input w = (Threw e, w1) ->
        runAutonomousAgent env input w
        = (Returned (single (error_draft env input e)),
           mkWorld (st w1) (trace w1 ++ [agent_error_log e]))
        /\ sender (error_draft env input e) = ai_sender
        /\ starts_with error_prefix (text (error_draft env input e)) = true).
Proof.
  pose proof (agent_body_outcome env input w) as Hout.
  rewrite run_of_body.
  destruct (agent_body env input w) as [[a | e0 |] w0] eqn:E;
    cbn [fst] in *.
  - repeat split; try discriminate.
    destruct Hout as [m ->]. now exists m.
  - split; [discriminate |]. split; [eauto |].
    intros e w1 [= <- <-]. split; [reflexivity |]. split; [reflexivity |].
    exact (starts_with_prefix error_prefix (getUserFriendlyError env e0)).
  - split; [discriminate |]. split; [congruence | discriminate].
Qed.
End AgentClaims.

Lemma C9_agent_never_rejects_witness :
  runAutonomousAgent Scenario.offline_env (Scenario.input 0) Scenario.start
  = (Returned (single (ai_text_message (js "project-1") (js "chat-1")
                         (js "An error occurred: Failed to fetch"))),
     mkWorld []
       (trace (snd (agent_body Scenario.offline_env (Scenario.input 0) Scenario.start))
        ++ [agent_error_log (ErrorObj (js "Failed to fetch"))]))
  /\ (exists m, fst (runAutonomousAgent Scenario.silent_env (Scenario.input 0)
                       Scenario.start) = Returned (single m)).
Proof.
  split.
  - apply (proj2 (proj2 (C9_agent_never_rejects Scenario.offline_env
                           (Scenario.input 0) Scenario.start))
             (ErrorObj (js "Failed to fetch"))
             (snd (agent_body Scenario.offline_env (Scenario.input 0) Scenario.start))).
    vm_compute. reflexivity.
  - apply (proj1 (proj2 (C9_agent_never_rejects Scenario.silent_env
                           (Scenario.input 0) Scenario.start))).
    reflexivity.
Defined.

Section DispatchClaims.
Context {St : Type}.
Variables (env : Env) (input : AgentInput St).
Variables (fullText visible : jsstring) (payload : ParsedMetadata) (w : world St).

Let uid := user_ident (user input).

Hypothesis memory_fine : memory_ok (memoryToCreate payload) = true.
Hypothesis callback_quiet : quiet (onStreamChunk input).

(** C5 (amended): dispatch yields exactly one draft or throws (the agent
    then returns the single error notice), by strict priority.  With a
    non-empty code body the draft carries visible text, the trimmed code
    and the language (['plaintext'] by default), and only memory calls
    are made, whatever [imagePrompt] is.  Else with a non-empty image
    prompt the image path is taken: once the profile (and, for a
    non-privileged user, the settings) is fetched, a privileged user or a
    balance that covers the cost gets the draft with visible text (plus
    the disclosure note after a fallback), image and status ['complete'],
    or the throw of a failed generation; a balance below the cost gets
    the shortfall notice alone.  Else the draft is the visible text
    alone when it is non-empty, and the empty-response error is thrown
    when it is empty. *)
Theorem C5_dispatch_priority :
  let r := fst (dispatch env input fullText visible payload w) in
  one_draft_or_throw r
  /\ match nonblank_string (code_field payload),
           nonblank_string (imagePrompt payload) with
     | Some code, _ =>
         r = Returned (single (code_draft input fullText visible code
                                 (language_field payload)))
         /\ grows is_save_memory w (snd (dispatch env input fullText visible payload w))
     | None, Some prompt =>
         forall p,
           select_profile (supabase input) uid = mkReply (Some p) None ->
           let generated :=
             match generateImage env prompt (apiKey input) (model_of p) with
             | inr g => Returned (single (image_draft input fullText visible g))
             | inl e => Threw e
             end in
           if jsstring_eqb (membership p) (js "admin") then r = generated
           else
             forall settings,
               select_app_settings (supabase input) = mkReply (Some settings) None ->
               r = if (credits p <? image_cost settings (model_of p))%Z
                   then Returned (single (shortfall_draft input
                                            (image_cost settings (model_of p))
                                            (credits p)))
                   else generated
     | None, None =>
         r = if truthy_string visible
             then Returned (single (text_draft input fullText visible))
             else Threw empty_response
     end.
Proof.
  intros r. split; [apply dispatch_outcome |].
  destruct (nonblank_string (code_field payload)) as [code |] eqn:Hc.
  - subst r. rewrite (dispatch_code env input fullText visible payload memory_fine w code Hc).
    split; [reflexivity |].
    apply grows_by, memory_calls_are_saves.
  - destruct (nonblank_string (imagePrompt payload)) as [prompt |] eqn:Hp.
    + intros p Hprofile generated.
      subst r.
      rewrite (dispatch_image env input fullText visible payload memory_fine w prompt Hc Hp).
      destruct (jsstring_eqb (membership p) (js "admin")) eqn:Hadmin.
      * destruct (image_case_admin env input fullText visible prompt p callback_quiet
                    Hprofile (after_memory (user_ident (user input)) payload w) Hadmin)
          as (w1 & _ & ->).
        reflexivity.
      * intros settings Hsettings.
        destruct (Z.ltb_spec (credits p) (image_cost settings (model_of p)))
          as [Hlt | Hge].
        -- destruct (image_case_shortfall env input fullText visible prompt p
                       callback_quiet Hprofile settings Hadmin Hsettings
                       (after_memory (user_ident (user input)) payload w) Hlt)
             as (w1 & _ & ->).
           reflexivity.
        -- destruct (image_case_authorized env input fullText visible prompt p
                       callback_quiet Hprofile settings Hadmin Hsettings
                       (after_memory (user_ident (user input)) payload w) Hge)
             as (w1 & _ & ->).
           reflexivity.
    + subst r.
      rewrite (dispatch_text env input fullText visible payload memory_fine w Hc Hp).
      now destruct (truthy_string visible).
Qed.
End DispatchClaims.

Lemma C5_dispatch_priority_witness :
  fst (dispatch (Scenario.cat_env (inr (js "IMG", true))) (Scenario.input 3)
         (fullText Scenario.cat_state) (js "On it!") Scenario.cat_payload Scenario.start)
  = Returned (single (image_draft (Scenario.input 3) (fullText Scenario.cat_state)
                        (js "On it!") (js "IMG", true))).
Proof.
  pose proof (C5_dispatch_priority (Scenario.cat_env (inr (js "IMG", true)))
                (Scenario.input 3) (fullText Scenario.cat_state) (js "On it!")
                Scenario.cat_payload Scenario.start eq_refl) as H.
  cbv zeta in H.
  assert (Hq : quiet (onStreamChunk (Scenario.input 3))).
  { intros f [= <-] c s. reflexivity. }
  destruct (H Hq) as [_ H2]. clear H.
  change (nonblank_string (code_field Scenario.cat_payload)) with (@None jsstring) in H2.
  change (nonblank_string (imagePrompt Scenario.cat_payload)) with (Some (js "a cat")) in H2.
  cbv iota in H2.
  specialize (H2 (Scenario.profile_with 3) eq_refl).
  cbv zeta in H2.
  change (jsstring_eqb (membership (Scenario.profile_with 3)) (js "admin")) with false in H2.
  cbv iota in H2.
  exact (H2 Scenario.cost_table eq_refl).
Defined.

(** C5 as stated fails: for the payload [{"imagePrompt":"a cat"}] (no code)
    and a non-privileged user with balance 0 and cost 1, the one draft
    carries no image payload, no status and not the visible text. *)
Lemma C5_counterexample_shortfall_draft :
  let r := fst (dispatch (Scenario.cat_env (inr (js "IMG", false))) (Scenario.input 0)
                  (fullText Scenario.cat_state) (js "On it!") Scenario.cat_payload
                  Scenario.start) in
  nonblank_string (code_field Scenario.cat_payload) = None
  /\ nonblank_string (imagePrompt Scenario.cat_payload) = Some (js "a cat")
  /\ exists m,
       r = Returned (single m)
       /\ image_base64 m = None /\ imageStatus m = None
       /\ text m <> js "On it!".
Proof.
  split; [reflexivity |]. split; [reflexivity |].
  exists (shortfall_draft (Scenario.input 0) 1 0).
  split; [vm_compute; reflexivity |].
  split; [reflexivity |]. split; [reflexivity |].
  vm_compute. discriminate.
Qed.

(* ===================================================================== *)
(** ** The claims about the streaming loop *)
(* ===================================================================== *)

(** C1, on the code: the response ["Hi there! [--METADATA--]{}[--METADATA--]"]
    fed as one fragment shows ["Hi there! "]; fed as the three fragments
    ["Hi there"], ["! [--META"], ["DATA--]{}[--METADATA--]"] it shows
    ["Hi there! [--META"]: the start of the token has been handed to the
    user interface, here to the recording [onStreamChunk] of a run of the
    agent, whose final draft is nevertheless ["Hi there!"].  The fragments
    of the specification's example, whose token [[--META--]] is not the
    token of the code, are shown in full. *)
Theorem C1_split_sentinel_is_shown :
  let whole := js "Hi there! [--METADATA--]{}[--METADATA--]" in
  let pieces := [js "Hi there"; js "! [--META"; js "DATA--]{}[--METADATA--]"] in
  concat pieces = whole
  /\ streamed [Some whole] = js "Hi there! "
  /\ streamed (map Some pieces) = js "Hi there! [--META"
  /\ streamed (map Some pieces) <> streamed [Some whole]
  /\ st (snd (runAutonomousAgent Scenario.split_env (Scenario.input 0) Scenario.start))
     = [js "Hi there"; js "! [--META"]
  /\ fst (runAutonomousAgent Scenario.split_env (Scenario.input 0) Scenario.start)
     = Returned (single (ai_text_message (js "project-1") (js "chat-1") (js "Hi there!")))
  /\ streamed [Some (js "Hi there"); Some (js "! [--ME"); Some (js "TA--]{}[--META--]")]
     = js "Hi there! [--META--]{}[--META--]".
Proof.
  repeat split; try (vm_compute; reflexivity).
  vm_compute. discriminate.
Qed.

(** C2, on the code: after the same three fragments the token is found at
    index 10 of the cumulative buffer, while the text already handed to
    the user interface, [streamingBuffer], has length 17: seven code units
    of it lie beyond the start of the hidden segment. *)
Theorem C2_emitted_text_passes_the_sentinel :
  let pieces :=
    [Some (js "Hi there"); Some (js "! [--META"); Some (js "DATA--]{}[--METADATA--]")] in
  let s := final_state pieces initial_stream in
  indexOf (fullText s) sentinel = Some 10
  /\ streamed pieces = streamingBuffer s
  /\ length (streamingBuffer s) = 17
  /\ skipn 10 (streamingBuffer s) = js "[--META".
Proof.
  repeat split; vm_compute; reflexivity.
Qed.

(* ===================================================================== *)
(** ** The claims about the chat hook *)
(* ===================================================================== *)

Section HookClaims.
Variables (env : Env) (hk : HookContext).
Variable runAgent : AgentInput View -> M View AgentExecutionResult.

(** C10: when the text is empty or whitespace-only and no file is
    attached, or when the database client, the user, the chat or the API
    key is absent (or the key is the empty string), [handleSendMessage]
    returns [{ messages: [] }] at once and leaves everything as it was:
    the messages of the view and the loading flag are unchanged, and no
    call is made (no placeholder, no persistence, no agent). *)
Theorem C10_guard_returns_at_once text' files chatArg (w : world View) :
  (truthy_string (trim text') = false /\ no_files files = true)
  \/ hk_supabase hk = None
  \/ hk_user hk = None
  \/ match chatArg with Some c => c | None => hk_activeChat hk end = None
  \/ hk_geminiApiKey hk = None
  \/ hk_geminiApiKey hk = Some [] ->
  handleSendMessage env hk runAgent text' files chatArg w = (Returned no_messages, w).
Proof.
  unfold handleSendMessage.
  intros [[Ht Hf] | [H | [H | [H | [H | H]]]]].
  - now rewrite Ht, Hf.
  - rewrite H. now destruct (negb _ && _).
  - rewrite H. destruct (negb _ && _); [reflexivity |].
    now destruct (hk_supabase hk).
  - rewrite H. destruct (negb _ && _); [reflexivity |].
    now destruct (hk_supabase hk), (hk_user hk).
  - rewrite H. destruct (negb _ && _); [reflexivity |].
    now destruct (hk_supabase hk), (hk_user hk),
      (match chatArg with Some c => c | None => hk_activeChat hk end).
  - rewrite H. destruct (negb _ && _); [reflexivity |].
    now destruct (hk_supabase hk), (hk_user hk),
      (match chatArg with Some c => c | None => hk_activeChat hk end).
Qed.

Variables (supabase : SupabaseClient) (user : User) (chatToUse : Chat).
Variables (geminiApiKey text' : jsstring) (files : option (list File)).
Variables (w wb : world View) (savedUserMessage savedAiMessage m : Message).

Let input :=
  turn_input env hk supabase user chatToUse geminiApiKey text' files savedUserMessage.
Let pid := chat_project_id chatToUse.

Hypothesis nothing_attached : no_files files = true.
Hypothesis user_message_saved :
  insert_message supabase (user_draft chatToUse user text') = inr savedUserMessage.
Hypothesis agent_returned :
  runAgent input (world_at_agent_call env chatToUse user text' savedUserMessage w)
  = (Returned (single m), wb).
Hypothesis ai_message_saved :
  insert_message supabase (with_project_id m pid) = inr savedAiMessage.

(** A turn whose agent returns one draft: the draft is persisted and
    takes the place of the AI placeholder; the [catch] block is not
    entered. *)
Lemma send_turn_completes :
  send_turn env hk runAgent supabase user chatToUse geminiApiKey text' files w
  = (Returned (single m),
     mkWorld
       (mkView
          (filter (fun x => negb (has_id (tempAiMessageId env) x))
             (view_messages (st wb)) ++ [savedAiMessage])
          false)
       (trace wb
        ++ [CallAddMessage (with_project_id m pid);
            CallExtractAndSaveMemory (user_ident user) (text savedUserMessage)
              (text savedAiMessage) pid])).
Proof.
  unfold send_turn. rewrite nothing_attached.
  unfold bind at 1. unfold update at 1. cbn [st trace].
  unfold bind at 1. unfold set_messages at 1, update at 1. cbn [st trace].
  unfold try_finally, try_catch, turn_body.
  unfold bind at 1. unfold await at 1. cbn [st trace].
  fold (user_draft chatToUse user text'). rewrite user_message_saved.
  unfold bind at 1. unfold set_messages at 1, update at 1. cbn [st trace].
  unfold bind at 1.
  fold (tempUserMessageId env) (tempAiMessageId env).
  cbn [view_messages isLoading setIsLoading].
  change (mkAgentInput _ _ _ _ _ _ _ _ _ _ _ _ _) with input.
  change (mkWorld _ _) with
    (world_at_agent_call env chatToUse user text' savedUserMessage w) at 1.
  rewrite agent_returned.
  cbn [messages single save_ai_messages].
  unfold bind at 1. unfold bind at 1. unfold await at 1.
  fold pid. rewrite ai_message_saved.
  unfold bind at 1. unfold ret at 1. unfold ret at 1.
  unfold bind at 1. rewrite emit_run.
  unfold bind at 1. unfold set_messages at 1, update at 1.
  cbn [updatedPlan single st trace view_messages isLoading].
  unfold bind at 1. unfold ret.
  cbn [st trace view_messages isLoading setIsLoading].
  rewrite <- app_assoc. reflexivity.
Qed.
End HookClaims.

Section EmptyResponse.
Variables (env : Env) (hk : HookContext).
Variable runAgent : AgentInput View -> M View AgentExecutionResult.
Variables (supabase : SupabaseClient) (user : User) (chatToUse : Chat).
Variables (geminiApiKey text' : jsstring).
Variables (w w1 w2 : world View) (savedUserMessage savedAiMessage : Message).
Variables (agent_input : AgentInput View) (s : StreamState).
Variables (visible : jsstring) (payload : ParsedMetadata).

Let wa := world_at_agent_call env chatToUse user text' savedUserMessage w.
Let notice := error_draft env agent_input empty_response.
Let pid := chat_project_id chatToUse.

(** The stream of the agent has ended and its response resolves to no
    visible text and no action. *)
Hypothesis received : receive env agent_input wa = (Returned s, w1).
Hypothesis finalized :
  finalize env (fullText s) w1 = (Returned (visible, payload), w2).
Hypothesis no_visible_text : truthy_string visible = false.
Hypothesis no_code : nonblank_string (code_field payload) = None.
Hypothesis no_image : nonblank_string (imagePrompt payload) = None.
Hypothesis memory_fine : memory_ok (memoryToCreate payload) = true.

(** The throw of line 172 is caught at line 174: the agent returns. *)
Lemma agent_empty_response :
  runAutonomousAgent env agent_input wa
  = (Returned (single notice),
     mkWorld (st w2)
       (trace w2
        ++ memory_calls (agent_uid agent_input) (memoryToCreate payload)
        ++ [agent_error_log empty_response])).
Proof.
  rewrite run_of_body, (agent_body_phases _ _ _ _ _ _ _ _ received finalized).
  rewrite (dispatch_text env agent_input (fullText s) visible payload memory_fine
             w2 no_code no_image).
  rewrite no_visible_text. unfold after_memory. cbn [st trace].
  now rewrite <- app_assoc.
Qed.

Lemma no_toast_in_agent :
  grows (fun ev => negb (is_toast ev)) wa
    (snd (runAutonomousAgent env agent_input wa)).
Proof.
  rewrite agent_empty_response. cbn [snd].
  eapply grows_trans.
  - eapply grows_weaken; [| exact (receive_grows _ _ _ _ _ received)]. now intros [].
  - destruct (finalize_returns env (fullText s) w1) as (pl & w2' & Hf & _ & Gw).
    rewrite finalized in Hf. injection Hf as _ _ <-.
    eapply grows_trans.
    + eapply grows_weaken; [| exact Gw]. now intros [].
    + apply grows_by. rewrite forallb_app.
      apply andb_true_iff. split; [| reflexivity].
      pose proof (memory_calls_are_saves (agent_uid agent_input)
                    (memoryToCreate payload)) as Hs.
      rewrite forallb_forall in *. intros ev Hev. apply Hs in Hev. now destruct ev.
Qed.

(** The call passes the guard of line 147 and carries no file. *)
Hypothesis text_given : truthy_string (trim text') = true.
Hypothesis client_present : hk_supabase hk = Some supabase.
Hypothesis user_present : hk_user hk = Some user.
Hypothesis key_present : hk_geminiApiKey hk = Some geminiApiKey.
Hypothesis key_given : truthy_string geminiApiKey = true.
(** Both messages are persisted. *)
Hypothesis user_message_saved :
  insert_message supabase (user_draft chatToUse user text') = inr savedUserMessage.
Hypothesis ai_message_saved :
  insert_message supabase (with_project_id notice pid) = inr savedAiMessage.
(** [runAgent] runs the autonomous agent for this turn. *)
Hypothesis delegates :
  runAgent (turn_input env hk supabase user chatToUse geminiApiKey text' None
              savedUserMessage) wa
  = runAutonomousAgent env agent_input wa.

(** C4 (amended): a turn whose resolved response has no visible text and
    no action does not reach the [catch] block of [handleSendMessage].
    The throw is caught inside [runAutonomousAgent], which returns
    exactly one AI draft, the notice ["An error occurred: ..."]; when
    both messages are persisted, [handleSendMessage] returns that result,
    raises no toast, persists the notice as the AI message and puts it
    in the view in place of the AI placeholder, and clears the loading
    flag. *)
Theorem C4_empty_response_is_persisted :
  exists w',
    handleSendMessage env hk runAgent text' None (Some (Some chatToUse)) w
    = (Returned (single notice), w')
    /\ starts_with error_prefix (text notice) = true
    /\ grows (fun ev => negb (is_toast ev)) w w'
    /\ In (CallAddMessage (with_project_id notice pid)) (trace w')
    /\ (exists earlier, view_messages (st w') = earlier ++ [savedAiMessage])
    /\ isLoading (st w') = false.
Proof.
  pose proof agent_empty_response as Hrun.
  pose proof no_toast_in_agent as Hquiet.
  rewrite Hrun in Hquiet. cbn [snd] in Hquiet.
  rewrite <- delegates in Hrun.
  eexists. split; [| split; [| split; [| split; [| split]]]].
  - unfold handleSendMessage. rewrite text_given. cbn [negb andb].
    rewrite client_present, user_present, key_present.
    destruct geminiApiKey as [| c k]; [discriminate |].
    apply (send_turn_completes env hk runAgent supabase user chatToUse (c :: k) text'
             None w _ savedUserMessage savedAiMessage notice eq_refl
             user_message_saved Hrun ai_message_saved).
  - exact (starts_with_prefix error_prefix (getUserFriendlyError env empty_response)).
  - cbn [trace].
    eapply grows_trans;
      [apply (grows_by _ w (st wa) [CallAddMessage (user_draft chatToUse user text')]);
       reflexivity |].
    eapply grows_trans; [exact Hquiet |].
    now apply grows_by.
  - cbn [trace]. apply in_or_app. right. now left.
  - cbn [st view_messages]. eexists. reflexivity.
  - reflexivity.
Qed.
End EmptyResponse.

Lemma C4_empty_response_is_persisted_witness :
  exists w',
    handleSendMessage Scenario.silent_env (Scenario.hook 0)
      (runAutonomousAgent Scenario.silent_env) (js "hello") None
      (Some (Some Scenario.the_chat)) Scenario.idle
    = (Returned (single Scenario.hello_notice), w')
    /\ starts_with error_prefix (text Scenario.hello_notice) = true
    /\ grows (fun ev => negb (is_toast ev)) Scenario.idle w'
    /\ In (CallAddMessage (with_project_id Scenario.hello_notice (js "project-1")))
         (trace w')
    /\ (exists earlier,
          view_messages (st w')
          = earlier ++ [Scenario.saved (with_project_id Scenario.hello_notice
                                          (js "project-1"))])
    /\ isLoading (st w') = false.
Proof.
  pose (wa := world_at_agent_call Scenario.silent_env Scenario.the_chat
                Scenario.the_user (js "hello") Scenario.hello_saved Scenario.idle).
  pose (w1 := snd (receive Scenario.silent_env Scenario.hello_input wa)).
  apply (C4_empty_response_is_persisted Scenario.silent_env (Scenario.hook 0)
           (runAutonomousAgent Scenario.silent_env) (Scenario.client 0)
           Scenario.the_user Scenario.the_chat (js "key") (js "hello")
           Scenario.idle w1 w1 Scenario.hello_saved
           (Scenario.saved (with_project_id Scenario.hello_notice (js "project-1")))
           Scenario.hello_input initial_stream [] no_metadata).
  - vm_compute. reflexivity.
  - vm_compute. reflexivity.
  - reflexivity.
  - reflexivity.
  - reflexivity.
  - reflexivity.
  - reflexivity.
  - reflexivity.
  - reflexivity.
  - reflexivity.
  - reflexivity.
  - reflexivity.
  - reflexivity.
  - reflexivity.
Defined.

(** C4 as stated fails: for the turn "hello" whose reply has no text and no
    action, [handleSendMessage] returns the agent's result with one
    message, raises no toast, and the view ends with the persisted user
    message followed by the persisted notice: the turn has completed with
    a persisted AI message, and the [catch] block has not run. *)
Lemma C4_counterexample_no_error_state :
  let run :=
    handleSendMessage Scenario.silent_env (Scenario.hook 0)
      (runAutonomousAgent Scenario.silent_env) (js "hello") None
      (Some (Some Scenario.the_chat)) Scenario.idle in
  fst (receive Scenario.silent_env Scenario.hello_input
         (world_at_agent_call Scenario.silent_env Scenario.the_chat Scenario.the_user
            (js "hello") Scenario.hello_saved Scenario.idle))
  = Returned (mkStreamState [] [])
  /\ userVisibleText [] = []
  /\ fst run = Returned (single Scenario.hello_notice)
  /\ existsb is_toast (trace (snd run)) = false
  /\ view_messages (st (snd run))
     = [Scenario.hello_saved;
        Scenario.saved (with_project_id Scenario.hello_notice (js "project-1"))]
  /\ isLoading (st (snd run)) = false.
Proof.
  repeat split; vm_compute; reflexivity.
Qed.

Lemma C10_guard_returns_at_once_witness :
  handleSendMessage Scenario.silent_env (Scenario.hook 0)
    (runAutonomousAgent Scenario.silent_env) (js "   ") None None Scenario.idle
  = (Returned no_messages, Scenario.idle)
  /\ handleSendMessage Scenario.silent_env
       (mkHook (Some (Scenario.client 0)) (Some Scenario.the_user) None None
          (js "autonomous") (Some Scenario.the_chat) [])
       (runAutonomousAgent Scenario.silent_env) (js "hello") None None Scenario.idle
     = (Returned no_messages, Scenario.idle).
Proof.
  split.
  - apply (C10_guard_returns_at_once Scenario.silent_env (Scenario.hook 0)
             (runAutonomousAgent Scenario.silent_env) (js "   ") None None Scenario.idle).
    left. split; reflexivity.
  - apply (C10_guard_returns_at_once Scenario.silent_env
             (mkHook (Some (Scenario.client 0)) (Some Scenario.the_user) None None
                (js "autonomous") (Some Scenario.the_chat) [])
             (runAutonomousAgent Scenario.silent_env) (js "hello") None None
             Scenario.idle).
    right. right. right. right. left. reflexivity.
Defined.

(* ===================================================================== *)
(** ** Further properties of the agent *)
(* ===================================================================== *)

(** *** The wire format of a response *)

Section WireFormat.
Implicit Types (s t pat v b rest : jsstring).

Lemma jsstring_eqb_true a b : jsstring_eqb a b = true <-> a = b.
Proof.
  unfold jsstring_eqb. destruct (list_eq_dec N.eq_dec a b); split; congruence.
Qed.

Lemma jsstring_eqb_refl a : jsstring_eqb a a = true.
Proof. now apply jsstring_eqb_true. Qed.

Lemma jsstring_eqb_false a b : jsstring_eqb a b = false <-> a <> b.
Proof.
  unfold jsstring_eqb. destruct (list_eq_dec N.eq_dec a b); split; congruence.
Qed.

Lemma starts_with_firstn pat : forall s,
  starts_with pat s = true <-> firstn (length pat) s = pat.
Proof.
  induction pat as [| p pat IH]; intros [| c s]; simpl; split; auto; try discriminate.
  - intros H. apply andb_true_iff in H as [H1 H2].
    apply N.eqb_eq in H1. subst. f_equal. now apply IH.
  - intros [= -> H]. rewrite N.eqb_refl. simpl. now apply IH.
Qed.

Lemma indexOf_here pat s : starts_with pat s = true -> indexOf s pat = Some 0.
Proof. intros H. destruct s; simpl; now rewrite H. Qed.

Lemma sentinel_length : length sentinel = 14.
Proof. reflexivity. Qed.

(** No proper suffix of the token is a prefix of it: two occurrences
    cannot overlap. *)
Lemma sentinel_no_border k :
  0 < k < 14 -> skipn k sentinel <> firstn (14 - k) sentinel.
Proof.
  intros H.
  do 14 (destruct k as [| k]; [try lia; vm_compute; discriminate |]).
  lia.
Qed.

(** Text without the token, followed by the token: the token is found
    where the text ends. *)
Lemma indexOf_at_token v : forall t,
  indexOf v sentinel = None ->
  indexOf (v ++ sentinel ++ t) sentinel = Some (length v).
Proof.
  induction v as [| c v IH]; intros t Hn.
  - change ([] ++ sentinel ++ t) with (sentinel ++ t).
    apply indexOf_here. exact (starts_with_prefix sentinel t).
  - cbn [indexOf] in Hn.
    destruct (starts_with sentinel (c :: v)) eqn:Es; [discriminate |].
    destruct (indexOf v sentinel) eqn:Ev; [discriminate |].
    change ((c :: v) ++ sentinel ++ t) with (c :: (v ++ sentinel ++ t)).
    cbn [indexOf]. change (c :: v ++ sentinel ++ t) with ((c :: v) ++ sentinel ++ t).
    destruct (starts_with sentinel ((c :: v) ++ sentinel ++ t)) eqn:Ew.
    + exfalso.
      destruct (Nat.le_gt_cases (length sentinel) (length (c :: v))) as [Hge | Hlt].
      * rewrite starts_with_cut in Ew by assumption. congruence.
      * apply starts_with_firstn in Ew. rewrite sentinel_length in *.
        rewrite firstn_app, (firstn_all2 (n := 14) (c :: v)) in Ew by lia.
        rewrite firstn_app in Ew.
        replace (14 - length (c :: v) - length sentinel) with 0 in Ew
          by (rewrite sentinel_length; lia).
        cbn [firstn] in Ew. rewrite app_nil_r in Ew.
        apply (sentinel_no_border (length (c :: v))); [simpl in *; lia |].
        rewrite <- Ew at 1. rewrite skipn_app, skipn_all, Nat.sub_diag. reflexivity.
    + cbn [app]. rewrite (IH t eq_refl). reflexivity.
Qed.

Lemma skipn_past (a x : jsstring) n : skipn (length a + n) (a ++ x) = skipn n x.
Proof.
  rewrite skipn_app, skipn_all2 by lia.
  now replace (length a + n - length a) with n by lia.
Qed.

(** The regular expression on a response in wire format: visible text,
    token, block, token, and whatever follows. *)
Lemma metadataMatch_wire v b rest :
  indexOf v sentinel = None ->
  indexOf b sentinel = None ->
  metadataMatch (v ++ sentinel ++ b ++ sentinel ++ rest)
  = Some (mkMatch (length v) b (length v + 14 + length b + 14)).
Proof.
  intros Hv Hb. unfold metadataMatch.
  rewrite (indexOf_at_token v (b ++ sentinel ++ rest) Hv), sentinel_length.
  assert (Hs : skipn (length v + 14) (v ++ sentinel ++ b ++ sentinel ++ rest)
               = b ++ sentinel ++ rest).
  { rewrite skipn_app, skipn_all2 by lia.
    replace (length v + 14 - length v) with (length sentinel)
      by (rewrite sentinel_length; lia).
    rewrite skipn_app, skipn_all, Nat.sub_diag. reflexivity. }
  rewrite Hs, (indexOf_at_token b rest Hb).
  rewrite firstn_app, firstn_all, Nat.sub_diag. cbn [firstn]. now rewrite app_nil_r.
Qed.

Lemma replace_metadata_wire v b rest :
  indexOf v sentinel = None ->
  indexOf b sentinel = None ->
  replace_metadata (v ++ sentinel ++ b ++ sentinel ++ rest) = v ++ rest.
Proof.
  intros Hv Hb. unfold replace_metadata.
  rewrite (metadataMatch_wire v b rest Hv Hb). cbn [match_index match_end].
  rewrite firstn_app, firstn_all, Nat.sub_diag. cbn [firstn]. rewrite app_nil_r.
  f_equal.
  replace (length v + 14 + length b + 14)
    with (length v + (length sentinel + (length b + (length sentinel + 0))))
    by (rewrite sentinel_length; lia).
  now rewrite !skipn_past.
Qed.
End WireFormat.

(** X1: a response in the wire format (visible text, token, block, token,
    anything after), whose visible text and block hold no token and whose
    block parses, is finalized without a call into the visible text joined
    with what follows the block, trimmed, and the payload read from the
    parsed block. *)
Theorem wire_format_decodes {St} (env : Env) (v b rest : jsstring) (parsed : json)
  (w : world St) :
  indexOf v sentinel = None ->
  indexOf b sentinel = None ->
  truthy_string b = true ->
  JSON_parse env (trim b) = inr parsed ->
  finalize env (v ++ sentinel ++ b ++ sentinel ++ rest) w
  = (Returned (trim (v ++ rest), spread_over no_metadata parsed), w).
Proof.
  intros Hv Hb Ht Hp. unfold finalize, userVisibleText, parse_metadata.
  rewrite (replace_metadata_wire v b rest Hv Hb), (metadataMatch_wire v b rest Hv Hb).
  cbn [group1]. now rewrite Ht, Hp.
Qed.

Lemma wire_format_decodes_witness :
  finalize (Scenario.cat_env (inr (js "IMG", false)))
    (js "On it!" ++ sentinel ++ Scenario.image_request ++ sentinel ++ [])
    Scenario.start
  = (Returned (js "On it!", Scenario.cat_payload), Scenario.start).
Proof.
  apply (wire_format_decodes (Scenario.cat_env (inr (js "IMG", false)))
           (js "On it!") Scenario.image_request []
           (JObj [(js "imagePrompt", JStr (js "a cat"))]) Scenario.start);
    reflexivity.
Defined.



(** *** The request *)

Section Request.
Context {St : Type}.
Variable env : Env.

Lemma geminiHistory_filter (h : list Message) :
  geminiHistory h
  = map to_content (filter (fun m => truthy_string (trim (text m))) h).
Proof.
  unfold geminiHistory. induction h as [| m h IH]; [reflexivity |].
  cbn [map filter]. unfold content_first_text at 1. cbn [parts].
  destruct (truthy_string (trim (text m))); cbn [map]; now rewrite <- IH.
Qed.

Lemma add_file_parts_readable (fs : list File) : forall acc (w : world St),
  readable (Some fs) = true ->
  add_file_parts fs acc w = (Returned (rev (map file_part fs) ++ acc), w).
Proof.
  induction fs as [| f fs IH]; intros acc w Hr; [reflexivity |].
  cbn [readable forallb] in Hr. apply andb_true_iff in Hr as [Hf Hrest].
  cbn [add_file_parts]. unfold bind, fileToGenerativePart.
  destruct (file_read f) as [e | d] eqn:Ef; [discriminate |]. cbn [ret].
  assert (Hfp : file_part f = InlineData d (file_type f))
    by (unfold file_part; now rewrite Ef).
  rewrite (IH _ w Hrest). cbn [map rev]. rewrite Hfp.
  now rewrite <- app_assoc.
Qed.

(** X3: with readable files the request goes to ['gemini-2.5-flash']
    whatever [input.model] is; its contents are the history without the
    messages whose text is blank, in order and with roles ['user'] and
    ['model'], followed by one user entry whose parts are the files in
    reverse order and then the prompt; building it makes no call. *)
Theorem request_contents (input : AgentInput St) (w : world St) :
  readable (files input) = true ->
  make_request env input w
  = (Returned
       (mkStreamRequest (js "gemini-2.5-flash")
          (map to_content
             (filter (fun m => truthy_string (trim (text m))) (history input))
           ++ [mkContent (js "user")
                 (rev (map file_part
                         (match files input with Some fs => fs | None => [] end))
                  ++ [TextPart (prompt input)])])
          (make_systemInstruction env (memoryContext input))),
     w).
Proof.
  intros Hr. unfold make_request. rewrite geminiHistory_filter.
  destruct (files input) as [fs |].
  - unfold bind. now rewrite (add_file_parts_readable fs _ w Hr).
  - reflexivity.
Qed.
End Request.

Lemma request_contents_witness :
  fst (make_request Scenario.silent_env
         (mkAgentInput (js "what is this?") (Some [Examples.picture; Examples.icon])
            (js "key") (js "some-other-model") Scenario.the_project Scenario.the_chat
            [Examples.said "m1" "hello"; Examples.said "m2" "   "]
            (Scenario.client 0) Scenario.the_user None (Some Scenario.recorder) None
            (js "autonomous"))
         Scenario.start)
  = Returned
      (mkStreamRequest (js "gemini-2.5-flash")
         [mkContent (js "model") [TextPart (js "hello")];
          mkContent (js "user")
            [InlineData (js "BBBB") (js "image/gif");
             InlineData (js "AAAA") (js "image/png");
             TextPart (js "what is this?")]]
         (make_systemInstruction Scenario.silent_env None)).
Proof.
  rewrite (request_contents Scenario.silent_env
             (mkAgentInput (js "what is this?") (Some [Examples.picture; Examples.icon])
                (js "key") (js "some-other-model") Scenario.the_project
                Scenario.the_chat
                [Examples.said "m1" "hello"; Examples.said "m2" "   "]
                (Scenario.client 0) Scenario.the_user None (Some Scenario.recorder)
                None (js "autonomous"))
             Scenario.start eq_refl).
  reflexivity.
Defined.

(** *** What every run of the agent does *)

Section AgentSummary.
Context {St : Type}.
Variables (env : Env) (input : AgentInput St).
Variable R : St -> St -> Prop.
Hypothesis R_refl : forall a, R a a.
Hypothesis R_trans : forall a b c, R a b -> R b c -> R a c.
Hypothesis R_step :
  forall f, onStreamChunk input = Some f -> forall chunk a, R a (snd (f chunk a)).

Lemma charges_app (a b : list event) : charges (a ++ b) = charges a ++ charges b.
Proof. apply filter_app. Qed.

Lemma charges_none (P : event -> bool) (a : list event) :
  (forall ev, P ev = true -> is_charge ev = false) ->
  forallb P a = true -> charges a = [].
Proof.
  intros HP Ha. induction a as [| ev a IH]; [reflexivity |].
  cbn [forallb] in Ha. apply andb_true_iff in Ha as [H1 H2].
  unfold charges in *. cbn [filter]. now rewrite (HP ev H1), IH.
Qed.

Lemma call_onStreamChunk_rel chunk (w : world St) :
  R (st w) (st (snd (call_onStreamChunk (onStreamChunk input) chunk w))).
Proof.
  destruct (onStreamChunk input) as [f |] eqn:Ecb; cbn [call_onStreamChunk].
  - pose proof (R_step f eq_refl chunk (st w)) as H.
    destruct (f chunk (st w)) as [[e |] a]; exact H.
  - apply R_refl.
Qed.

Lemma stream_loop_rel cs : forall s (w : world St),
  R (st w) (st (snd (stream_loop (onStreamChunk input) cs s w))).
Proof.
  induction cs as [| c cs IH]; intros s w; cbn [stream_loop]; [apply R_refl |].
  destruct (feed s (chunk_text c)) as [s' [d |]]; [| apply IH].
  pose proof (call_onStreamChunk_rel d w) as H.
  unfold bind.
  destruct (call_onStreamChunk (onStreamChunk input) d w) as [[[] | e |] w1];
    cbn [snd] in *; try assumption.
  eapply R_trans; [exact H | apply IH].
Qed.

Lemma receive_rel (w : world St) :
  R (st w) (st (snd (receive env input w))).
Proof.
  unfold receive. unfold bind at 1.
  destruct (make_request env input w) as [[req | e |] w0] eqn:E0;
    apply make_request_world in E0; subst w0; try apply R_refl.
  unfold bind, await. destruct (generateContentStream env req) as [e | rs];
    [apply R_refl |].
  unfold consume_stream, bind.
  match goal with
  | |- context [stream_loop ?cb ?cs ?s0 ?w0] =>
      pose proof (stream_loop_rel cs s0 w0) as H;
      destruct (stream_loop cb cs s0 w0) as [[s | e |] w1]
  end; cbn [snd st] in *; try assumption.
  destruct (failure rs); assumption.
Qed.

Lemma handle_memory_st uid memoryToCreate (w : world St) :
  st (snd (handle_memory uid memoryToCreate w)) = st w.
Proof.
  assert (H : forall mems (w0 : world St),
             st (snd (save_memories uid mems w0)) = st w0).
  { induction mems as [| mem mems IH]; intros w0; [reflexivity |].
    destruct mem; try reflexivity;
      (cbn [save_memories]; unfold bind; rewrite emit_run;
       match goal with
       | |- context [save_memories uid mems ?w1] =>
           specialize (IH w1); destruct (save_memories uid mems w1) as [[[] | e |] w2];
           exact IH
       end). }
  destruct memoryToCreate as [| b | n | t | [| mem mems] | fs]; try reflexivity.
  apply (H (mem :: mems) w).
Qed.

Lemma attach_raw_draft fullText (m : Message) :
  agent_draft input m -> agent_draft input (attach_raw input fullText m).
Proof.
  intros (H1 & H2 & H3 & H4 & H5 & H6 & H7 & H8).
  unfold attach_raw, agent_draft, has_admin_role in *.
  destruct (profile input) as [p |]; [| tauto].
  destruct (jsstring_eqb (role p) (js "admin")); [| tauto].
  cbn. repeat split; auto. discriminate.
Qed.

Lemma ai_text_draft txt :
  agent_draft input
    (ai_text_message (proj_id (project input)) (chat_ident (chat input)) txt).
Proof. repeat split. Qed.

(** A leaf of Case 2: the world reached after the start event, then some
    calls. *)
Lemma image_leaf (w w1 : world St) r tail :
  R (st w) (st w1) ->
  grows is_chunk_call w w1 ->
  drafts_ok input r ->
  forallb is_image_step tail = true ->
  charge_spec input env (charges tail) ->
  phase_summary R is_image_step env input w
    (r, mkWorld (st w1) (trace w1 ++ tail)).
Proof.
  intros HR (a & Ha & Pa) Hd Ht Hc. split; [exact HR |]. split; [exact Hd |].
  exists (a ++ tail). cbn [snd trace]. split; [now rewrite Ha, app_assoc |].
  split.
  - rewrite forallb_app, Ht, andb_true_r.
    rewrite forallb_forall in *. intros ev Hev. specialize (Pa ev Hev). now destruct ev.
  - rewrite charges_app, (charges_none is_chunk_call a); [exact Hc | | exact Pa].
    now intros [].
Qed.

Lemma image_case_summary fullText visible prompt (w : world St) :
  phase_summary R is_image_step env input w
    (image_case env input fullText visible prompt w).
Proof.
  unfold image_case. unfold bind at 1.
  pose proof (call_onStreamChunk_rel (JSON_stringify_start_event env visible) w) as HR.
  destruct (call_onStreamChunk_grows (onStreamChunk input)
              (JSON_stringify_start_event env visible) w) as (r & w1 & E & Hr & G).
  rewrite E in *. cbn [snd] in HR.
  assert (Hnil : forall r0, drafts_ok input r0 ->
            phase_summary R is_image_step env input w (r0, w1)).
  { intros r0 Hd.
    replace w1 with (mkWorld (st w1) (trace w1 ++ []))
      by (rewrite app_nil_r; now destruct w1).
    apply image_leaf; auto. now left. }
  destruct r as [[] | e |]; [| now apply Hnil | contradiction].
  unfold bind at 1. rewrite emit_run. unfold bind at 1.
  fold (agent_uid input).
  destruct (select_profile (supabase input) (agent_uid input)) as [[p |] [e |]] eqn:Ep;
    cbn [error data throw ret st trace];
    try (apply image_leaf; auto; [exact I | now left]).
  fold (model_of p).
  assert (Hgen : forall tail0,
    forallb is_image_step tail0 = true ->
    charge_spec input env
      (charges (tail0 ++ [CallGenerateImage prompt (apiKey input) (model_of p)])) ->
    phase_summary R is_image_step env input w
      (bind (await (CallGenerateImage prompt (apiKey input) (model_of p))
               (generateImage env prompt (apiKey input) (model_of p)))
         (fun r : jsstring * bool =>
            let (imageBase64, fallbackOccurred) := r in
            ret (single (attach_raw input fullText
                   (with_imageStatus
                      (with_image_base64
                         (ai_text_message (proj_id (project input))
                            (chat_ident (chat input))
                            (if fallbackOccurred
                             then visible +++ fallback_note else visible))
                         imageBase64) complete))))
         (mkWorld (st w1) (trace w1 ++ tail0)))).
  { intros tail0 Ht Hc. unfold bind, await. cbn [st trace].
    destruct (generateImage env prompt (apiKey input) (model_of p)) as [e | [img fb]];
      cbn [ret]; rewrite <- app_assoc; apply image_leaf; auto;
      try (rewrite forallb_app, Ht; reflexivity).
    - exact I.
    - eexists. split; [reflexivity |]. apply attach_raw_draft. repeat split. }
  destruct (jsstring_eqb (membership p) (js "admin")) eqn:Hadmin.
  - apply (Hgen [CallFetchProfile (agent_uid input)]); [reflexivity |].
    right. exists p, prompt. split; [now rewrite Ep |]. left. now split.
  - unfold bind at 1. rewrite emit_run. unfold bind at 1. cbn [st trace].
    rewrite <- app_assoc. cbn [app].
    destruct (select_app_settings (supabase input)) as [[settings |] [e |]] eqn:Es;
      cbn [error data throw ret];
      try (apply image_leaf; auto; [exact I | now left]).
    destruct (Z.ltb_spec (credits p) (image_cost settings (model_of p))) as [Hlt | Hge].
    + apply image_leaf; auto; [| now left].
      eexists. split; [reflexivity |]. apply ai_text_draft.
    + unfold bind at 1. rewrite emit_run. cbn [st trace].
      rewrite <- app_assoc. cbn [app].
      apply (Hgen [CallFetchProfile (agent_uid input); CallFetchSettings;
                   CallDeductCredits (agent_uid input)
                     (image_cost settings (model_of p))]); [reflexivity |].
      right. exists p, prompt. split; [now rewrite Ep |]. right.
      exists settings. split; [now rewrite Es |]. now repeat split.
Qed.

Lemma summary_done (P : event -> bool) (w w1 : world St) r :
  (forall ev, P ev = true -> is_charge ev = false) ->
  grows P w w1 -> R (st w) (st w1) -> drafts_ok input r ->
  phase_summary R (fun _ => true) env input w (r, w1).
Proof.
  intros HP (a & Ha & Pa) HR Hd. split; [exact HR |]. split; [exact Hd |].
  exists a. cbn [snd]. split; [exact Ha |]. split.
  - apply forallb_forall. reflexivity.
  - rewrite (charges_none P a HP Pa). now left.
Qed.

Lemma summary_after (P allowed : event -> bool) (w w1 : world St) rw :
  (forall ev, P ev = true -> is_charge ev = false) ->
  grows P w w1 -> R (st w) (st w1) ->
  phase_summary R allowed env input w1 rw ->
  phase_summary R (fun _ => true) env input w rw.
Proof.
  intros HP (a & Ha & Pa) HR (HR1 & Hd & b & Hb & _ & Hc).
  split; [eapply R_trans; eauto |]. split; [exact Hd |].
  exists (a ++ b). split; [now rewrite Hb, Ha, app_assoc |]. split.
  - apply forallb_forall. reflexivity.
  - now rewrite charges_app, (charges_none P a HP Pa).
Qed.

Lemma dispatch_summary fullText visible payload (w : world St) :
  phase_summary R (fun _ => true) env input w
    (dispatch env input fullText visible payload w).
Proof.
  unfold dispatch. unfold bind at 1.
  pose proof (handle_memory_st (user_ident (user input)) (memoryToCreate payload) w)
    as Hst.
  destruct (handle_memory_grows (user_ident (user input)) (memoryToCreate payload) w)
    as (r & w1 & E & Hr & G).
  rewrite E in *. cbn [snd] in Hst.
  assert (HR : R (st w) (st w1)) by (rewrite Hst; apply R_refl).
  assert (HP : forall ev, is_save_memory ev = true -> is_charge ev = false)
    by (now intros []).
  destruct r as [[] | e |]; [| now apply (summary_done is_save_memory) | contradiction].
  destruct (nonblank_string (code_field payload)) as [code |].
  - apply (summary_done is_save_memory); auto.
    eexists. split; [reflexivity |]. apply attach_raw_draft. repeat split.
  - destruct (nonblank_string (imagePrompt payload)) as [prompt |].
    + apply (summary_after is_save_memory is_image_step w w1); auto.
      apply image_case_summary.
    + destruct (truthy_string visible).
      * apply (summary_done is_save_memory); auto.
        eexists. split; [reflexivity |]. apply attach_raw_draft, ai_text_draft.
      * now apply (summary_done is_save_memory).
Qed.

Lemma agent_body_summary (w : world St) :
  phase_summary R (fun _ => true) env input w (agent_body env input w).
Proof.
  unfold agent_body. unfold bind at 1.
  pose proof (receive_rel w) as HR.
  pose proof (receive_grows env input w) as G.
  assert (HP : forall ev, is_stream_call ev = true -> is_charge ev = false)
    by (now intros []).
  destruct (receive env input w) as [[s | e |] w1]; cbn [snd] in HR;
    specialize (G _ _ eq_refl);
    try (now apply (summary_done is_stream_call)).
  unfold bind at 1.
  destruct (finalize_returns env (fullText s) w1) as (payload & w2 & E & Hst & Gw).
  rewrite E. cbn [fst snd].
  apply (summary_after is_stream_call (fun _ => true) w w1); auto.
  apply (summary_after is_warning (fun _ => true) w1 w2); auto.
  - now intros [].
  - rewrite Hst. apply R_refl.
  - apply dispatch_summary.
Qed.

(** Every run: the state moves along [R], the result is one well-formed
    draft unless the run stays pending, and the charges are as
    [charge_spec] says. *)
Lemma run_summary (w : world St) :
  phase_summary R (fun _ => true) env input w (runAutonomousAgent env input w).
Proof.
  rewrite run_of_body.
  destruct (agent_body_summary w) as (HR & Hd & a & Ha & _ & Hc).
  destruct (agent_body env input w) as [[res | e |] w1]; cbn [fst snd] in *.
  - split; [exact HR |]. split; [exact Hd |]. exists a. split; [exact Ha |].
    split; [apply forallb_forall; reflexivity | exact Hc].
  - split; [exact HR |]. split.
    + eexists. split; [reflexivity |]. apply ai_text_draft.
    + exists (a ++ [agent_error_log e]). cbn [trace].
      split; [now rewrite Ha, app_assoc |].
      split; [apply forallb_forall; reflexivity |].
      rewrite charges_app. cbn. now rewrite app_nil_r.
  - split; [exact HR |]. split; [exact I |]. exists a. split; [exact Ha |].
    split; [apply forallb_forall; reflexivity | exact Hc].
Qed.
End AgentSummary.


Section AgentInvariants.
Context {St : Type}.
Variables (env : Env) (input : AgentInput St).

Lemma trivial_rel_refl (a : St) : (fun _ _ : St => True) a a.
Proof. exact I. Qed.

Lemma run_summary_plain (w : world St) :
  phase_summary (fun _ _ => True) (fun _ => true) env input w
    (runAutonomousAgent env input w).
Proof. apply run_summary; auto. Qed.

(** X4: the agent touches the caller's state only through
    [onStreamChunk]: any reflexive and transitive relation that every call
    of the callback respects holds between the state before and the state
    after a run, whatever the run does. *)
Theorem agent_changes_state_only_by_callback (R : St -> St -> Prop) (w : world St) :
  (forall a, R a a) ->
  (forall a b c, R a b -> R b c -> R a c) ->
  (forall f, onStreamChunk input = Some f -> forall chunk a, R a (snd (f chunk a))) ->
  R (st w) (st (snd (runAutonomousAgent env input w))).
Proof.
  intros Hrefl Htrans Hstep.
  exact (proj1 (run_summary env input R Hrefl Htrans Hstep w)).
Qed.

(** X5: whatever the model, the database and the image backend answer, a
    run charges at most once: it makes no deduction and no image call; or
    one image call for a profile whose membership is ['admin']; or, for
    another profile whose balance covers the looked-up cost, one deduction
    of exactly that cost for [user.id], followed by one image call. *)
Theorem agent_charges_at_most_once (w : world St) :
  exists added,
    trace (snd (runAutonomousAgent env input w)) = trace w ++ added
    /\ charge_spec input env (charges added).
Proof.
  destruct (run_summary_plain w) as (_ & _ & added & Ha & _ & Hc).
  now exists added.
Qed.

(** X6: whenever a run returns, its result is exactly one draft and no
    plan update; the draft is an AI message without id, creation date and
    user id, addressed to [project.id] and [chat.id] of the input. *)
Theorem agent_result_is_one_addressed_draft (w w' : world St) res :
  runAutonomousAgent env input w = (Returned res, w') ->
  exists m,
    messages res = [m] /\ updatedPlan res = None
    /\ sender m = ai_sender
    /\ id m = None /\ created_at m = None /\ user_id m = None
    /\ project_id m = proj_id (project input)
    /\ chat_id m = chat_ident (chat input).
Proof.
  intros Hrun. destruct (run_summary_plain w) as (_ & Hd & _).
  rewrite Hrun in Hd. cbn [fst drafts_ok] in Hd.
  destruct Hd as (m & -> & (H1 & H2 & H3 & H4 & H5 & H6 & H7 & H8)).
  exists m. repeat split; assumption.
Qed.

(** X7: unless [input.profile.role] is ['admin'], no draft a run returns
    carries the raw response of the model. *)
Theorem raw_response_only_for_admin_role (w w' : world St) res m :
  has_admin_role input = false ->
  runAutonomousAgent env input w = (Returned res, w') ->
  In m (messages res) ->
  raw_ai_response m = None.
Proof.
  intros Hrole Hrun Hin. destruct (run_summary_plain w) as (_ & Hd & _).
  rewrite Hrun in Hd. cbn [fst drafts_ok] in Hd.
  destruct Hd as (m0 & -> & (H1 & H2 & H3 & H4 & H5 & H6 & H7 & H8)).
  destruct Hin as [<- | []]. now apply H8.
Qed.
End AgentInvariants.

Lemma agent_changes_state_only_by_callback_witness :
  exists got,
    st (snd (runAutonomousAgent (Scenario.cat_env (inr (js "IMG", false)))
               (Scenario.input 3) Scenario.start))
    = st Scenario.start ++ got.
Proof.
  apply (agent_changes_state_only_by_callback
           (Scenario.cat_env (inr (js "IMG", false))) (Scenario.input 3)
           (fun a b => exists got, b = a ++ got) Scenario.start).
  - intros a. exists []. now rewrite app_nil_r.
  - intros a b c [x ->] [y ->]. exists (x ++ y). now rewrite app_assoc.
  - intros f [= <-] chunk a. exists [chunk]. reflexivity.
Defined.

Lemma agent_result_is_one_addressed_draft_witness :
  exists m,
    messages (single (text_draft (Scenario.input 0) Scenario.malformed_text
                        (js "Here you go!"))) = [m]
    /\ updatedPlan (single (text_draft (Scenario.input 0) Scenario.malformed_text
                              (js "Here you go!"))) = None
    /\ sender m = ai_sender
    /\ id m = None /\ created_at m = None /\ user_id m = None
    /\ project_id m = proj_id (project (Scenario.input 0))
    /\ chat_id m = chat_ident (chat (Scenario.input 0)).
Proof.
  apply (agent_result_is_one_addressed_draft Scenario.malformed_env (Scenario.input 0)
           Scenario.start
           (snd (runAutonomousAgent Scenario.malformed_env (Scenario.input 0)
                   Scenario.start))).
  vm_compute. reflexivity.
Defined.

Lemma raw_response_only_for_admin_role_witness :
  raw_ai_response (text_draft (Scenario.input 0) Scenario.malformed_text
                     (js "Here you go!")) = None.
Proof.
  apply (raw_response_only_for_admin_role Scenario.malformed_env (Scenario.input 0)
           Scenario.start
           (snd (runAutonomousAgent Scenario.malformed_env (Scenario.input 0)
                   Scenario.start))
           (single (text_draft (Scenario.input 0) Scenario.malformed_text
                      (js "Here you go!")))).
  - reflexivity.
  - vm_compute. reflexivity.
  - now left.
Defined.


(** *** Paths of a turn *)

Section TurnPaths.
Context {St : Type}.
Variables (env : Env) (input : AgentInput St).
Variables (w w1 w2 : world St) (s : StreamState).
Variables (visible : jsstring) (payload : ParsedMetadata).

Let uid := user_ident (user input).

Hypothesis received : receive env input w = (Returned s, w1).
Hypothesis finalized :
  finalize env (fullText s) w1 = (Returned (visible, payload), w2).

Lemma quiet_until_dispatch (P : event -> bool) :
  (forall ev, is_stream_call ev = true -> P ev = true) ->
  (forall ev, is_warning ev = true -> P ev = true) ->
  grows P w w2.
Proof.
  intros Hs Hw. eapply grows_trans.
  - eapply grows_weaken; [exact Hs | exact (receive_grows _ _ _ _ _ received)].
  - destruct (finalize_returns env (fullText s) w1) as (pl & w2' & Hf & _ & Gw).
    rewrite finalized in Hf. injection Hf as _ _ <-.
    eapply grows_weaken; [exact Hw | exact Gw].
Qed.

Lemma save_memories_null (good rest : list json) : forall w0 : world St,
  memory_ok (JArr good) = true ->
  save_memories uid (good ++ JNull :: rest) w0
  = (Threw null_memory_error,
     mkWorld (st w0) (trace w0 ++ memory_calls uid (JArr good))).
Proof.
  induction good as [| mem good IH]; intros w0 Hok.
  - cbn. rewrite app_nil_r. now destruct w0.
  - cbn [memory_ok forallb] in Hok. apply andb_true_iff in Hok as [H1 H2].
    destruct mem; try discriminate;
      (cbn [app save_memories]; unfold bind; rewrite emit_run;
       rewrite (IH _ H2); cbn [st trace memory_calls map];
       now rewrite <- app_assoc).
Qed.

(** X8: a [null] entry in [memoryToCreate] aborts the turn: the entries
    before it are handed to [saveMemory], the entries after it are not,
    no code, image or text draft is produced whatever else the payload
    holds, and the run returns the error notice of the thrown
    [TypeError]; nothing else is called. *)
Theorem null_memory_entry_aborts_turn (good rest : list json) :
  memoryToCreate payload = JArr (good ++ JNull :: rest) ->
  memory_ok (JArr good) = true ->
  runAutonomousAgent env input w
  = (Returned (single (error_draft env input null_memory_error)),
     mkWorld (st w2)
       (trace w2 ++ memory_calls uid (JArr good)
        ++ [agent_error_log null_memory_error])).
Proof.
  intros Hm Hok.
  rewrite run_of_body, (agent_body_phases _ _ _ _ _ _ _ _ received finalized).
  unfold dispatch. unfold bind at 1. rewrite Hm.
  assert (Hh : handle_memory (St := St) uid (JArr (good ++ JNull :: rest))
               = save_memories uid (good ++ JNull :: rest)).
  { destruct good; reflexivity. }
  fold uid. rewrite Hh, (save_memories_null good rest w2 Hok).
  cbn [st trace]. now rewrite <- app_assoc.
Qed.

Hypothesis memory_fine : memory_ok (memoryToCreate payload) = true.

Variables (prompt : jsstring) (p : Profile).

Hypothesis no_code : nonblank_string (code_field payload) = None.
Hypothesis image_requested : nonblank_string (imagePrompt payload) = Some prompt.
Hypothesis callback_quiet : quiet (onStreamChunk input).
Hypothesis profile_fetched :
  select_profile (supabase input) uid = mkReply (Some p) None.
Hypothesis privileged : jsstring_eqb (membership p) (js "admin") = true.

(** X10: for a re-fetched profile whose membership is ['admin'] the image
    is generated whatever the balance: the cost settings are not fetched
    and nothing is deducted; the draft carries the visible text (with the
    disclosure note after a fallback), the image and the status
    ['complete'], and a failed generation gives the error notice. *)
Theorem privileged_user_bypasses_credit_gate :
  exists w',
    runAutonomousAgent env input w
    = (Returned
         (single (match generateImage env prompt (apiKey input) (model_of p) with
                  | inr g => image_draft input (fullText s) visible g
                  | inl e => error_draft env input e
                  end)), w')
    /\ grows (fun ev => negb (is_settings_call ev) && negb (is_deduct_call ev)) w w'
    /\ In (CallGenerateImage prompt (apiKey input) (model_of p)) (trace w').
Proof.
  rewrite run_of_body, (agent_body_phases _ _ _ _ _ _ _ _ received finalized).
  rewrite (dispatch_image env input (fullText s) visible payload memory_fine w2
             prompt no_code image_requested).
  destruct (image_case_admin env input (fullText s) visible prompt p callback_quiet
              profile_fetched
              (after_memory (user_ident (user input)) payload w2) privileged)
    as (wc & Gc & ->).
  assert (G : grows (fun ev => negb (is_settings_call ev) && negb (is_deduct_call ev))
                w wc).
  { eapply grows_trans; [apply quiet_until_dispatch; now intros [] |].
    eapply grows_trans.
    - apply (grows_by _ w2 (st w2)
               (memory_calls (user_ident (user input)) (memoryToCreate payload))).
      pose proof (memory_calls_are_saves (user_ident (user input))
                    (memoryToCreate payload)) as Hs.
      rewrite forallb_forall in *. intros ev Hev. apply Hs in Hev. now destruct ev.
    - eapply grows_weaken; [| exact Gc]. now intros []. }
  destruct (generateImage env prompt (apiKey input) (model_of p)) as [e | g].
  - eexists. split; [reflexivity |]. split.
    + eapply grows_trans; [exact G |]. cbn [st trace].
      rewrite <- app_assoc. now apply grows_by.
    + cbn [trace]. apply in_or_app. left. apply in_or_app. right. right. now left.
  - eexists. split; [reflexivity |]. split.
    + eapply grows_trans; [exact G |]. now apply grows_by.
    + cbn [trace]. apply in_or_app. right. right. now left.
Qed.
End TurnPaths.

Section DispatchOrder.
Context {St : Type}.
Variables (env : Env) (input : AgentInput St).
Variables (fullText visible : jsstring) (payload : ParsedMetadata).

Let uid := user_ident (user input).

Hypothesis memory_fine : memory_ok (memoryToCreate payload) = true.

(** X9: the memory entries are handed to [saveMemory] first, one call per
    entry and in order, whichever case then builds the response (code,
    image or text); nothing after them is a [saveMemory] call. *)
Theorem memory_is_dispatched_first (w0 : world St) :
  exists others,
    trace (snd (dispatch env input fullText visible payload w0))
    = trace w0 ++ memory_calls uid (memoryToCreate payload) ++ others
    /\ forallb (fun ev => negb (is_save_memory ev)) others = true
    /\ length (memory_calls uid (memoryToCreate payload))
       = match memoryToCreate payload with
         | JArr items => length items
         | _ => 0
         end.
Proof.
  assert (Hlen : length (memory_calls uid (memoryToCreate payload))
                 = match memoryToCreate payload with
                   | JArr items => length items
                   | _ => 0
                   end).
  { destruct (memoryToCreate payload); try reflexivity. cbn. apply length_map. }
  destruct (nonblank_string (code_field payload)) as [code |] eqn:Hc.
  - rewrite (dispatch_code env input fullText visible payload memory_fine w0 code Hc).
    exists []. cbn [snd after_memory trace]. now rewrite app_nil_r.
  - destruct (nonblank_string (imagePrompt payload)) as [prompt |] eqn:Hp.
    + rewrite (dispatch_image env input fullText visible payload memory_fine w0
                 prompt Hc Hp).
      destruct (image_case_summary env input (fun _ _ => True)
                  (fun _ => I) (fun _ _ _ _ => I)
                  fullText visible prompt
                  (after_memory (user_ident (user input)) payload w0))
        as (_ & _ & added & Ha & Pa & _).
      exists added. rewrite Ha. cbn [after_memory trace]. fold uid.
      split; [now rewrite app_assoc |]. split; [| exact Hlen].
      rewrite forallb_forall in *. intros ev Hev. specialize (Pa ev Hev).
      now destruct ev.
    + rewrite (dispatch_text env input fullText visible payload memory_fine w0 Hc Hp).
      exists []. cbn [snd after_memory trace]. now rewrite app_nil_r.
Qed.
End DispatchOrder.

Lemma null_memory_entry_aborts_turn_witness :
  runAutonomousAgent Examples.memory_env (Scenario.input 0) Scenario.start
  = (Returned (single (ai_text_message (js "project-1") (js "chat-1")
       (js "An error occurred: Cannot read properties of null (reading 'layer')"))),
     mkWorld [js "Noted."]
       (trace (snd (receive Examples.memory_env (Scenario.input 0) Scenario.start))
        ++ [CallSaveMemory (js "user-1") (Some (JStr (js "personal")))
              (Some (JStr (js "name"))) (Some (JStr (js "Ada")))]
        ++ [agent_error_log null_memory_error])).
Proof.
  pose (w1 := snd (receive Examples.memory_env (Scenario.input 0) Scenario.start)).
  apply (null_memory_entry_aborts_turn Examples.memory_env (Scenario.input 0)
           Scenario.start w1 w1
           (mkStreamState (js "Noted." +++ sentinel +++ js "{code+memory}" +++ sentinel)
              (js "Noted."))
           (js "Noted.")
           (mkParsed JNull (JStr (js "print(1)")) JNull
              (JArr [Examples.note "name" "Ada"; JNull; Examples.note "pet" "cat"])))
    with (good := [Examples.note "name" "Ada"]) (rest := [Examples.note "pet" "cat"]).
  - vm_compute. reflexivity.
  - vm_compute. reflexivity.
  - reflexivity.
  - reflexivity.
Defined.

Lemma memory_is_dispatched_first_witness :
  exists others,
    trace (snd (dispatch (Scenario.cat_env (inr (js "IMG", false))) (Scenario.input 3)
                  (js "On it!") (js "On it!") Examples.memory_payload Scenario.start))
    = trace Scenario.start
      ++ [CallSaveMemory (js "user-1") (Some (JStr (js "personal")))
            (Some (JStr (js "name"))) (Some (JStr (js "Ada")));
          CallSaveMemory (js "user-1") (Some (JStr (js "personal")))
            (Some (JStr (js "pet"))) (Some (JStr (js "cat")))]
      ++ others
    /\ forallb (fun ev => negb (is_save_memory ev)) others = true
    /\ length (memory_calls (js "user-1") (memoryToCreate Examples.memory_payload)) = 2.
Proof.
  exact (memory_is_dispatched_first (Scenario.cat_env (inr (js "IMG", false)))
           (Scenario.input 3) (js "On it!") (js "On it!") Examples.memory_payload
           eq_refl Scenario.start).
Defined.

Lemma privileged_user_bypasses_credit_gate_witness :
  exists w',
    runAutonomousAgent (Scenario.cat_env (inr (js "IMG", true))) Examples.admin_input
      Scenario.start
    = (Returned (single (image_draft Examples.admin_input (fullText Scenario.cat_state)
                           (js "On it!") (js "IMG", true))), w')
    /\ grows (fun ev => negb (is_settings_call ev) && negb (is_deduct_call ev))
         Scenario.start w'
    /\ In (CallGenerateImage (js "a cat") (js "key") (js "nano_banana")) (trace w').
Proof.
  pose (env := Scenario.cat_env (inr (js "IMG", true))).
  pose (w1 := snd (receive env Examples.admin_input Scenario.start)).
  apply (privileged_user_bypasses_credit_gate env Examples.admin_input Scenario.start
           w1 w1 Scenario.cat_state (js "On it!") Scenario.cat_payload)
    with (prompt := js "a cat") (p := mkProfile (js "admin") (js "admin") 0 None).
  - vm_compute. reflexivity.
  - vm_compute. reflexivity.
  - reflexivity.
  - reflexivity.
  - reflexivity.
  - intros f [= <-] c s. reflexivity.
  - reflexivity.
  - reflexivity.
Defined.

Section StreamFailure.
Context {St : Type}.
Variables (env : Env) (input : AgentInput St) (w : world St).
Variables (req : StreamRequest) (rs : ModelStream) (e : exn) (f : Callback St).

Hypothesis request_built : make_request env input w = (Returned req, w).
Hypothesis stream_opened : generateContentStream env req = inr rs.
Hypothesis stream_broke : failure rs = Some e.
Hypothesis callback_given : onStreamChunk input = Some f.
Hypothesis callback_quiet : quiet (Some f).

(** X11: when the stream fails after some fragments, the deltas of the
    fragments received so far have been handed to [onStreamChunk], in
    order, and stay so; nothing is finalized or dispatched (no memory,
    image or credit call), and the run returns the error notice of the
    stream's error. *)
Theorem stream_failure_keeps_deltas :
  exists a,
    runAutonomousAgent env input w
    = (Returned (single (error_draft env input e)),
       mkWorld a
         (trace w ++ [CallGenerateContentStream req]
          ++ map CallOnStreamChunk (deltas (map chunk_text (chunks rs)) initial_stream)
          ++ [agent_error_log e])).
Proof.
  destruct (stream_loop_quiet f (chunks rs) initial_stream
              (mkWorld (st w) (trace w ++ [CallGenerateContentStream req]))
              callback_quiet) as [a Hloop].
  exists a. rewrite run_of_body. unfold agent_body, receive.
  unfold bind at 1. unfold bind at 1. rewrite request_built.
  unfold bind at 1. unfold await. rewrite stream_opened.
  unfold consume_stream. unfold bind at 1. rewrite callback_given.
  fold initial_stream. rewrite Hloop, stream_broke.
  cbn [throw st trace]. now rewrite <- !app_assoc.
Qed.
End StreamFailure.

Lemma stream_failure_keeps_deltas_witness :
  exists a,
    runAutonomousAgent Examples.broken_env (Scenario.input 0) Scenario.start
    = (Returned (single (ai_text_message (js "project-1") (js "chat-1")
                           (js "An error occurred: connection lost"))),
       mkWorld a
         (trace Scenario.start
          ++ [CallGenerateContentStream
                (mkStreamRequest (js "gemini-2.5-flash")
                   [mkContent (js "user") [TextPart (js "draw a cat")]]
                   (make_systemInstruction Examples.broken_env None))]
          ++ map CallOnStreamChunk [js "Hi "; js "there"]
          ++ [agent_error_log (ErrorObj (js "connection lost"))])).
Proof.
  apply (stream_failure_keeps_deltas Examples.broken_env (Scenario.input 0)
           Scenario.start
           (mkStreamRequest (js "gemini-2.5-flash")
              [mkContent (js "user") [TextPart (js "draw a cat")]]
              (make_systemInstruction Examples.broken_env None))
           (mkModelStream [mkChunk (Some (js "Hi ")); mkChunk (Some (js "there"))]
              (Some (ErrorObj (js "connection lost"))))
           (ErrorObj (js "connection lost")) Scenario.recorder).
  - reflexivity.
  - reflexivity.
  - reflexivity.
  - reflexivity.
  - intros f [= <-] c s. reflexivity.
Defined.

(* ===================================================================== *)
(** ** Further properties of the chat hook *)
(* ===================================================================== *)

Section Placeholders.
Variable env : Env.
Variables (chatToUse : Chat) (user : User) (text' : jsstring).

Lemma temp_ids_differ :
  jsstring_eqb (tempAiMessageId env) (tempUserMessageId env) = false
  /\ jsstring_eqb (tempUserMessageId env) (tempAiMessageId env) = false.
Proof.
  unfold tempAiMessageId, tempUserMessageId.
  set (a := js "temp-ai-"). set (u := js "temp-user-").
  vm_compute in a, u. subst a u.
  split; apply jsstring_eqb_false; cbn [app]; discriminate.
Qed.

Lemma filter_all {A} (P : A -> bool) (l : list A) :
  forallb P l = true -> filter P l = l.
Proof.
  induction l as [| x l IH]; [reflexivity |]. cbn [forallb filter].
  intros H. apply andb_true_iff in H as [-> H]. now rewrite IH.
Qed.

Lemma filter_placeholders :
  filter (not_placeholder env) (placeholders env chatToUse user text') = [].
Proof.
  unfold placeholders, not_placeholder. cbn [filter].
  unfold has_id at 1. cbn [id with_created_at with_id].
  rewrite jsstring_eqb_refl. cbn [negb andb].
  unfold has_id at 2. cbn [id with_id ai_text_message].
  rewrite jsstring_eqb_refl. now rewrite andb_false_r.
Qed.

(** Taking the placeholders out of a view that had none before they were
    put in gives that view back. *)
Lemma placeholders_roll_back (prev : list Message) :
  forallb (not_placeholder env) prev = true ->
  filter (not_placeholder env) (prev ++ placeholders env chatToUse user text') = prev.
Proof.
  intros H. rewrite filter_app, filter_placeholders, app_nil_r. now apply filter_all.
Qed.

Lemma filter_idempotent {A} (P : A -> bool) (l : list A) :
  forallb P (filter P l) = true.
Proof.
  apply forallb_forall. intros x Hx. now apply filter_In in Hx.
Qed.
End Placeholders.

Section TurnFailure.
Variables (env : Env) (hk : HookContext).
Variable runAgent : AgentInput View -> M View AgentExecutionResult.
Variables (supabase : SupabaseClient) (user : User) (chatToUse : Chat).
Variables (geminiApiKey text' : jsstring).
Variables (w wb : world View) (e : exn).

(** Whatever throws inside the [try] block: the [catch] and [finally]
    blocks that follow. *)
Lemma send_turn_fails (w0 wb0 : world View) (e0 : exn) :
  turn_body env hk runAgent supabase user chatToUse geminiApiKey text' None
    (user_draft chatToUse user text') (tempUserMessageId env) (tempAiMessageId env)
    (world_with_placeholders env chatToUse user text' w0)
  = (Threw e0, wb0) ->
  send_turn env hk runAgent supabase user chatToUse geminiApiKey text' None w0
  = (Returned no_messages,
     mkWorld
       (mkView (filter (not_placeholder env) (view_messages (st wb0))) false)
       (trace wb0 ++ turn_error_log e0)).
Proof.
  intros Hbody. unfold send_turn. cbn [no_files].
  unfold bind at 1. unfold update at 1. cbn [st trace].
  unfold bind at 1. unfold set_messages at 1, update at 1. cbn [st trace].
  cbn [view_messages isLoading setIsLoading].
  fold (user_draft chatToUse user text').
  fold (tempUserMessageId env) (tempAiMessageId env).
  change (mkWorld _ _) with (world_with_placeholders env chatToUse user text' w0) at 1.
  unfold try_finally, try_catch. rewrite Hbody.
  unfold turn_catch. fold (toast_message e0).
  unfold bind at 1. rewrite emit_run.
  unfold bind at 1. rewrite emit_run.
  unfold bind at 1. unfold set_messages, update, ret.
  cbn [st trace view_messages isLoading setIsLoading].
  unfold turn_error_log. now rewrite <- app_assoc.
Qed.

(** The guard of line 147 lets the call through. *)
Hypothesis text_given : truthy_string (trim text') = true.
Hypothesis client_present : hk_supabase hk = Some supabase.
Hypothesis user_present : hk_user hk = Some user.
Hypothesis key_present : hk_geminiApiKey hk = Some geminiApiKey.
Hypothesis key_given : truthy_string geminiApiKey = true.

Lemma guard_passes :
  handleSendMessage env hk runAgent text' None (Some (Some chatToUse)) w
  = send_turn env hk runAgent supabase user chatToUse geminiApiKey text' None w.
Proof.
  unfold handleSendMessage. rewrite text_given. cbn [negb andb].
  rewrite client_present, user_present, key_present.
  now destruct geminiApiKey.
Qed.

(** X12: when persisting the user message fails, the turn is rolled
    back: the agent is not run, a toast shows the error's message, the
    call returns no message, the loading flag is cleared and, for a view
    that held no placeholder id before, the view is exactly what it was. *)
Theorem failed_user_insert_rolls_back :
  insert_message supabase (user_draft chatToUse user text') = inl e ->
  forallb (not_placeholder env) (view_messages (st w)) = true ->
  handleSendMessage env hk runAgent text' None (Some (Some chatToUse)) w
  = (Returned no_messages,
     mkWorld (mkView (view_messages (st w)) false)
       (trace w ++ [CallAddMessage (user_draft chatToUse user text')]
        ++ turn_error_log e)).
Proof.
  intros Hins Hprev. rewrite guard_passes.
  assert (Hbody :
    turn_body env hk runAgent supabase user chatToUse geminiApiKey text' None
      (user_draft chatToUse user text') (tempUserMessageId env) (tempAiMessageId env)
      (world_with_placeholders env chatToUse user text' w)
    = (Threw e,
       mkWorld (st (world_with_placeholders env chatToUse user text' w))
         (trace w ++ [CallAddMessage (user_draft chatToUse user text')]))).
  { unfold turn_body. unfold bind at 1. unfold await. now rewrite Hins. }
  rewrite (send_turn_fails _ _ _ Hbody). cbn [st trace view_messages world_with_placeholders].
  rewrite (placeholders_roll_back env chatToUse user text' _ Hprev).
  now rewrite <- app_assoc.
Qed.

Variable savedUserMessage : Message.

(** X13: when the user message is persisted and the agent then rejects,
    the [catch] block runs: a toast shows the error's message (or ["An
    unknown error occurred."] for a thrown value that is no [Error]), no
    AI message is persisted, the call returns no message, the loading
    flag is cleared, and no message with a placeholder id is left in the
    view. *)
Theorem rejected_agent_leaves_no_placeholder :
  insert_message supabase (user_draft chatToUse user text') = inr savedUserMessage ->
  runAgent
    (turn_input env hk supabase user chatToUse geminiApiKey text' None savedUserMessage)
    (world_at_agent_call env chatToUse user text' savedUserMessage w)
  = (Threw e, wb) ->
  exists final,
    handleSendMessage env hk runAgent text' None (Some (Some chatToUse)) w
    = (Returned no_messages,
       mkWorld (mkView final false)
         (trace wb ++ [Toast (toast_message e) (js "error");
                       ConsoleError (js "Error in handleSendMessage:") e]))
    /\ final = filter (not_placeholder env) (view_messages (st wb))
    /\ forallb (not_placeholder env) final = true.
Proof.
  intros Hins Hagent. rewrite guard_passes.
  assert (Hbody :
    turn_body env hk runAgent supabase user chatToUse geminiApiKey text' None
      (user_draft chatToUse user text') (tempUserMessageId env) (tempAiMessageId env)
      (world_with_placeholders env chatToUse user text' w)
    = (Threw e, wb)).
  { unfold turn_body. unfold bind at 1. unfold await. rewrite Hins.
    unfold bind at 1. unfold set_messages at 1, update at 1.
    unfold bind at 1.
    cbn [st trace view_messages isLoading world_with_placeholders].
    change (mkAgentInput _ _ _ _ _ _ _ _ _ _ _ _ _)
      with (turn_input env hk supabase user chatToUse geminiApiKey text' None
              savedUserMessage).
    change (mkWorld _ _)
      with (world_at_agent_call env chatToUse user text' savedUserMessage w) at 1.
    now rewrite Hagent. }
  rewrite (send_turn_fails _ _ _ Hbody).
  eexists. split; [reflexivity |]. split; [reflexivity |].
  apply filter_idempotent.
Qed.
End TurnFailure.

Lemma failed_user_insert_rolls_back_witness :
  handleSendMessage Scenario.silent_env Examples.failing_hook
    (runAutonomousAgent Scenario.silent_env) (js "hello") None
    (Some (Some Scenario.the_chat)) Scenario.idle
  = (Returned no_messages,
     mkWorld (mkView [] false)
       [CallAddMessage (user_draft Scenario.the_chat Scenario.the_user (js "hello"));
        Toast (js "insert failed") (js "error");
        ConsoleError (js "Error in handleSendMessage:") (ErrorObj (js "insert failed"))]).
Proof.
  apply (failed_user_insert_rolls_back Scenario.silent_env Examples.failing_hook
           (runAutonomousAgent Scenario.silent_env) Examples.failing_client
           Scenario.the_user Scenario.the_chat (js "key") (js "hello") Scenario.idle
           (ErrorObj (js "insert failed"))); reflexivity.
Defined.

Lemma rejected_agent_leaves_no_placeholder_witness :
  exists final,
    handleSendMessage Scenario.silent_env (Scenario.hook 0)
      (fun _ => throw (Thrown (JStr (js "offline")))) (js "hello") None
      (Some (Some Scenario.the_chat)) Scenario.idle
    = (Returned no_messages,
       mkWorld (mkView final false)
         (trace (world_at_agent_call Scenario.silent_env Scenario.the_chat
                   Scenario.the_user (js "hello") Scenario.hello_saved Scenario.idle)
          ++ [Toast (js "An unknown error occurred.") (js "error");
              ConsoleError (js "Error in handleSendMessage:")
                (Thrown (JStr (js "offline")))]))
    /\ final
       = filter (not_placeholder Scenario.silent_env)
           (view_messages
              (st (world_at_agent_call Scenario.silent_env Scenario.the_chat
                     Scenario.the_user (js "hello") Scenario.hello_saved
                     Scenario.idle)))
    /\ forallb (not_placeholder Scenario.silent_env) final = true.
Proof.
  apply (rejected_agent_leaves_no_placeholder Scenario.silent_env (Scenario.hook 0)
           (fun _ => throw (Thrown (JStr (js "offline")))) (Scenario.client 0)
           Scenario.the_user Scenario.the_chat (js "key") (js "hello") Scenario.idle
           (world_at_agent_call Scenario.silent_env Scenario.the_chat
              Scenario.the_user (js "hello") Scenario.hello_saved Scenario.idle)
           (Thrown (JStr (js "offline"))))
    with (savedUserMessage := Scenario.hello_saved); reflexivity.
Defined.

Section FileFailure.
Variables (env : Env) (hk : HookContext).
Variable runAgent : AgentInput View -> M View AgentExecutionResult.
Variables (supabase : SupabaseClient) (user : User) (chatToUse : Chat).
Variables (geminiApiKey text' : jsstring) (file : File) (others : list File).
Variables (w : world View) (e : exn).

Hypothesis client_present : hk_supabase hk = Some supabase.
Hypothesis user_present : hk_user hk = Some user.
Hypothesis key_present : hk_geminiApiKey hk = Some geminiApiKey.
Hypothesis key_given : truthy_string geminiApiKey = true.

(** X14: when one of the attached files cannot be read, whatever the
    text (an empty text passes the guard once a file is attached), the
    call shows the toast ["Failed to read the attached file(s)."], logs the
    error of the first failed read and returns no message; the view and
    the loading flag are not touched, nothing is persisted and the agent
    is not run. *)
Theorem unreadable_file_stops_the_turn :
  read_files (file :: others) = inl e ->
  handleSendMessage env hk runAgent text' (Some (file :: others))
    (Some (Some chatToUse)) w
  = (Returned no_messages,
     mkWorld (st w)
       (trace w ++ [Toast (js "Failed to read the attached file(s).") (js "error");
                    ConsoleError (js "File read error:") e])).
Proof.
  intros Hread. unfold handleSendMessage. cbn [no_files]. rewrite andb_false_r.
  rewrite client_present, user_present, key_present.
  destruct geminiApiKey as [| c k]; [discriminate |].
  unfold send_turn. cbn [no_files]. rewrite Hread.
  unfold bind at 1. rewrite emit_run. unfold bind at 1. rewrite emit_run.
  unfold ret. cbn [st trace]. now rewrite <- app_assoc.
Qed.
End FileFailure.

Lemma unreadable_file_stops_the_turn_witness :
  handleSendMessage Scenario.silent_env (Scenario.hook 0)
    (runAutonomousAgent Scenario.silent_env) []
    (Some [Examples.picture; Examples.unreadable]) (Some (Some Scenario.the_chat))
    Scenario.idle
  = (Returned no_messages,
     mkWorld (mkView [] false)
       [Toast (js "Failed to read the attached file(s).") (js "error");
        ConsoleError (js "File read error:") (Thrown JNull)]).
Proof.
  apply (unreadable_file_stops_the_turn Scenario.silent_env (Scenario.hook 0)
           (runAutonomousAgent Scenario.silent_env) (Scenario.client 0)
           Scenario.the_user Scenario.the_chat (js "key") []
           Examples.picture [Examples.unreadable] Scenario.idle (Thrown JNull));
    reflexivity.
Defined.


Section HookCallback.
Variables (env : Env) (t : jsstring).

Lemma hook_onStreamChunk_cases (chunk : jsstring) (v : View) :
  hook_onStreamChunk env t chunk v
  = (None,
     mkView
       (on_placeholder t
          (fun m => match start_event_text env chunk with
                    | Some x => with_imageStatus (with_text m x) generating
                    | None => with_text m (text m +++ chunk)
                    end)
          (view_messages v))
       (isLoading v)).
Proof.
  unfold hook_onStreamChunk, start_event_text, on_placeholder.
  destruct (JSON_parse env chunk) as [e | [| b | n | x | l | fields]]; try reflexivity.
  destruct (assoc (js "type") fields) as [[| b | n | x | l | fs] |]; try reflexivity.
  destruct (jsstring_eqb x (js "image_generation_start")); reflexivity.
Qed.

Lemma on_placeholder_others (f : Message -> Message) (l : list Message) :
  (forall m, id (f m) = id m) ->
  filter (fun m => negb (has_id t m)) (on_placeholder t f l)
  = filter (fun m => negb (has_id t m)) l.
Proof.
  intros Hid. unfold on_placeholder.
  induction l as [| m l IH]; [reflexivity |]. cbn [map filter].
  destruct (has_id t m) eqn:Em.
  - assert (Hf : has_id t (f m) = true) by (unfold has_id in *; now rewrite Hid).
    rewrite Hf. exact IH.
  - rewrite Em. cbn [negb]. now rewrite IH.
Qed.

(** The callback of the hook never throws, keeps the loading flag, and
    leaves every message but the AI placeholder as it is. *)
Lemma hook_callback_frame (chunk : jsstring) (v : View) :
  fst (hook_onStreamChunk env t chunk v) = None
  /\ isLoading (snd (hook_onStreamChunk env t chunk v)) = isLoading v
  /\ filter (fun m => negb (has_id t m))
       (view_messages (snd (hook_onStreamChunk env t chunk v)))
     = filter (fun m => negb (has_id t m)) (view_messages v).
Proof.
  rewrite hook_onStreamChunk_cases. cbn [fst snd isLoading view_messages].
  split; [reflexivity |]. split; [reflexivity |].
  apply on_placeholder_others. intros m.
  now destruct (start_event_text env chunk).
Qed.

Lemma on_placeholder_append (a b : jsstring) (l : list Message) :
  on_placeholder t (fun m => with_text m (text m +++ b))
    (on_placeholder t (fun m => with_text m (text m +++ a)) l)
  = on_placeholder t (fun m => with_text m (text m +++ a +++ b)) l.
Proof.
  unfold on_placeholder. rewrite map_map. apply map_ext. intros m.
  destruct (has_id t m) eqn:Em.
  - assert (Hf : has_id t (with_text m (text m +++ a)) = true) by exact Em.
    rewrite Hf. unfold with_text. cbn. now rewrite <- app_assoc.
  - now rewrite Em.
Qed.

Lemma on_placeholder_nothing (l : list Message) :
  on_placeholder t (fun m => with_text m (text m +++ [])) l = l.
Proof.
  unfold on_placeholder. rewrite <- (map_id l) at 2. apply map_ext. intros m.
  destruct (has_id t m); [| reflexivity].
  rewrite app_nil_r. now destruct m.
Qed.

Lemma hook_stream_loop (cs : list Chunk) (s : StreamState) (w : world View) :
  (forall d, In d (deltas (map chunk_text cs) s) -> start_event_text env d = None) ->
  stream_loop (Some (hook_onStreamChunk env t)) cs s w
  = (Returned (final_state (map chunk_text cs) s),
     mkWorld
       (mkView
          (on_placeholder t
             (fun m => with_text m (text m +++ concat (deltas (map chunk_text cs) s)))
             (view_messages (st w)))
          (isLoading (st w)))
       (trace w ++ map CallOnStreamChunk (deltas (map chunk_text cs) s))).
Proof.
  revert s w. induction cs as [| c cs IH]; intros s w Hplain.
  - cbn [map deltas concat stream_loop final_state]. unfold ret.
    rewrite on_placeholder_nothing, app_nil_r. now destruct w as [[ms l] tr].
  - cbn [map deltas stream_loop final_state] in *.
    destruct (feed s (chunk_text c)) as [s' [d |]] eqn:Ef; cbn [fst].
    + unfold bind, call_onStreamChunk.
      rewrite hook_onStreamChunk_cases, (Hplain d (or_introl eq_refl)).
      rewrite IH by (intros d' Hd'; apply Hplain; now right).
      cbn [st trace view_messages isLoading concat map].
      rewrite on_placeholder_append, <- app_assoc. reflexivity.
    + now apply IH.
Qed.

(** X15: while no delta is taken for a control event, the streaming loop
    run with the callback of the hook appends every delta, in order, to
    the text of the AI placeholder and changes nothing else in the view:
    after the loop the placeholder shows its former text followed by
    exactly the text that was streamed, every other message and the
    loading flag are as before. *)
Theorem placeholder_shows_streamed_text (cs : list Chunk) (w : world View) :
  (forall d, In d (deltas (map chunk_text cs) initial_stream) ->
             start_event_text env d = None) ->
  stream_loop (Some (hook_onStreamChunk env t)) cs initial_stream w
  = (Returned (final_state (map chunk_text cs) initial_stream),
     mkWorld
       (mkView
          (map (fun m => if has_id t m
                         then with_text m (text m +++ streamed (map chunk_text cs))
                         else m)
             (view_messages (st w)))
          (isLoading (st w)))
       (trace w
        ++ map CallOnStreamChunk (deltas (map chunk_text cs) initial_stream))).
Proof.
  intros Hplain. exact (hook_stream_loop cs initial_stream w Hplain).
Qed.
End HookCallback.

Lemma placeholder_shows_streamed_text_witness :
  stream_loop
    (Some (hook_onStreamChunk Examples.greeting_env (js "temp-ai-1")))
    [mkChunk (Some (js "Hi ")); mkChunk None; mkChunk (Some (js "there!"))]
    initial_stream
    (mkWorld (mkView [Examples.said "m1" "hello"; Examples.said "temp-ai-1" ""] true) [])
  = (Returned (mkStreamState (js "Hi there!") (js "Hi there!")),
     mkWorld
       (mkView [Examples.said "m1" "hello"; Examples.said "temp-ai-1" "Hi there!"] true)
       [CallOnStreamChunk (js "Hi "); CallOnStreamChunk (js "there!")]).
Proof.
  apply (placeholder_shows_streamed_text Examples.greeting_env (js "temp-ai-1")
           [mkChunk (Some (js "Hi ")); mkChunk None; mkChunk (Some (js "there!"))]
           (mkWorld
              (mkView [Examples.said "m1" "hello"; Examples.said "temp-ai-1" ""] true)
              [])).
  intros d [<- | [<- | []]]; reflexivity.
Defined.

(* ===================================================================== *)
(** ** A completed turn *)
(* ===================================================================== *)

Section CompletedTurn.
Variables (env : Env) (hk : HookContext).
Variables (supabase : SupabaseClient) (user : User) (chatToUse : Chat).
Variables (geminiApiKey text' : jsstring).
Variable persist : Message -> Message.
Variable w : world View.

Let input (savedUserMessage : Message) :=
  turn_input env hk supabase user chatToUse geminiApiKey text' None savedUserMessage.
Let pid := chat_project_id chatToUse.
Let others (l : list Message) :=
  filter (fun m => negb (has_id (tempAiMessageId env) m)) l.

(** The callback of the hook keeps the loading flag and every message but
    the AI placeholder. *)
Let kept (a b : View) : Prop :=
  isLoading b = isLoading a /\ others (view_messages b) = others (view_messages a).

Lemma kept_by_agent (savedUserMessage : Message) (wa : world View) :
  kept (st wa) (st (snd (runAutonomousAgent env (input savedUserMessage) wa))).
Proof.
  apply (run_summary env (input savedUserMessage) kept).
  - intros a. now split.
  - intros a b c [H1 H2] [H3 H4]. split; congruence.
  - intros f [= <-] chunk a.
    destruct (hook_callback_frame env (tempAiMessageId env) chunk a) as (_ & H1 & H2).
    now split.
Qed.

Lemma agent_of_turn_returns (savedUserMessage : Message) (wa : world View) :
  exists m wb,
    runAutonomousAgent env (input savedUserMessage) wa = (Returned (single m), wb).
Proof.
  pose proof (agent_body_outcome env (input savedUserMessage) wa) as Hout.
  rewrite run_of_body.
  destruct (agent_body env (input savedUserMessage) wa) as [[a | e |] wb];
    cbn [fst] in Hout.
  - destruct Hout as [m ->]. now exists m, wb.
  - now eexists _, _.
  - discriminate.
Qed.

Lemma view_at_agent_call (savedUserMessage : Message) :
  forallb (not_placeholder env) (view_messages (st w)) = true ->
  has_id (tempAiMessageId env) savedUserMessage = false ->
  others (view_messages
            (st (world_at_agent_call env chatToUse user text' savedUserMessage w)))
  = view_messages (st w) ++ [savedUserMessage].
Proof.
  intros Hfresh Hsaved. unfold world_at_agent_call, others. cbn [st view_messages].
  destruct (temp_ids_differ env) as [Hau Hua].
  rewrite map_app, filter_app. f_equal.
  - induction (view_messages (st w)) as [| x l IH]; [reflexivity |].
    cbn [forallb] in Hfresh. apply andb_true_iff in Hfresh as [Hx Hl].
    unfold not_placeholder in Hx. apply andb_true_iff in Hx as [Hu Ha].
    cbn [map filter]. apply negb_true_iff in Hu. rewrite Hu, Ha.
    now rewrite (IH Hl).
  - unfold placeholders. cbn [map filter].
    assert (H1 : has_id (tempUserMessageId env)
                   (with_created_at
                      (with_id (user_draft chatToUse user text') (tempUserMessageId env))
                      (now_iso env)) = true)
      by (unfold has_id; cbn [id with_created_at with_id]; apply jsstring_eqb_refl).
    assert (H2 : has_id (tempUserMessageId env)
                   (with_id (ai_text_message (chat_project_id chatToUse)
                               (chat_ident chatToUse) [])
                      (tempAiMessageId env)) = false)
      by (unfold has_id; cbn [id with_id ai_text_message]; exact Hau).
    assert (H3 : has_id (tempAiMessageId env)
                   (with_id (ai_text_message (chat_project_id chatToUse)
                               (chat_ident chatToUse) [])
                      (tempAiMessageId env)) = true)
      by (unfold has_id; cbn [id with_id ai_text_message]; apply jsstring_eqb_refl).
    rewrite !H1, !H2, Hsaved, !H3. reflexivity.
Qed.

(** The guard of line 147 lets the call through. *)
Hypothesis text_given : truthy_string (trim text') = true.
Hypothesis client_present : hk_supabase hk = Some supabase.
Hypothesis user_present : hk_user hk = Some user.
Hypothesis key_present : hk_geminiApiKey hk = Some geminiApiKey.
Hypothesis key_given : truthy_string geminiApiKey = true.
(** The database accepts every insert. *)
Hypothesis database_up : forall draft, insert_message supabase draft = inr (persist draft).
(** No message of the view carries a placeholder id of this turn, and the
    persisted user message does not carry the id of the AI placeholder. *)
Hypothesis fresh_ids : forallb (not_placeholder env) (view_messages (st w)) = true.
Hypothesis saved_id :
  has_id (tempAiMessageId env) (persist (user_draft chatToUse user text')) = false.

(** X16: a turn without files that passes the guard, with a database that
    accepts every insert and [runAgent] being the autonomous agent, always
    completes, whatever the model answers: the call returns the single
    draft of the agent, the view ends as the messages it had before
    followed by the persisted user message and the persisted AI message
    (neither placeholder is left, nothing else is changed), and the
    loading flag is cleared. *)
Theorem completed_turn_shows_both_messages :
  exists m tr,
    handleSendMessage env hk (runAutonomousAgent env) text' None
      (Some (Some chatToUse)) w
    = (Returned (single m),
       mkWorld
         (mkView
            (view_messages (st w)
             ++ [persist (user_draft chatToUse user text');
                 persist (with_project_id m pid)])
            false)
         tr).
Proof.
  set (savedUserMessage := persist (user_draft chatToUse user text')).
  set (wa := world_at_agent_call env chatToUse user text' savedUserMessage w).
  destruct (agent_of_turn_returns savedUserMessage wa) as (m & wb & Hrun).
  pose proof (kept_by_agent savedUserMessage wa) as [_ Hkept].
  rewrite Hrun in Hkept. cbn [snd] in Hkept.
  exists m. eexists.
  rewrite (guard_passes env hk (runAutonomousAgent env) supabase user chatToUse
             geminiApiKey text' w text_given client_present user_present
             key_present key_given).
  rewrite (send_turn_completes env hk (runAutonomousAgent env) supabase user chatToUse
             geminiApiKey text' None w wb savedUserMessage
             (persist (with_project_id m pid)) m eq_refl
             (database_up _) Hrun (database_up _)).
  fold (others (view_messages (st wb))). rewrite Hkept.
  unfold wa. rewrite (view_at_agent_call savedUserMessage fresh_ids saved_id).
  rewrite <- app_assoc. reflexivity.
Qed.
End CompletedTurn.

Lemma completed_turn_shows_both_messages_witness :
  exists m tr,
    handleSendMessage Examples.greeting_env (Scenario.hook 0)
      (runAutonomousAgent Examples.greeting_env) (js "hello") None
      (Some (Some Scenario.the_chat)) Scenario.idle
    = (Returned (single m),
       mkWorld
         (mkView
            (view_messages (st Scenario.idle)
             ++ [Scenario.saved (user_draft Scenario.the_chat Scenario.the_user (js "hello"));
                 Scenario.saved (with_project_id m (js "project-1"))])
            false)
         tr).
Proof.
  apply (completed_turn_shows_both_messages Examples.greeting_env (Scenario.hook 0)
           (Scenario.client 0) Scenario.the_user Scenario.the_chat (js "key")
           (js "hello") Scenario.saved Scenario.idle).
  - reflexivity.
  - reflexivity.
  - reflexivity.
  - reflexivity.
  - reflexivity.
  - intros draft. reflexivity.
  - reflexivity.
  - vm_compute. reflexivity.
Defined.

(* ===================================================================== *)
(** ** Persisting the drafts of the agent *)
(* ===================================================================== *)

Section AiInserts.
Variables (supabase : SupabaseClient) (pid : jsstring).

Let call (d : Message) : event := CallAddMessage (with_project_id d pid).

Lemma save_ai_messages_all (drafts saved : list Message) (w : world View) :
  Forall2 (fun d s => insert_message supabase (with_project_id d pid) = inr s)
    drafts saved ->
  save_ai_messages supabase pid drafts w
  = (Returned saved, mkWorld (st w) (trace w ++ map call drafts)).
Proof.
  intros H. revert w. induction H as [| d s drafts saved Hd _ IH]; intros w.
  - cbn [save_ai_messages map]. unfold ret. rewrite app_nil_r. now destruct w.
  - cbn [save_ai_messages map]. unfold bind at 1. unfold await. rewrite Hd.
    unfold bind at 1. rewrite IH. unfold ret. cbn [st trace].
    now rewrite <- app_assoc.
Qed.

Lemma save_ai_messages_fails (before after : list Message) (bad : Message) (e : exn)
  (w : world View) :
  (forall d, In d before ->
             exists s, insert_message supabase (with_project_id d pid) = inr s) ->
  insert_message supabase (with_project_id bad pid) = inl e ->
  save_ai_messages supabase pid (before ++ bad :: after) w
  = (Threw e, mkWorld (st w) (trace w ++ map call (before ++ [bad]))).
Proof.
  intros Hbefore Hbad. revert w. induction before as [| d before IH]; intros w.
  - cbn [app save_ai_messages map]. unfold bind at 1. unfold await. now rewrite Hbad.
  - cbn [app save_ai_messages map]. unfold bind at 1. unfold await.
    destruct (Hbefore d (or_introl eq_refl)) as [s ->].
    unfold bind at 1. rewrite IH by (intros d' Hd'; apply Hbefore; now right).
    cbn [st trace]. now rewrite <- app_assoc.
Qed.

(** X17: the drafts of the agent are persisted one by one in the order
    the agent gave them, each under the project id of the chat (whatever
    project id the draft carried); when every insert succeeds the loop
    returns the persisted messages in that order, and it neither touches
    the view nor makes any other call. *)
Theorem ai_drafts_persisted_in_order (drafts saved : list Message) (w : world View) :
  Forall2 (fun d s => insert_message supabase (with_project_id d pid) = inr s)
    drafts saved ->
  save_ai_messages supabase pid drafts w
  = (Returned saved,
     mkWorld (st w)
       (trace w ++ map (fun d => CallAddMessage (with_project_id d pid)) drafts)).
Proof.
  exact (save_ai_messages_all drafts saved w).
Qed.

(** X18: the loop stops at the first insert that is refused: the drafts
    before it have been persisted, the refused insert is the last call
    made, no later draft is attempted, and the error of the insert is
    thrown. *)
Theorem ai_inserts_stop_at_first_failure (before after : list Message) (bad : Message)
  (e : exn) (w : world View) :
  (forall d, In d before ->
             exists s, insert_message supabase (with_project_id d pid) = inr s) ->
  insert_message supabase (with_project_id bad pid) = inl e ->
  save_ai_messages supabase pid (before ++ bad :: after) w
  = (Threw e,
     mkWorld (st w)
       (trace w
        ++ map (fun d => CallAddMessage (with_project_id d pid)) (before ++ [bad]))).
Proof.
  exact (save_ai_messages_fails before after bad e w).
Qed.
End AiInserts.

Lemma ai_drafts_persisted_in_order_witness :
  save_ai_messages (Scenario.client 0) (js "project-1")
    [ai_text_message (js "autonomous-project") (js "chat-1") (js "one");
     ai_text_message (js "autonomous-project") (js "chat-1") (js "two")]
    Scenario.idle
  = (Returned
       [Scenario.saved (ai_text_message (js "project-1") (js "chat-1") (js "one"));
        Scenario.saved (ai_text_message (js "project-1") (js "chat-1") (js "two"))],
     mkWorld (st Scenario.idle)
       (trace Scenario.idle
        ++ map (fun d => CallAddMessage (with_project_id d (js "project-1")))
             [ai_text_message (js "autonomous-project") (js "chat-1") (js "one");
              ai_text_message (js "autonomous-project") (js "chat-1") (js "two")])).
Proof.
  apply (ai_drafts_persisted_in_order (Scenario.client 0) (js "project-1")).
  repeat constructor.
Defined.

Lemma ai_inserts_stop_at_first_failure_witness :
  save_ai_messages Examples.picky_client (js "project-1")
    ([user_draft Scenario.the_chat Scenario.the_user (js "first")]
     ++ ai_text_message (js "project-1") (js "chat-1") (js "second")
        :: [user_draft Scenario.the_chat Scenario.the_user (js "third")])
    Scenario.idle
  = (Threw (ErrorObj (js "insert failed")),
     mkWorld (st Scenario.idle)
       (trace Scenario.idle
        ++ map (fun d => CallAddMessage (with_project_id d (js "project-1")))
             ([user_draft Scenario.the_chat Scenario.the_user (js "first")]
              ++ [ai_text_message (js "project-1") (js "chat-1") (js "second")]))).
Proof.
  apply (ai_inserts_stop_at_first_failure Examples.picky_client (js "project-1")).
  - intros d [<- | []]. eexists. reflexivity.
  - reflexivity.
Defined.

Section AiInsertFailure.
Variables (env : Env) (hk : HookContext).
Variable runAgent : AgentInput View -> M View AgentExecutionResult.
Variables (supabase : SupabaseClient) (user : User) (chatToUse : Chat).
Variables (geminiApiKey text' : jsstring).
Variables (w wb : world View) (savedUserMessage : Message).
Variables (res : AgentExecutionResult) (before after : list Message) (bad : Message).
Variable e : exn.

Let pid := chat_project_id chatToUse.

(** The guard of line 147 lets the call through. *)
Hypothesis text_given : truthy_string (trim text') = true.
Hypothesis client_present : hk_supabase hk = Some supabase.
Hypothesis user_present : hk_user hk = Some user.
Hypothesis key_present : hk_geminiApiKey hk = Some geminiApiKey.
Hypothesis key_given : truthy_string geminiApiKey = true.
(** The user message is persisted and the agent returns. *)
Hypothesis user_message_saved :
  insert_message supabase (user_draft chatToUse user text') = inr savedUserMessage.
Hypothesis agent_returned :
  runAgent
    (turn_input env hk supabase user chatToUse geminiApiKey text' None savedUserMessage)
    (world_at_agent_call env chatToUse user text' savedUserMessage w)
  = (Returned res, wb).
(** The insert of one of its drafts is refused, those before it are not. *)
Hypothesis drafts_split : messages res = before ++ bad :: after.
Hypothesis before_saved :
  forall d, In d before ->
            exists s, insert_message supabase (with_project_id d pid) = inr s.
Hypothesis bad_refused : insert_message supabase (with_project_id bad pid) = inl e.

(** X19: when the agent has answered and persisting one of its drafts
    fails, the answer is dropped: the call returns no message although
    the agent returned some, a toast shows the error, no memory
    extraction and no plan update is started, every message with a
    placeholder id (the streamed text with it) is taken out of the view,
    and the loading flag is cleared. *)
Theorem failed_ai_insert_drops_the_answer :
  handleSendMessage env hk runAgent text' None (Some (Some chatToUse)) w
  = (Returned no_messages,
     mkWorld
       (mkView (filter (not_placeholder env) (view_messages (st wb))) false)
       (trace wb
        ++ map (fun d => CallAddMessage (with_project_id d pid)) (before ++ [bad])
        ++ turn_error_log e)).
Proof.
  rewrite (guard_passes env hk runAgent supabase user chatToUse geminiApiKey text' w
             text_given client_present user_present key_present key_given).
  assert (Hbody :
    turn_body env hk runAgent supabase user chatToUse geminiApiKey text' None
      (user_draft chatToUse user text') (tempUserMessageId env) (tempAiMessageId env)
      (world_with_placeholders env chatToUse user text' w)
    = (Threw e,
       mkWorld (st wb)
         (trace wb
          ++ map (fun d => CallAddMessage (with_project_id d pid)) (before ++ [bad])))).
  { unfold turn_body. unfold bind at 1. unfold await. rewrite user_message_saved.
    unfold bind at 1. unfold set_messages at 1, update at 1.
    unfold bind at 1.
    cbn [st trace view_messages isLoading world_with_placeholders].
    change (mkAgentInput _ _ _ _ _ _ _ _ _ _ _ _ _)
      with (turn_input env hk supabase user chatToUse geminiApiKey text' None
              savedUserMessage).
    change (mkWorld _ _)
      with (world_at_agent_call env chatToUse user text' savedUserMessage w) at 1.
    rewrite agent_returned, drafts_split. unfold bind at 1. fold pid.
    now rewrite (save_ai_messages_fails supabase pid before after bad e wb
                   before_saved bad_refused). }
  rewrite (send_turn_fails env hk runAgent supabase user chatToUse geminiApiKey text'
             _ _ _ Hbody).
  cbn [st trace]. now rewrite <- app_assoc.
Qed.
End AiInsertFailure.

Lemma failed_ai_insert_drops_the_answer_witness :
  handleSendMessage Examples.greeting_env Examples.picky_hook
    (runAutonomousAgent Examples.greeting_env) (js "hello") None
    (Some (Some Scenario.the_chat)) Scenario.idle
  = (Returned no_messages,
     mkWorld
       (mkView [Scenario.hello_saved] false)
       (trace
          (snd (runAutonomousAgent Examples.greeting_env
                  (turn_input Examples.greeting_env Examples.picky_hook
                     Examples.picky_client Scenario.the_user Scenario.the_chat
                     (js "key") (js "hello") None Scenario.hello_saved)
                  (world_at_agent_call Examples.greeting_env Scenario.the_chat
                     Scenario.the_user (js "hello") Scenario.hello_saved
                     Scenario.idle)))
        ++ map (fun d => CallAddMessage (with_project_id d (js "project-1")))
             ([] ++ [ai_text_message (js "autonomous-project") (js "chat-1")
                       (js "Hi there!")])
        ++ turn_error_log (ErrorObj (js "insert failed")))).
Proof.
  apply (failed_ai_insert_drops_the_answer Examples.greeting_env Examples.picky_hook
           (runAutonomousAgent Examples.greeting_env) Examples.picky_client
           Scenario.the_user Scenario.the_chat (js "key") (js "hello") Scenario.idle
           (snd (runAutonomousAgent Examples.greeting_env
                   (turn_input Examples.greeting_env Examples.picky_hook
                      Examples.picky_client Scenario.the_user Scenario.the_chat
                      (js "key") (js "hello") None Scenario.hello_saved)
                   (world_at_agent_call Examples.greeting_env Scenario.the_chat
                      Scenario.the_user (js "hello") Scenario.hello_saved
                      Scenario.idle)))
           Scenario.hello_saved
           (single (ai_text_message (js "autonomous-project") (js "chat-1")
                      (js "Hi there!")))
           [] []
           (ai_text_message (js "autonomous-project") (js "chat-1") (js "Hi there!"))
           (ErrorObj (js "insert failed"))).
  - reflexivity.
  - reflexivity.
  - reflexivity.
  - reflexivity.
  - reflexivity.
  - reflexivity.
  - vm_compute. reflexivity.
  - reflexivity.
  - intros d [].
  - reflexivity.
Defined.

(* ===================================================================== *)
(** ** Deleting a chat *)
(* ===================================================================== *)

Section DeleteChat.
Variables (client : SupabaseClient) (deleteChat : jsstring -> option exn).
Variables (chatId : jsstring) (w : world ChatList).

(** X20: when the deletion succeeds, called from a render that holds the
    current active chat: the chats left in the list are exactly those
    with another id, in their order; the active chat is kept unless it is
    the deleted one, in which case there is none any more; and the one
    toast is ['Chat deleted.']. *)
Theorem deleted_chat_leaves_the_list :
  deleteChat chatId = None ->
  exists s',
    handleDeleteChat (Some client) deleteChat (activeChat (st w)) chatId w
    = (Returned tt,
       mkWorld s' (trace w ++ [Toast (js "Chat deleted.") (js "info")]))
    /\ allChats s'
       = filter (fun c => negb (jsstring_eqb (chat_ident c) chatId)) (allChats (st w))
    /\ (forall c, In c (allChats s') -> chat_ident c <> chatId)
    /\ (forall c, activeChat s' = Some c
                  <-> activeChat (st w) = Some c /\ chat_ident c <> chatId).
Proof.
  intros Hok. unfold handleDeleteChat, try_catch. rewrite Hok.
  unfold bind at 1. unfold ret at 1.
  unfold bind at 1. unfold update at 1. cbn [st trace].
  unfold bind at 1.
  destruct (activeChat (st w)) as [a |] eqn:Ea.
  - destruct (jsstring_eqb (chat_ident a) chatId) eqn:Eid.
    + unfold update, emit. cbn [st trace allChats activeChat].
      eexists. split; [reflexivity |]. cbn [allChats activeChat].
      split; [reflexivity |]. split.
      * intros c Hc. apply filter_In in Hc as [_ Hc].
        apply negb_true_iff in Hc. now apply jsstring_eqb_false.
      * intros c. split; [discriminate |]. intros [[= <-] Hne].
        apply jsstring_eqb_true in Eid. contradiction.
    + unfold ret, emit. cbn [st trace allChats activeChat].
      eexists. split; [reflexivity |]. cbn [allChats activeChat].
      split; [reflexivity |]. split.
      * intros c Hc. apply filter_In in Hc as [_ Hc].
        apply negb_true_iff in Hc. now apply jsstring_eqb_false.
      * intros c. split.
        -- intros [= <-]. split; [reflexivity |]. now apply jsstring_eqb_false.
        -- now intros [H _].
  - unfold ret, emit. cbn [st trace allChats activeChat].
    eexists. split; [reflexivity |]. cbn [allChats activeChat].
    split; [reflexivity |]. split.
    + intros c Hc. apply filter_In in Hc as [_ Hc].
      apply negb_true_iff in Hc. now apply jsstring_eqb_false.
    + intros c. split; [discriminate | now intros [H _]].
Qed.

(** X21: when the deletion is rejected, [handleDeleteChat] does not
    reject: the error is swallowed, the list and the active chat are
    exactly as before, and the one toast is ['Failed to delete chat.'];
    this whatever active chat the render held. *)
Theorem failed_delete_changes_nothing (renderedActiveChat : option Chat) (e : exn) :
  deleteChat chatId = Some e ->
  handleDeleteChat (Some client) deleteChat renderedActiveChat chatId w
  = (Returned tt,
     mkWorld (st w) (trace w ++ [Toast (js "Failed to delete chat.") (js "error")])).
Proof.
  intros Hfail. unfold handleDeleteChat, try_catch. rewrite Hfail.
  unfold bind at 1. unfold throw at 1. reflexivity.
Qed.
End DeleteChat.

Lemma deleted_chat_leaves_the_list_witness :
  exists s',
    handleDeleteChat (Some (Scenario.client 0)) (fun _ => None)
      (activeChat (st (mkWorld Examples.chats []))) (js "b")
      (mkWorld Examples.chats [])
    = (Returned tt,
       mkWorld s'
         (trace (mkWorld Examples.chats [])
          ++ [Toast (js "Chat deleted.") (js "info")]))
    /\ allChats s'
       = filter (fun c => negb (jsstring_eqb (chat_ident c) (js "b")))
           (allChats (st (mkWorld Examples.chats [])))
    /\ (forall c, In c (allChats s') -> chat_ident c <> js "b")
    /\ (forall c, activeChat s' = Some c
                  <-> activeChat (st (mkWorld Examples.chats [])) = Some c
                      /\ chat_ident c <> js "b").
Proof.
  apply (deleted_chat_leaves_the_list (Scenario.client 0) (fun _ => None) (js "b")
           (mkWorld Examples.chats [])).
  reflexivity.
Defined.

Lemma failed_delete_changes_nothing_witness :
  handleDeleteChat (Some (Scenario.client 0))
    (fun _ => Some (ErrorObj (js "network")))
    (Some (Examples.chat_named "b")) (js "b") (mkWorld Examples.chats [])
  = (Returned tt,
     mkWorld (st (mkWorld Examples.chats []))
       (trace (mkWorld Examples.chats [])
        ++ [Toast (js "Failed to delete chat.") (js "error")])).
Proof.
  apply (failed_delete_changes_nothing (Scenario.client 0)
           (fun _ => Some (ErrorObj (js "network"))) (js "b")
           (mkWorld Examples.chats []) (Some (Examples.chat_named "b"))
           (ErrorObj (js "network"))).
  reflexivity.
Defined.

(* ===================================================================== *)
(** ** Search in the chat view *)
(* ===================================================================== *)

Section Search.
Variable toLowerCase : jsstring -> jsstring.
Variable searchQuery : jsstring.

Let hit (msg : Message) : bool := matches_query toLowerCase searchQuery msg.
Let tagged (messages : list Message) (start : Z) : list Z :=
  filter (fun index => negb (index =? -1)%Z)
    (map_index (fun msg index => if hit msg then index else (-1)%Z) messages start).

Lemma tagged_spec (messages : list Message) : forall (start i : Z),
  (0 <= start)%Z ->
  In i (tagged messages start)
  <-> (start <= i)%Z
      /\ exists msg, nth_error messages (Z.to_nat (i - start)) = Some msg
                     /\ hit msg = true.
Proof.
  unfold tagged. induction messages as [| x rest IH]; intros start i Hstart.
  - cbn [map_index filter]. split; [intros [] |].
    intros (_ & msg & H & _). now destruct (Z.to_nat (i - start)).
  - cbn [map_index]. cbn [filter]. specialize (IH (start + 1)%Z i ltac:(lia)).
    destruct (hit x) eqn:Ex.
    + assert (Hs : (start =? -1)%Z = false) by (apply Z.eqb_neq; lia).
      rewrite Hs. cbn [negb In]. rewrite IH. split.
      * intros [<- | (Hle & msg & Hn & Hm)].
        -- split; [lia |]. exists x. now rewrite Z.sub_diag.
        -- split; [lia |]. exists msg. split; [| exact Hm].
           replace (Z.to_nat (i - start)) with (S (Z.to_nat (i - (start + 1))))
             by lia.
           exact Hn.
      * intros (Hle & msg & Hn & Hm).
        destruct (Z.eq_dec start i) as [-> | Hne]; [now left | right].
        split; [lia |]. exists msg. split; [| exact Hm].
        replace (Z.to_nat (i - start)) with (S (Z.to_nat (i - (start + 1)))) in Hn
          by lia.
        exact Hn.
    + cbn [Z.eqb negb]. rewrite IH. split.
      * intros (Hle & msg & Hn & Hm). split; [lia |]. exists msg. split; [| exact Hm].
        replace (Z.to_nat (i - start)) with (S (Z.to_nat (i - (start + 1)))) by lia.
        exact Hn.
      * intros (Hle & msg & Hn & Hm).
        destruct (Z.eq_dec start i) as [<- | Hne].
        -- rewrite Z.sub_diag in Hn. cbn in Hn. injection Hn as <-. congruence.
        -- split; [lia |]. exists msg. split; [| exact Hm].
           replace (Z.to_nat (i - start)) with (S (Z.to_nat (i - (start + 1)))) in Hn
             by lia.
           exact Hn.
Qed.

Lemma tagged_sorted (messages : list Message) : forall (start : Z),
  (0 <= start)%Z ->
  StronglySorted Z.lt (tagged messages start)
  /\ Forall (fun i => start <= i < start + Z.of_nat (length messages))%Z
       (tagged messages start).
Proof.
  unfold tagged. induction messages as [| x rest IH]; intros start Hstart.
  - cbn [map_index filter]. split; constructor.
  - cbn [map_index]. cbn [filter].
    destruct (IH (start + 1)%Z ltac:(lia)) as [Hsorted Hrange].
    assert (Hwider :
      Forall (fun i => start <= i < start + Z.of_nat (length (x :: rest)))%Z
        (filter (fun index => negb (index =? -1)%Z)
           (map_index (fun msg index => if hit msg then index else (-1)%Z) rest
              (start + 1)%Z))).
    { eapply Forall_impl; [| exact Hrange]. cbn [length]. intros i Hi. lia. }
    destruct (hit x).
    + assert (Hs : (start =? -1)%Z = false) by (apply Z.eqb_neq; lia).
      rewrite Hs. cbn [negb]. split.
      * constructor; [exact Hsorted |].
        eapply Forall_impl; [| exact Hrange]. intros i Hi. cbn beta in Hi. lia.
      * constructor; [cbn [length]; lia | exact Hwider].
    + cbn [Z.eqb negb]. split; [exact Hsorted | exact Hwider].
Qed.

(** X22: the search effect and the rendering agree: a rendered message is
    dimmed exactly when the query is not blank and the index of the
    message is not among the search results reported by the effect. *)
Theorem dimmed_iff_not_a_search_hit (messages : list Message) (n : nat) (msg : Message) :
  nth_error messages n = Some msg ->
  isDimmed toLowerCase searchQuery msg = true
  <-> jsstring_eqb (trim searchQuery) [] = false
      /\ ~ In (Z.of_nat n) (search_results toLowerCase searchQuery messages).
Proof.
  intros Hn. unfold isDimmed, search_results.
  destruct (jsstring_eqb (trim searchQuery) []) eqn:Eq; cbn [negb andb].
  - split; [discriminate | now intros [H _]].
  - pose proof (tagged_spec messages 0%Z (Z.of_nat n) ltac:(lia)) as Hspec.
    rewrite Z.sub_0_r, Nat2Z.id in Hspec.
    change (In (Z.of_nat n) (tagged messages 0%Z))
      with (In (Z.of_nat n)
              (filter (fun index => negb (index =? -1)%Z)
                 (map_index
                    (fun msg index =>
                       if matches_query toLowerCase searchQuery msg
                       then index else (-1)%Z) messages 0%Z))) in Hspec.
    rewrite Hspec. fold hit. split.
    + intros Hdim. split; [reflexivity |]. intros (_ & msg' & Hn' & Hhit).
      rewrite Hn in Hn'. injection Hn' as <-. apply negb_true_iff in Hdim.
      unfold hit in Hhit. congruence.
    + intros [_ Hnot]. apply negb_true_iff.
      destruct (matches_query toLowerCase searchQuery msg) eqn:Eh; [| reflexivity].
      exfalso. apply Hnot. split; [lia |]. now exists msg.
Qed.

(** X23: the reported search results are indices of messages, strictly
    ascending (so without repetition), whatever the query and the
    messages. *)
Theorem search_results_ascending (messages : list Message) :
  StronglySorted Z.lt (search_results toLowerCase searchQuery messages)
  /\ Forall (fun i => 0 <= i < Z.of_nat (length messages))%Z
       (search_results toLowerCase searchQuery messages).
Proof.
  unfold search_results.
  destruct (jsstring_eqb (trim searchQuery) []); [split; constructor |].
  exact (tagged_sorted messages 0%Z ltac:(lia)).
Qed.
End Search.

Lemma dimmed_iff_not_a_search_hit_witness :
  isDimmed Examples.lower (js "cat") (Examples.said "m2" "a dog") = true
  <-> jsstring_eqb (trim (js "cat")) [] = false
      /\ ~ In (Z.of_nat 1) (search_results Examples.lower (js "cat") Examples.talk).
Proof.
  apply (dimmed_iff_not_a_search_hit Examples.lower (js "cat") Examples.talk 1
           (Examples.said "m2" "a dog")).
  reflexivity.
Defined.

(* ===================================================================== *)
(** ** The agent seen from the hook *)
(* ===================================================================== *)

Section ImagePlaceholder.
Variables (env : Env) (t : jsstring) (input : AgentInput View).
Variables (fullText visible prompt : jsstring) (w : world View).

Lemma image_case_after_event (f : Callback View) (s' : View) :
  onStreamChunk input = Some f ->
  f (JSON_stringify_start_event env visible) (st w) = (None, s') ->
  image_case env input fullText visible prompt w
  = image_case env (without_callback input) fullText visible prompt
      (mkWorld s'
         (trace w ++ [CallOnStreamChunk (JSON_stringify_start_event env visible)])).
Proof.
  intros Hcb Hf. unfold image_case. unfold bind at 1. rewrite Hcb.
  cbn [call_onStreamChunk]. rewrite Hf. reflexivity.
Qed.

Lemma image_case_keeps_state (w1 : world View) :
  st (snd (image_case env (without_callback input) fullText visible prompt w1))
  = st w1.
Proof.
  symmetry.
  apply (image_case_summary env (without_callback input) eq
           (fun a => eq_refl) (fun f H => ltac:(discriminate H))
           fullText visible prompt w1).
Qed.

(** X24: when the image case starts in a turn of the hook and
    [JSON.parse] reads the start event back as it was written, the AI
    placeholder shows the visible text of the response (in place of what
    was streamed into it) with the status ['generating'], and stays so
    until the agent is done, whatever the profile fetch, the credit gate
    and the image backend answer; no other message and not the loading
    flag are touched. *)
Theorem image_turn_marks_placeholder :
  onStreamChunk input = Some (hook_onStreamChunk env t) ->
  JSON_parse env (JSON_stringify_start_event env visible)
  = inr (start_event visible) ->
  st (snd (image_case env input fullText visible prompt w))
  = mkView
      (map (fun m => if has_id t m
                     then with_imageStatus (with_text m visible) generating
                     else m)
         (view_messages (st w)))
      (isLoading (st w)).
Proof.
  intros Hcb Hparse.
  assert (Hevent :
    start_event_text env (JSON_stringify_start_event env visible) = Some visible).
  { unfold start_event_text. rewrite Hparse. reflexivity. }
  pose proof (hook_onStreamChunk_cases env t (JSON_stringify_start_event env visible)
                (st w)) as Hf.
  rewrite Hevent in Hf.
  rewrite (image_case_after_event _ _ Hcb Hf).
  apply image_case_keeps_state.
Qed.
End ImagePlaceholder.

Lemma image_turn_marks_placeholder_witness :
  st (snd (image_case Examples.event_env Examples.event_input
             (js "On it!" +++ sentinel +++ Scenario.image_request +++ sentinel)
             (js "On it!") (js "a cat")
             (mkWorld
                (mkView [Scenario.hello_saved;
                         Examples.said "temp-ai-1735689600000" "On "] true) [])))
  = mkView
      (map (fun m => if has_id (tempAiMessageId Examples.event_env) m
                     then with_imageStatus (with_text m (js "On it!")) generating
                     else m)
         (view_messages
            (st (mkWorld
                   (mkView [Scenario.hello_saved;
                            Examples.said "temp-ai-1735689600000" "On "] true) []))))
      (isLoading
         (st (mkWorld
                (mkView [Scenario.hello_saved;
                         Examples.said "temp-ai-1735689600000" "On "] true) []))).
Proof.
  apply (image_turn_marks_placeholder Examples.event_env
           (tempAiMessageId Examples.event_env) Examples.event_input
           (js "On it!" +++ sentinel +++ Scenario.image_request +++ sentinel)
           (js "On it!") (js "a cat")
           (mkWorld
              (mkView [Scenario.hello_saved;
                       Examples.said "temp-ai-1735689600000" "On "] true) [])).
  - reflexivity.
  - vm_compute. reflexivity.
Defined.

Section AgentCalls.
Context {St : Type}.
Variables (env : Env) (input : AgentInput St).

Lemma dispatch_calls (fullText visible : jsstring) (payload : ParsedMetadata)
  (w : world St) :
  grows is_agent_call w (snd (dispatch env input fullText visible payload w)).
Proof.
  unfold dispatch. unfold bind at 1.
  destruct (handle_memory_grows (user_ident (user input)) (memoryToCreate payload) w)
    as (r & w1 & E & _ & G).
  rewrite E.
  assert (G1 : grows is_agent_call w w1)
    by (eapply grows_weaken; [| exact G]; now intros []).
  destruct r as [[] | e |]; cbn [snd]; try exact G1.
  destruct (nonblank_string (code_field payload)); [exact G1 |].
  destruct (nonblank_string (imagePrompt payload)) as [prompt |].
  - eapply grows_trans; [exact G1 |].
    destruct (image_case_summary env input (fun _ _ => True)
                (fun _ => I) (fun _ _ _ _ => I) fullText visible prompt w1)
      as (_ & _ & added & Ha & Hall & _).
    exists added. split; [exact Ha |].
    rewrite forallb_forall in *. intros ev Hev. specialize (Hall ev Hev).
    now destruct ev.
  - destruct (truthy_string visible); exact G1.
Qed.

Lemma agent_body_calls (w : world St) :
  grows is_agent_call w (snd (agent_body env input w)).
Proof.
  unfold agent_body. unfold bind at 1.
  pose proof (receive_grows env input w) as G.
  destruct (receive env input w) as [r w1]. specialize (G _ _ eq_refl).
  assert (G1 : grows is_agent_call w w1)
    by (eapply grows_weaken; [| exact G]; now intros []).
  destruct r as [s | e |]; cbn [snd]; try exact G1.
  unfold bind at 1.
  destruct (finalize_returns env (fullText s) w1) as (payload & w2 & E & _ & Gw).
  rewrite E. cbn [fst snd].
  eapply grows_trans; [exact G1 |].
  eapply grows_trans; [eapply grows_weaken; [| exact Gw]; now intros [] |].
  apply dispatch_calls.
Qed.

(** X25: whatever happens in a run, the agent persists no message, starts
    no memory extraction, updates no plan and raises no toast: the calls it
    adds are the model call, [onStreamChunk], the profile and settings
    fetches, the credit deduction, the image backend, [saveMemory] and the
    console. *)
Theorem agent_leaves_persistence_to_the_caller (w : world St) :
  exists added,
    trace (snd (runAutonomousAgent env input w)) = trace w ++ added
    /\ forallb is_agent_call added = true.
Proof.
  rewrite run_of_body. pose proof (agent_body_calls w) as G.
  destruct (agent_body env input w) as [[a | e |] w1]; cbn [snd] in *; try exact G.
  eapply grows_trans; [exact G |]. now apply grows_by.
Qed.
End AgentCalls.
